(** * Vision-grounded action loop of the sentience-sdk-playground demos

    A shallow embedding of the Python sources

      - [local_llm/check_cache_sizes.py]            ([format_size],
        [get_dir_size]),
      - [google_search/demo1_sdk/main.py]           ([filter_elements], the
        bounding-box validation of scenes 1 and 3, the ad filter of scene 3),
      - [amazon_shopping/demo2_vision_llm/vision_agent.py]
        ([VisionAgent.analyze_screenshot]),
      - [amazon_shopping/demo2_vision_llm/main.py]  (scenes 1 to 5),
      - [google_search/demo2_vision/main.py]        (scenes 1 to 4),

    and the properties of the action loop proved about them.

    Conventions.  Python exceptions are values of [exn]; a computation that
    may raise returns an [outcome].  Code that talks to the browser, the model
    provider or the token tracker runs in the monad [M] of section
    [ActionLoop]: it threads the state of the outside world and the list of
    calls made so far, and stops at the first exception.  Console output
    ([print]) is not modelled. *)

From Stdlib Require Import ZArith Lia Bool List.
From Stdlib Require Import Floats.SpecFloat.
From Stdlib Require Import Numbers.DecimalString.
From stdpp Require Import base option list strings gmap.

Local Open Scope string_scope.
Local Open Scope Z_scope.

(** ** Python exceptions and fallible results *)

Inductive exn : Type :=
  | PyException (msg : string)     (* [raise Exception(msg)] *)
  | AttributeError (msg : string)  (* attribute lookup on a value without it *)
  | TypeError (msg : string)
  | KeyError (key : string)
  | OverflowError (msg : string)
  | RecursionError (msg : string)
  | ValueError (msg : string)
  | ExternalError (cause : string). (* raised inside a library or driver call *)

Inductive outcome (A : Type) : Type :=
  | Ok (a : A)
  | Raise (e : exn).
Arguments Ok {A} a.
Arguments Raise {A} e.

Definition rbind {A B} (r : outcome A) (k : A -> outcome B) : outcome B :=
  match r with
  | Ok a => k a
  | Raise e => Raise e
  end.

(** Decimal rendering of a Python [int] ([str(n)]). *)
Definition str_of_Z (n : Z) : string := NilZero.string_of_int (Z.to_int n).

(** ** [check_cache_sizes.format_size] *)

Module CacheSizes.

(** Python floats are IEEE 754 binary64 numbers. *)
Definition prec : Z := 53.
Definition emax : Z := 1024.

Inductive pynum : Type :=
  | PInt (n : Z)
  | PFloat (f : spec_float).

(** [float(n)]: round to nearest, ties to even; an [int] beyond the range of
    a double raises [OverflowError]. *)
Definition float_of_int (n : Z) : outcome spec_float :=
  match binary_normalize prec emax n 0 false with
  | S754_infinity _ => Raise (OverflowError "int too large to convert to float")
  | f => Ok f
  end.

(** The literal [1024.0], that is 2^52 * 2^-42. *)
Definition f1024 : spec_float := S754_finite false 4503599627370496 (-42).

(** [bytes_size < 1024.0].  Python compares an [int] with a [float] exactly,
    without converting the [int]. *)
Definition lt_1024 (x : pynum) : bool :=
  match x with
  | PInt n => n <? 1024
  | PFloat f => SFltb f f1024
  end.

(** [bytes_size / 1024.0]: a true division, which converts an [int] operand
    to [float] first. *)
Definition div_1024 (x : pynum) : outcome pynum :=
  match x with
  | PInt n => rbind (float_of_int n) (fun f => Ok (PFloat (SFdiv prec emax f f1024)))
  | PFloat f => Ok (PFloat (SFdiv prec emax f f1024))
  end.

(** The number of tenths nearest to [m * 2^e], ties to the even one: the
    correctly rounded conversion done by ['%.1f']. *)
Definition round_tenths (m : positive) (e : Z) : Z :=
  match e with
  | Zneg p =>
      let d := 2 ^ Zpos p in
      let q := (10 * Zpos m) / d in
      let r := (10 * Zpos m) mod d in
      match 2 * r ?= d with
      | Lt => q
      | Gt => q + 1
      | Eq => if Z.even q then q else q + 1
      end
  | _ => 10 * Zpos m * 2 ^ e
  end.

Definition sign_prefix (s : bool) : string := if s then "-" else "".

(** [format(f, '.1f')] for a float [f]. *)
Definition format_1f_float (f : spec_float) : string :=
  match f with
  | S754_nan => "nan"
  | S754_infinity s => sign_prefix s ++ "inf"
  | S754_zero s => sign_prefix s ++ "0.0"
  | S754_finite s m e =>
      let t := round_tenths m e in
      sign_prefix s ++ str_of_Z (t / 10) ++ "." ++ str_of_Z (t mod 10)
  end.

(** [format(x, '.1f')]: an [int] is converted to [float] and then formatted. *)
Definition format_1f (x : pynum) : outcome string :=
  match x with
  | PInt n => rbind (float_of_int n) (fun f => Ok (format_1f_float f))
  | PFloat f => Ok (format_1f_float f)
  end.

(** [f"{bytes_size:.1f} {unit}"] *)
Definition fstring_size (x : pynum) (unit : string) : outcome string :=
  rbind (format_1f x) (fun s => Ok (s ++ " " ++ unit)).

Definition units : list string := ["B"; "KB"; "MB"; "GB"; "TB"].

(** The [for unit in [...]] loop, with the statement after it as the case of
    the exhausted list. *)
Fixpoint format_size_loop (us : list string) (bytes_size : pynum) : outcome string :=
  match us with
  | [] => fstring_size bytes_size "PB"
  | unit :: rest =>
      if lt_1024 bytes_size then fstring_size bytes_size unit
      else rbind (div_1024 bytes_size) (format_size_loop rest)
  end.

Definition format_size (bytes_size : pynum) : outcome string :=
  format_size_loop units bytes_size.

(** *** The loop, unrolled

    [scaled k x] is [x] divided [k] times, and [unit_index] the number of
    the first of the five units at which the loop stops. *)

Fixpoint scaled (k : nat) (x : pynum) : outcome pynum :=
  match k with
  | O => Ok x
  | S k' => rbind (scaled k' x) div_1024
  end.

Definition below_1024 (x : pynum) (k : nat) : bool :=
  match scaled k x with
  | Ok y => lt_1024 y
  | Raise _ => false
  end.

Definition unit_index (x : pynum) : nat :=
  match find (below_1024 x) (seq 0 5) with
  | Some k => k
  | None => 5%nat
  end.

Definition unit_names : list string := units ++ ["PB"].

Definition described_size (x : pynum) : outcome string :=
  rbind (scaled (unit_index x) x)
        (fun y => fstring_size y (nth (unit_index x) unit_names "PB")).

(** The check that every count below 1024 is printed as it is, with one zero
    decimal and the unit B. *)
Definition small_sizes_checked : bool :=
  forallb (fun k : nat =>
             match format_size (PInt (Z.of_nat k)) with
             | Ok s => String.eqb s (str_of_Z (Z.of_nat k) ++ ".0 B")
             | Raise _ => false
             end)
          (seq 0 1024).

End CacheSizes.

(** ** Python values, as [json.loads] produces them *)

#[warnings="-register-all"]
Inductive pyval : Type :=
  | VNone
  | VBool (b : bool)
  | VInt (n : Z)
  | VFloat (f : spec_float)
  | VStr (s : string)
  | VList (l : list pyval)
  | VDict (d : gmap string pyval).

(** [bool(v)] *)
Definition truthy (v : pyval) : bool :=
  match v with
  | VNone => false
  | VBool b => b
  | VInt n => negb (n =? 0)
  | VFloat (S754_zero _) => false
  | VFloat _ => true
  | VStr s => negb (String.eqb s "")
  | VList l => match l with [] => false | _ => true end
  | VDict d => negb (bool_decide (size d = 0%nat))
  end.

(** [v is None] *)
Definition is_none (v : pyval) : bool :=
  match v with
  | VNone => true
  | _ => false
  end.

(** [isinstance(v, dict)] *)
Definition is_dict (v : pyval) : bool :=
  match v with
  | VDict _ => true
  | _ => false
  end.

(** [a or b] *)
Definition py_or (a b : pyval) : pyval := if truthy a then a else b.

Definition no_attribute_get : exn :=
  AttributeError "object has no attribute 'get'".

(** [v.get(key, dflt)]; only a [dict] has the method. *)
Definition py_get_default (v : pyval) (key : string) (dflt : pyval) : outcome pyval :=
  match v with
  | VDict d => Ok (default dflt (d !! key))
  | _ => Raise no_attribute_get
  end.

(** [v.get(key)] *)
Definition py_get (v : pyval) (key : string) : outcome pyval :=
  py_get_default v key VNone.

(** [v[key]] on a [dict] (the only use in the sources follows a
    truthiness test of [v.get(key)], so the key is present). *)
Definition py_item (v : pyval) (key : string) : outcome pyval :=
  match v with
  | VDict d =>
      match d !! key with
      | Some x => Ok x
      | None => Raise (KeyError key)
      end
  | _ => Raise (TypeError "object is not subscriptable")
  end.

(** ** [demo1_sdk/main.py]: [filter_elements]

    The function copies a dictionary and rebinds one key of the copy, so
    whether the caller's dictionary is left intact depends on which objects
    are shared.  Dictionaries and lists therefore live in a heap and are
    passed by reference. *)

Module FilterElements.

Abbreviation loc := positive (only parsing).

Inductive hval : Type :=
  | HNone
  | HBool (b : bool)
  | HInt (n : Z)
  | HFloat (f : spec_float)
  | HStr (s : string)
  | HRef (l : loc).                 (* a list or a dict object *)

Inductive hobj : Type :=
  | OList (items : list hval)
  | ODict (d : gmap string hval).

Abbreviation heap := (gmap positive hobj) (only parsing).

(** A new object gets an address the heap does not use. *)
Definition alloc (h : heap) (o : hobj) : heap * loc :=
  let l := fresh (dom h) in (<[l := o]> h, l).

Definition no_attribute (name : string) : exn :=
  AttributeError ("object has no attribute '" ++ name ++ "'").

(** [v.get(key)] / [v.get(key, dflt)] for a heap value: [None] stands for a
    key that is absent. *)
Definition dict_of (h : heap) (v : hval) : outcome (gmap string hval) :=
  match v with
  | HRef l =>
      match h !! l with
      | Some (ODict d) => Ok d
      | _ => Raise (no_attribute "get")
      end
  | _ => Raise (no_attribute "get")
  end.

(** [len(v)] *)
Definition py_len (h : heap) (v : hval) : outcome nat :=
  match v with
  | HStr s => Ok (String.length s)
  | HRef l =>
      match h !! l with
      | Some (OList items) => Ok (length items)
      | Some (ODict d) => Ok (size d)
      | None => Raise (TypeError "object has no len()")
      end
  | _ => Raise (TypeError "object has no len()")
  end.

(** The values [for elem in v] goes through: the items of a list, the keys
    of a dict, the characters of a string. *)
Definition py_iter (h : heap) (v : hval) : outcome (list hval) :=
  match v with
  | HStr s => Ok (map (fun c => HStr (String c EmptyString)) (String.list_ascii_of_string s))
  | HRef l =>
      match h !! l with
      | Some (OList items) => Ok items
      | Some (ODict d) => Ok (map (fun kv => HStr (fst kv)) (map_to_list d))
      | None => Raise (TypeError "object is not iterable")
      end
  | _ => Raise (TypeError "object is not iterable")
  end.

(** [role not in exclude_roles], for a list of role names: only a string
    equals a string. *)
Definition role_not_in (role : hval) (exclude_roles : list string) : bool :=
  match role with
  | HStr r => negb (bool_decide (r ∈ exclude_roles))
  | _ => true
  end.

(** [elem.get('role') not in exclude_roles] *)
Definition keep_elem (h : heap) (exclude_roles : list string) (elem : hval) : outcome bool :=
  rbind (dict_of h elem)
        (fun d => Ok (role_not_in (default HNone (d !! "role")) exclude_roles)).

(** [[elem for elem in elems if elem.get('role') not in exclude_roles]] *)
Fixpoint comprehension (h : heap) (exclude_roles : list string) (elems : list hval)
  : outcome (list hval) :=
  match elems with
  | [] => Ok []
  | elem :: rest =>
      rbind (keep_elem h exclude_roles elem) (fun keep =>
      rbind (comprehension h exclude_roles rest) (fun kept =>
      Ok (if keep then elem :: kept else kept)))
  end.

(** [snapshot_data.get('elements', [])]; the default is a new empty list,
    which nothing refers to afterwards. *)
Definition get_elements (h : heap) (d : gmap string hval) : heap * hval :=
  match d !! "elements" with
  | Some v => (h, v)
  | None => let '(h', l) := alloc h (OList []) in (h', HRef l)
  end.

Definition filter_elements (h : heap) (snapshot_data : loc) (exclude_roles : list string)
  : outcome (heap * loc) :=
  (* filtered_data = snapshot_data.copy() *)
  match h !! snapshot_data with
  | Some (ODict d) =>
      let '(h1, filtered_data) := alloc h (ODict d) in
      (* original_count = len(snapshot_data.get('elements', [])) *)
      let '(h2, elems0) := get_elements h1 d in
      rbind (py_len h2 elems0) (fun original_count =>
      (* filtered_elements = [elem for elem in ... if ...] *)
      let '(h3, elems) := get_elements h2 d in
      rbind (py_iter h3 elems) (fun items =>
      rbind (comprehension h3 exclude_roles items) (fun kept =>
      let '(h4, filtered_elements) := alloc h3 (OList kept) in
      (* filtered_data['elements'] = filtered_elements *)
      match h4 !! filtered_data with
      | Some (ODict fd) =>
          let h5 := <[filtered_data := ODict (<["elements" := HRef filtered_elements]> fd)]> h4 in
          (* filtered_count = len(filtered_elements) ; return filtered_data *)
          Ok (h5, filtered_data)
      | _ => Raise (TypeError "object does not support item assignment")
      end)))
  | Some (OList items) =>
      (* a list has [copy] but no [get] *)
      Raise (no_attribute "get")
  | None => Raise (no_attribute "copy")
  end.

(** *** What the caller sees, in the words of the property *)

(** The elements of a snapshot: the list under ['elements'], none if the key
    is absent. *)
Definition snapshot_elements (h : heap) (d : gmap string hval) (items : list hval) : Prop :=
  match d !! "elements" with
  | None => items = []
  | Some v => exists l, v = HRef l /\ h !! l = Some (OList items)
  end.

(** Every element is a dictionary of the heap. *)
Definition is_element (h : heap) (v : hval) : Prop :=
  exists l d, v = HRef l /\ h !! l = Some (ODict d).

(** The role of an element is not one of the excluded ones. *)
Definition role_allowed (h : heap) (exclude_roles : list string) (v : hval) : bool :=
  match v with
  | HRef l =>
      match h !! l with
      | Some (ODict d) =>
          match d !! "role" with
          | Some (HStr r) => negb (bool_decide (r ∈ exclude_roles))
          | _ => true
          end
      | _ => true
      end
  | _ => true
  end.

End FilterElements.

(** ** The outside world: browser driver, model provider, token tracker *)

(** The chat-completion request built by [analyze_screenshot]. *)
Record request : Type := {
  req_model : string;
  req_system : string;              (* content of the system message *)
  req_text : string;                (* text part of the user message *)
  req_image_url : string;           (* image part of the user message *)
  req_detail : string;
  req_temperature_tenths : Z;       (* temperature=0.1 *)
  req_max_tokens : Z;
  req_response_format : string
}.

(** What the code reads of a completion: [response.usage] and
    [response.choices[0]]. *)
Record response : Type := {
  usage_prompt_tokens : Z;
  usage_completion_tokens : Z;
  message_content : option string;
  message_refusal : option string;
  finish_reason : string
}.

(** The calls that leave the program.  In [EvMouseClick] the count is [None]
    when [click_count] is not passed; the driver then clicks once, as it does
    for [click_count=1]. *)
Inductive event : Type :=
  | EvPlaywrightStart                        (* entering [with sync_playwright()] *)
  | EvPlaywrightStop                         (* leaving it *)
  | EvLaunch                                 (* p.chromium.launch(headless=False) *)
  | EvNewPage (width height : Z)
  | EvGoto (url : string)
  | EvWaitForLoadState (state : string)
  | EvSleep (ms : Z)                         (* time.sleep, in milliseconds *)
  | EvScreenshot (path : string)
  | EvMouseClick (x y : pyval) (click_count : option Z)
  | EvKeyboardType (text : string) (delay : Z)
  | EvKeyboardPress (key : string)
  | EvLocatorClick (selector : string)       (* page.locator(selector).first.click() *)
  | EvSetViewportSize (width height : Z)
  | EvBrowserClose
  | EvClickRect (bbox : pyval)               (* sentience.click_rect(browser, bbox, ...) *)
  | EvReadImage (path : string)              (* open(path, "rb").read() *)
  | EvCreate (req : request)                 (* client.chat.completions.create(...) *)
  | EvMakedirs (path : string)               (* os.makedirs(path, exist_ok=True) *)
  | EvSaveSummary (path : string)            (* tracker.save_to_file(path) *)
  | EvCreateVideo (dir out : string).        (* create_demo_video(...) *)

(** What [json.loads] does with a string: it returns a value, or raises a
    [JSONDecodeError] (given by its message), or raises something else.  The
    standard decoder raises [RecursionError] on a document nested deeper than
    the recursion limit and a plain [ValueError] on an integer literal longer
    than the digit limit of [int]; neither is a [JSONDecodeError]. *)
Inductive loads_outcome : Type :=
  | Loaded (result : pyval)
  | JSONDecodeError (msg : string)
  | LoadsRaises (e : exn).

(** The collaborators.  A driver call changes the world and may raise; the
    page address is read off the world; the provider answers a request or
    raises; [json.loads] is the decoder. *)
Record Env : Type := {
  World : Type;
  respond : World -> event -> World * option string;
  page_url : World -> string;
  read_image : World -> string -> outcome string;
  create : World -> request -> World * outcome response;
  json_loads : string -> loads_outcome;
  b64encode : string -> string
}.

(** A record of the Usage Ledger: a scene name with its input and output
    unit counts. *)
Record UsageRecord : Type := {
  ur_scene : string;
  ur_prompt_tokens : Z;
  ur_completion_tokens : Z
}.

Record state (E : Env) : Type := {
  world : World E;
  calls : list event;               (* the calls made so far, oldest first *)
  ledger : list UsageRecord
}.
Arguments world {E} s.
Arguments calls {E} s.
Arguments ledger {E} s.

(** State and exceptions. *)
Definition M (E : Env) (A : Type) : Type := state E -> state E * outcome A.

Definition ret {E A} (a : A) : M E A := fun s => (s, Ok a).

Definition bind {E A B} (m : M E A) (k : A -> M E B) : M E B :=
  fun s =>
    match m s with
    | (s', Ok a) => k a s'
    | (s', Raise e) => (s', Raise e)
    end.

Definition raise {E A} (e : exn) : M E A := fun s => (s, Raise e).

Definition lift {E A} (r : outcome A) : M E A := fun s => (s, r).

(** [try: m / except Exception as e: handler e] *)
Definition try_except {E A} (m : M E A) (handler : exn -> M E A) : M E A :=
  fun s =>
    match m s with
    | (s', Ok a) => (s', Ok a)
    | (s', Raise e) => handler e s'
    end.

(** A [with] block: [cleanup] runs however [m] ends. *)
Definition finally {E A} (m : M E A) (cleanup : M E unit) : M E A :=
  fun s =>
    match m s with
    | (s', r) =>
        match cleanup s' with
        | (s'', Ok _) => (s'', r)
        | (s'', Raise e) => (s'', Raise e)
        end
    end.

Declare Scope action_scope.
Delimit Scope action_scope with action.
Notation "x <- m ;; k" := (bind m (fun x => k))
  (at level 20, m at level 99, k at level 200, right associativity) : action_scope.
Notation "' pat <- m ;; k" := (bind m (fun x => match x with pat => k end))
  (at level 20, pat pattern, m at level 99, k at level 200, right associativity)
  : action_scope.
Notation "m ;; k" := (bind m (fun _ => k))
  (at level 100, k at level 200, right associativity) : action_scope.

Section ActionLoop.

Context {E : Env}.
Local Open Scope action_scope.

(** A call into the driver. *)
Definition call (ev : event) : M E unit :=
  fun s =>
    let '(w, r) := respond E (world s) ev in
    let s' := {| world := w; calls := calls s ++ [ev]; ledger := ledger s |} in
    match r with
    | None => (s', Ok tt)
    | Some cause => (s', Raise (ExternalError cause))
    end.

(** [page.url] *)
Definition get_url : M E string := fun s => (s, Ok (page_url E (world s))).

Definition sleep (ms : Z) : M E unit := call (EvSleep ms).

Definition mouse_click (x y : pyval) (click_count : option Z) : M E unit :=
  call (EvMouseClick x y click_count).

(** [os.path.join(directory, name)] *)
Definition path_join (directory name : string) : string :=
  directory ++ "/" ++ name.

(** [path = os.path.join(screenshots_dir, name); page.screenshot(path=path)] *)
Definition screenshot (screenshots_dir name : string) : M E string :=
  let path := path_join screenshots_dir name in
  call (EvScreenshot path) ;; ret path.

(** *** [vision_agent.py] *)

(** Modelled from the spec: [TokenTracker.log_interaction]
    ([shared/token_tracker.py] is not among the sources).  The Usage Ledger
    is append-only: the call
    [self.tracker.log_interaction(scene=..., prompt_tokens=..., completion_tokens=...)]
    adds one record and returns. *)
Definition log_interaction (scene : string) (prompt_tokens completion_tokens : Z) : M E unit :=
  fun s =>
    ({| world := world s; calls := calls s;
        ledger := ledger s ++ [ {| ur_scene := scene;
                                   ur_prompt_tokens := prompt_tokens;
                                   ur_completion_tokens := completion_tokens |} ] |},
     Ok tt).

(** [VisionAgent.encode_image] *)
Definition encode_image (image_path : string) : M E string :=
  fun s =>
    let s' := {| world := world s; calls := calls s ++ [EvReadImage image_path];
                 ledger := ledger s |} in
    match read_image E (world s) image_path with
    | Ok bytes => (s', Ok (b64encode E bytes))
    | Raise e => (s', Raise e)
    end.

(** [self.client.chat.completions.create(...)] *)
Definition chat_completions_create (req : request) : M E response :=
  fun s =>
    let '(w, r) := create E (world s) req in
    ({| world := w; calls := calls s ++ [EvCreate req]; ledger := ledger s |}, r).

Definition nl : string := String (Ascii.ascii_of_nat 10) EmptyString.

Definition system_message : string :=
  "You are a UI testing assistant that analyzes web page screenshots for automated testing purposes. You identify UI elements and return structured JSON responses with precise coordinates.".

Definition full_prompt (task_prompt : string) (viewport_width viewport_height : Z) : string :=
  task_prompt ++ nl ++ nl ++
  "IMPORTANT: Respond ONLY with valid JSON. No markdown, no explanation outside the JSON." ++ nl ++
  "The viewport size is " ++ str_of_Z viewport_width ++ "x" ++ str_of_Z viewport_height ++
  ". Provide coordinates relative to this viewport.".

(** The dictionary returned when the completion has no content. *)
Definition empty_response_result (r : response) : pyval :=
  let error_msg := "Vision LLM returned empty response." ++ nl in
  let error_msg := error_msg ++ "Finish reason: " ++ finish_reason r ++ nl in
  let error_msg :=
    match message_refusal r with
    | Some refusal =>
        if negb (String.eqb refusal "")
        then error_msg ++ "Refusal: " ++ refusal ++ nl
        else error_msg
    | None => error_msg
    end in
  VDict {[ "error" := VStr error_msg;
           "coordinates" := VNone;
           "reasoning" := VStr "LLM returned empty response" ]}.

(** The dictionary returned when [json.loads] raises [JSONDecodeError]. *)
Definition parse_error_result (e : string) : pyval :=
  VDict {[ "error" := VStr ("JSON parse error: " ++ e);
           "coordinates" := VNone;
           "reasoning" := VStr "Failed to parse LLM response" ]}.

(** The arguments of [self.client.chat.completions.create]. *)
Definition completion_request (model full_prompt base64_image : string) : request :=
  {| req_model := model;
     req_system := system_message;
     req_text := full_prompt;
     req_image_url := "data:image/png;base64," ++ base64_image;
     req_detail := "high";
     req_temperature_tenths := 1;
     req_max_tokens := 2000;
     req_response_format := "json_object" |}.

Definition analyze_screenshot (model : string)
    (image_path task_prompt scene_name : string)
    (viewport_width viewport_height : Z) : M E pyval :=
  base64_image <- encode_image image_path ;;
  response <- chat_completions_create
    (completion_request model
       (full_prompt task_prompt viewport_width viewport_height) base64_image) ;;
  (* track token usage *)
  log_interaction scene_name (usage_prompt_tokens response)
                  (usage_completion_tokens response) ;;
  (* parse response with error handling *)
  match message_content response with
  | None => ret (empty_response_result response)
  | Some content =>
      (* try: json.loads(...) / except json.JSONDecodeError as e: ... *)
      match json_loads E content with
      | Loaded result => ret result
      | JSONDecodeError e => ret (parse_error_result e)
      | LoadsRaises e => raise e
      end
  end.

(** The request of a call, its usage record, and how the call ends for a
    completion. *)
Definition request_for (model task_prompt : string)
    (viewport_width viewport_height : Z) (bytes : string) : request :=
  completion_request model
    (full_prompt task_prompt viewport_width viewport_height) (b64encode E bytes).

Definition usage_of (scene_name : string) (r : response) : UsageRecord :=
  {| ur_scene := scene_name;
     ur_prompt_tokens := usage_prompt_tokens r;
     ur_completion_tokens := usage_completion_tokens r |}.

Definition answer_of (r : response) : outcome pyval :=
  match message_content r with
  | None => Ok (empty_response_result r)
  | Some content =>
      match json_loads E content with
      | Loaded result => Ok result
      | JSONDecodeError e => Ok (parse_error_result e)
      | LoadsRaises e => Raise e
      end
  end.

(** The content of a completion is one the call has a result for: there is
    none, or [json.loads] returns a value or raises a [JSONDecodeError]. *)
Definition content_handled (r : response) : Prop :=
  match message_content r with
  | None => True
  | Some content =>
      match json_loads E content with
      | LoadsRaises _ => False
      | _ => True
      end
  end.

End ActionLoop.

(** What a run is started with: the key from the environment, the directory
    named after the start time, and the task prompts (long literals of the
    sources, whose text no step of the loop inspects). *)
Record config : Type := {
  openai_api_key : option string;
  script_dir : string;
  timestamp : string;
  prompt_scene1 : string;
  prompt_scene3 : string;
  prompt_scene4 : string;
  prompt_scene5 : string
}.

(** [if not openai_api_key] *)
Definition key_missing (c : config) : bool :=
  match openai_api_key c with
  | None => true
  | Some k => String.eqb k ""
  end.

Definition screenshots_dir (c : config) : string :=
  path_join (path_join (script_dir c) "screenshots") (timestamp c).

(** The three lines that read the target out of a decision:
<<
    coords = result.get('coordinates') or {}
    x = coords.get('x') if isinstance(coords, dict) else None
    y = coords.get('y') if isinstance(coords, dict) else None
>> *)
Definition read_coordinates (result : pyval) : outcome (pyval * pyval) :=
  rbind (py_get result "coordinates") (fun c =>
  let coords := py_or c (VDict ∅) in
  rbind (if is_dict coords then py_get coords "x" else Ok VNone) (fun x =>
  rbind (if is_dict coords then py_get coords "y" else Ok VNone) (fun y =>
  Ok (x, y)))).

(** ** [amazon_shopping/demo2_vision_llm/main.py] *)

Module Amazon.
Section Main.

Context {E : Env} (c : config).
Local Open Scope action_scope.

Definition product_link_selector : string :=
  "a[href*='/dp/'], a[href*='/gp/product/']".

(** Scene 1: navigate to Amazon and find the search bar. *)
Definition scene1_decide : M E pyval :=
  call (EvGoto "https://www.amazon.com") ;;
  call (EvWaitForLoadState "domcontentloaded") ;;
  sleep 3000 ;;
  screenshot_path <- screenshot (screenshots_dir c) "vision_scene1_homepage.png" ;;
  analyze_screenshot "gpt-4o" screenshot_path (prompt_scene1 c)
                     "Scene 1: Find Search Bar" 1920 1080.

Definition scene1_act (result : pyval) : M E unit :=
  coords <- lift (py_get_default result "coordinates" (VDict ∅)) ;;
  x <- lift (py_get coords "x") ;;
  y <- lift (py_get coords "y") ;;
  if is_none x || is_none y
  then raise (PyException "Could not find search bar coordinates")
  else
    mouse_click x y None ;;
    sleep 1000.

Definition scene1 : M E unit :=
  result <- scene1_decide ;; scene1_act result.

(** Scene 2: type the search query. *)
Definition scene2 : M E unit :=
  call (EvKeyboardType "Christmas gift" 100) ;;
  sleep 500 ;;
  screenshot (screenshots_dir c) "vision_scene2_typing.png" ;;
  call (EvKeyboardPress "Enter") ;;
  sleep 4000.

(** Scene 3: select a product from the search results. *)
Definition scene3_decide : M E pyval :=
  screenshot_path <- screenshot (screenshots_dir c) "vision_scene3_search_results.png" ;;
  analyze_screenshot "gpt-4o" screenshot_path (prompt_scene3 c)
                     "Scene 3: Select Product" 1920 1080.

(** The fallback of the inner branch ("Attempting fallback: clicking first
    product link by selector..."): the [try] block and its handler. *)
Definition scene3_selector_fallback : M E unit :=
  try_except
    (call (EvLocatorClick product_link_selector) ;;
     sleep 5000)
    (fun e => raise (PyException "Could not navigate to product page")).

(** The branch taken when the address did not change ("WARNING: URL did not
    change - click may have failed"). *)
Definition scene3_url_unchanged (x y : pyval) (url_before : string) : M E unit :=
  mouse_click x y (Some 1) ;;
  sleep 3000 ;;
  url_after <- get_url ;;
  if String.eqb url_before url_after
  then scene3_selector_fallback
  else ret tt.

Definition scene3_act (result : pyval) : M E unit :=
  '(x, y) <- lift (read_coordinates result) ;;
  if is_none x || is_none y
  then raise (PyException "Could not find product coordinates")
  else
    url_before <- get_url ;;
    mouse_click x y None ;;
    sleep 5000 ;;
    url_after <- get_url ;;
    if String.eqb url_before url_after
    then scene3_url_unchanged x y url_before
    else ret tt.

Definition scene3 : M E unit :=
  result <- scene3_decide ;; scene3_act result.

(** Scene 4: find and click "Add to Cart". *)
Definition scene4_decide : M E pyval :=
  call (EvSetViewportSize 1920 1600) ;;
  sleep 1000 ;;
  screenshot_path <- screenshot (screenshots_dir c) "vision_scene4_product_details.png" ;;
  analyze_screenshot "gpt-4o" screenshot_path (prompt_scene4 c)
                     "Scene 4: Add to Cart" 1920 1600.

Definition scene4_act (result : pyval) : M E unit :=
  '(x, y) <- lift (read_coordinates result) ;;
  (if is_none x || is_none y
   then
     try_except
       (call (EvLocatorClick "#add-to-cart-button"))
       (fun e => raise (PyException "Could not click Add to Cart button"))
   else mouse_click x y None) ;;
  sleep 3000.

Definition scene4 : M E unit :=
  result <- scene4_decide ;; scene4_act result.

(** [', '.join(v)]: [v] must be an iterable of strings. *)
Definition joinable (v : pyval) : outcome unit :=
  match v with
  | VStr _ | VDict _ => Ok tt
  | VList l =>
      if forallb (fun x => match x with VStr _ => true | _ => false end) l
      then Ok tt
      else Raise (TypeError "sequence item: expected str instance")
  | _ => Raise (TypeError "can only join an iterable")
  end.

(** Scene 5: verify success. *)
Definition scene5 : M E unit :=
  screenshot_path <- screenshot (screenshots_dir c) "vision_scene5_confirmation.png" ;;
  result <- analyze_screenshot "gpt-4o" screenshot_path (prompt_scene5 c)
                               "Scene 5: Verify Success" 1920 1080 ;;
  success <- lift (py_get result "success") ;;
  (if truthy success
   then
     elements <- lift (py_get_default result "confirmation_elements" (VList [])) ;;
     lift (joinable elements)
   else ret tt) ;;
  sleep 2000 ;;
  call EvBrowserClose.

(** The body of [with sync_playwright() as p]. *)
Definition scenes : M E unit :=
  call EvLaunch ;;
  call (EvNewPage 1920 1080) ;;
  scene1 ;;
  scene2 ;;
  scene3 ;;
  scene4 ;;
  scene5.

(** The part of that body that precedes scene 3. *)
Definition scenes_before_3 : M E unit :=
  call EvLaunch ;;
  call (EvNewPage 1920 1080) ;;
  scene1 ;;
  scene2.

Definition video_output : string :=
  path_join (path_join (script_dir c) "video") "demo2_vision_final.mp4".

Definition main : M E unit :=
  if key_missing c then ret tt
  else
    call (EvMakedirs (screenshots_dir c)) ;;
    call EvPlaywrightStart ;;
    finally scenes (call EvPlaywrightStop) ;;
    call (EvSaveSummary (path_join (screenshots_dir c) "token_summary.json")) ;;
    call (EvMakedirs (path_join (script_dir c) "video")) ;;
    try_except
      (call (EvCreateVideo (screenshots_dir c) video_output))
      (fun e => ret tt).

End Main.
End Amazon.

(** ** [google_search/demo2_vision/main.py]

    The agent of this demo is imported from [google_search/shared], which is
    not among the sources; the scenes take its [analyze_screenshot] as the
    argument [analyze] (image path, task prompt, scene name). *)

Module Google.
Section Main.

Context {E : Env} (c : config).
Variable analyze : string -> string -> string -> M E pyval.
Local Open Scope action_scope.

Definition scene1_decide : M E pyval :=
  call (EvGoto "https://www.google.com") ;;
  call (EvWaitForLoadState "domcontentloaded") ;;
  sleep 2000 ;;
  screenshot_path <- screenshot (screenshots_dir c) "vision_scene1_google_home.png" ;;
  analyze screenshot_path (prompt_scene1 c) "Scene 1: Find Search Box".

Definition scene1_act (result : pyval) : M E unit :=
  '(x, y) <- lift (read_coordinates result) ;;
  if is_none x || is_none y
  then raise (PyException "Could not find search box coordinates")
  else
    mouse_click x y None ;;
    sleep 500.

Definition scene1 : M E unit :=
  result <- scene1_decide ;; scene1_act result.

Definition scene2 : M E unit :=
  call (EvKeyboardType "visiting japan" 100) ;;
  sleep 500 ;;
  screenshot (screenshots_dir c) "vision_scene2_typing.png" ;;
  call (EvKeyboardPress "Enter") ;;
  sleep 3000.

Definition scene3_decide : M E pyval :=
  screenshot_path <- screenshot (screenshots_dir c) "vision_scene3_search_results.png" ;;
  analyze screenshot_path (prompt_scene3 c) "Scene 3: Select Search Result".

(** The branch taken when the address did not change. *)
Definition scene3_url_unchanged (x y : pyval) (url_before : string) : M E unit :=
  mouse_click x y (Some 1) ;;
  sleep 3000 ;;
  url_after <- get_url ;;
  if String.eqb url_before url_after
  then raise (PyException "Could not navigate to result page")
  else ret tt.

Definition scene3_act (result : pyval) : M E unit :=
  '(x, y) <- lift (read_coordinates result) ;;
  if is_none x || is_none y
  then raise (PyException "Could not find search result coordinates")
  else
    url_before <- get_url ;;
    mouse_click x y None ;;
    sleep 3000 ;;
    url_after <- get_url ;;
    if String.eqb url_before url_after
    then scene3_url_unchanged x y url_before
    else ret tt.

Definition scene3 : M E unit :=
  result <- scene3_decide ;; scene3_act result.

Definition scene4 : M E unit :=
  screenshot (screenshots_dir c) "vision_scene4_result_page.png" ;;
  sleep 2000 ;;
  call EvBrowserClose.

Definition scenes : M E unit :=
  call EvLaunch ;;
  call (EvNewPage 1920 1080) ;;
  scene1 ;;
  scene2 ;;
  scene3 ;;
  scene4.

Definition main : M E unit :=
  if key_missing c then ret tt
  else
    call (EvMakedirs (screenshots_dir c)) ;;
    call EvPlaywrightStart ;;
    finally scenes (call EvPlaywrightStop) ;;
    call (EvSaveSummary (path_join (screenshots_dir c) "token_summary.json")).

End Main.
End Google.

(** ** [google_search/demo1_sdk/main.py]: validation of the bounding box *)

Module GoogleSdk.
Section Validation.

Context {E : Env}.
Local Open Scope action_scope.

(** How a step of [main] ends: it goes on, or it executes [return]. *)
Inductive flow : Type := Continue | Return.

(** [not result.get('bbox') or result['bbox'].get('x') is None] *)
Definition invalid_bbox (result : pyval) : outcome bool :=
  rbind (py_get result "bbox") (fun b =>
  if negb (truthy b) then Ok true
  else
    rbind (py_item result "bbox") (fun bbox =>
    rbind (py_get bbox "x") (fun x =>
    Ok (is_none x)))).

(** Scene 1, from "Validate result" to the click. *)
Definition scene1_act (result : pyval) : M E flow :=
  invalid <- lift (invalid_bbox result) ;;
  if (invalid : bool) then ret Return
  else
    bbox <- lift (py_item result "bbox") ;;
    call (EvClickRect bbox) ;;
    sleep 500 ;;
    ret Continue.

(** Scene 3, from "Validate result" to the navigation check (whose two
    branches only print). *)
Definition scene3_act (result : pyval) : M E flow :=
  invalid <- lift (invalid_bbox result) ;;
  if (invalid : bool) then ret Return
  else
    url_before <- get_url ;;
    bbox <- lift (py_item result "bbox") ;;
    call (EvClickRect bbox) ;;
    sleep 3000 ;;
    url_after <- get_url ;;
    ret Continue.

End Validation.
End GoogleSdk.

(** ** The decisions and runs the properties speak of *)

(** A decision without usable coordinates: ['coordinates'] is missing, null
    or not a dict, or its ['x'] or ['y'] is [None]. *)
Definition no_usable_coordinates (d : gmap string pyval) : Prop :=
  match d !! "coordinates" with
  | None => True
  | Some (VDict coords) =>
      default VNone (coords !! "x") = VNone \/ default VNone (coords !! "y") = VNone
  | Some _ => True
  end.

(** A located decision: both coordinates are read and neither is [None]. *)
Definition located (result x y : pyval) : Prop :=
  read_coordinates result = Ok (x, y) /\ is_none x = false /\ is_none y = false.

(** A field that is absent or null. *)
Definition field_absent (fields : gmap string pyval) (key : string) : Prop :=
  fields !! key = None \/ fields !! key = Some VNone.

(** A field that is absent or not a number. *)
Definition field_invalid (fields : gmap string pyval) (key : string) : Prop :=
  match fields !! key with
  | Some (VInt _) | Some (VFloat _) => False
  | _ => True
  end.

(** A point decision with ['x'] or ['y'] absent or null, ['coordinates']
    itself being absent or a dict. *)
Definition point_field_absent (d : gmap string pyval) : Prop :=
  match d !! "coordinates" with
  | None => True
  | Some (VDict coords) => field_absent coords "x" \/ field_absent coords "y"
  | Some _ => False
  end.

(** A box decision without a box, or whose box is a dict with ['x'] absent
    or null. *)
Definition bbox_x_absent (d : gmap string pyval) : Prop :=
  match d !! "bbox" with
  | None => True
  | Some (VDict bbox) => field_absent bbox "x"
  | Some v => truthy v = false
  end.


(** A computation only adds to the record of calls. *)
Definition extends_calls {E : Env} {A} (m : M E A) : Prop :=
  forall s, exists later, calls (m s).1 = (calls s ++ later)%list.

(** The state a run starts in. *)
Definition initial {E : Env} (w : World E) : state E :=
  {| world := w; calls := []; ledger := [] |}.

(** ** Sample environments *)

Module Samples.

(** Scenario A: the decision [{"coordinates": {"x": 960, "y": 120}}]. *)
Definition scenario_a : pyval :=
  VDict {[ "coordinates" := VDict {[ "x" := VInt 960; "y" := VInt 120 ]} ]}.

(** Scenario B: the decision [{"coordinates": {"x": null, "y": 200}}]. *)
Definition scenario_b : gmap string pyval :=
  {[ "coordinates" := VDict {[ "x" := VNone; "y" := VInt 200 ]} ]}.

(** A decision whose ['x'] is a string. *)
Definition text_x : gmap string pyval :=
  {[ "coordinates" := VDict {[ "x" := VStr "abc"; "y" := VInt 200 ]} ]}.

(** A box decision without ['x']. *)
Definition box_without_x : gmap string pyval :=
  {[ "bbox" := VDict {[ "y" := VInt 4; "width" := VInt 10; "height" := VInt 10 ]} ]}.

(** Nested arrays, [depth] deep: ["[[[...]]]"]. *)
Fixpoint nested_arrays (depth : nat) : string :=
  match depth with
  | O => ""
  | S d => "[" ++ nested_arrays d ++ "]"
  end.

(** A JSON object whose value is nested deeper than the recursion limit. *)
Definition deeply_nested : string :=
  "{" ++ String (Ascii.ascii_of_nat 34) "coordinates" ++ String (Ascii.ascii_of_nat 34) ": "
  ++ nested_arrays 1000 ++ "}".

Definition sample_loads (content : string) : loads_outcome :=
  if String.eqb content "scenario A" then Loaded scenario_a
  else if String.eqb content deeply_nested
  then LoadsRaises (RecursionError
         "maximum recursion depth exceeded while decoding a JSON array from a unicode string")
  else JSONDecodeError "Expecting value: line 1 column 1 (char 0)".

Definition sample_response (content : option string) : response :=
  {| usage_prompt_tokens := 1105;
     usage_completion_tokens := 62;
     message_content := content;
     message_refusal := None;
     finish_reason := "stop" |}.

(** A page whose address never changes, whatever is clicked; the selector
    click works or times out; the provider answers [content]. *)
Definition stuck_page (locator_works : bool) (content : option string) : Env :=
  {| World := unit;
     respond := fun w ev =>
       match ev with
       | EvLocatorClick _ =>
           (w, if locator_works then None else Some "Timeout 30000ms exceeded.")
       | _ => (w, None)
       end;
     page_url := fun _ => "https://www.amazon.com/s?k=Christmas+gift";
     read_image := fun _ _ => Ok "png";
     create := fun w _ => (w, Ok (sample_response content));
     json_loads := sample_loads;
     b64encode := fun bytes => bytes |}.

(** A provider that cannot be reached. *)
Definition offline : Env :=
  {| World := unit;
     respond := fun w _ => (w, None);
     page_url := fun _ => "https://www.amazon.com/";
     read_image := fun _ _ => Ok "png";
     create := fun w _ => (w, Raise (ExternalError "Connection error."));
     json_loads := sample_loads;
     b64encode := fun bytes => bytes |}.

(** The states in which the sample runs start. *)
Definition blank (locator_works : bool) (content : option string)
  : state (stuck_page locator_works content) :=
  initial (E:=stuck_page locator_works content) tt.

Definition blank_offline : state offline := initial (E:=offline) tt.

Definition sample_config : config :=
  {| openai_api_key := Some "sk-test";
     script_dir := "demo2_vision_llm";
     timestamp := "20250101_120000";
     prompt_scene1 := "Identify the search input field on the page.";
     prompt_scene3 := "Identify the first product listing element in search results.";
     prompt_scene4 := "Identify a button element with text Add to Cart on a product page.";
     prompt_scene5 := "Verify if a success confirmation is displayed on the page." |}.

(** The state of the sample run of the Amazon demo when the decision of
    scene 3 has been obtained: the page is stuck, the selector click times
    out, and the provider answers scenario A. *)
Definition after_decision : state (stuck_page false (Some "scenario A")) :=
  let s0 := blank false (Some "scenario A") in
  let sm := (call (EvMakedirs (screenshots_dir sample_config)) s0).1 in
  let sp := (call EvPlaywrightStart sm).1 in
  let s := (Amazon.scenes_before_3 sample_config sp).1 in
  (Amazon.scene3_decide sample_config s).1.

(** A snapshot with an image and a text box, in a heap of four objects. *)
Definition sample_snapshot : gmap string FilterElements.hval :=
  {[ "url" := FilterElements.HStr "https://www.google.com";
     "elements" := FilterElements.HRef 2 ]}.

Definition sample_heap : gmap positive FilterElements.hobj :=
  {[ 1%positive := FilterElements.ODict sample_snapshot;
     2%positive := FilterElements.OList [FilterElements.HRef 3; FilterElements.HRef 4];
     3%positive := FilterElements.ODict {[ "role" := FilterElements.HStr "img" ]};
     4%positive := FilterElements.ODict {[ "role" := FilterElements.HStr "combobox" ]} ]}.

End Samples.

(** ** [format_size] in integer arithmetic

    What [format_size] prints, without floats: the unit read off the powers
    of 1024, and the number of tenths nearest to the quotient, ties to the
    even one. *)

Module SizeArithmetic.

Definition magnitude (n : Z) : nat :=
  if n <? 1024 then 0
  else if n <? 1024 ^ 2 then 1
  else if n <? 1024 ^ 3 then 2
  else if n <? 1024 ^ 4 then 3
  else if n <? 1024 ^ 5 then 4
  else 5.

Definition nearest_tenths (num den : Z) : Z :=
  let q := (10 * num) / den in
  let r := (10 * num) mod den in
  match 2 * r ?= den with
  | Lt => q
  | Gt => q + 1
  | Eq => if Z.even q then q else q + 1
  end.

Definition decimal_tenths (t : Z) : string :=
  (str_of_Z (t / 10) ++ "." ++ str_of_Z (t mod 10))%string.

Definition decimal_size (n : Z) : string :=
  let k := magnitude n in
  (decimal_tenths (nearest_tenths n (1024 ^ Z.of_nat k))
   ++ " " ++ nth k CacheSizes.unit_names "PB")%string.

End SizeArithmetic.

(** ** [float(n)] in integer arithmetic

    The double that Python converts a count to, and the counts it refuses,
    without floats. *)

Module DoubleArithmetic.

(** The integer nearest to [num / den], ties to the even one. *)
Definition nearest (num den : Z) : Z :=
  let q := num / den in
  let r := num mod den in
  match 2 * r ?= den with
  | Lt => q
  | Gt => q + 1
  | Eq => if Z.even q then q else q + 1
  end.

(** The double nearest to a count, as an integer: a count of at most 53
    bits is a double; a longer one keeps its 53 leading bits, rounded to
    nearest, ties to even. *)
Definition nearest_double (n : Z) : Z :=
  let dropped := Z.log2 n - 52 in
  if dropped <=? 0 then n else nearest n (2 ^ dropped) * 2 ^ dropped.

(** The first count that [float] refuses: it would round to 2^1024. *)
Definition float_limit : Z := 2 ^ 1024 - 2 ^ 970.

(** A shift record for [M] shifted down to the unit [P]: the mantissa is the
    quotient, the round bit says whether the remainder reaches the half, the
    sticky bit whether anything is left beside that half. *)
Definition shifted (mrs : shr_record) (M P : Z) : Prop :=
  exists rho,
    0 <= rho < P /\
    0 <= shr_m mrs /\
    M = shr_m mrs * P + rho /\
    shr_r mrs = (P <=? 2 * rho) /\
    shr_s mrs = negb ((rho =? 0) || (2 * rho =? P)).

End DoubleArithmetic.

(** ** [check_cache_sizes.get_dir_size]

    The part of the file system the function looks at.  An entry of a
    directory is a regular file, whose [stat] gives a size or raises
    [OSError]; a directory, whose [os.scandir] gives its entries or raises
    [PermissionError]; or something else (a symbolic link, a socket), for
    which [is_file(follow_symlinks=False)] and [is_dir(follow_symlinks=False)]
    are both false. *)

Module DirSize.

#[warnings="-register-all"]
Inductive entry : Type :=
  | RegularFile (st_size : option Z)
  | Directory (listing : option (list entry))
  | Other.

(** [get_dir_size(entry.path)] for a path that exists.  On a path that is
    not a directory [os.scandir] raises [NotADirectoryError], an [OSError];
    an exception inside the loop is caught outside it, so the loop is
    abandoned and the total reached so far is returned. *)
Fixpoint scan (e : entry) : Z :=
  match e with
  | Directory (Some entries) =>
      (fix loop (es : list entry) (total : Z) {struct es} : Z :=
         match es with
         | [] => total
         | RegularFile (Some size) :: rest => loop rest (total + size)
         | RegularFile None :: _ => total
         | (Directory _ as d) :: rest => loop rest (total + scan d)
         | Other :: rest => loop rest total
         end) entries 0
  | _ => 0
  end.

(** The loop of [scan], by itself. *)
Fixpoint scan_entries (es : list entry) (total : Z) : Z :=
  match es with
  | [] => total
  | RegularFile (Some size) :: rest => scan_entries rest (total + size)
  | RegularFile None :: _ => total
  | (Directory _ as d) :: rest => scan_entries rest (total + scan d)
  | Other :: rest => scan_entries rest total
  end.

(** [get_dir_size(path)]: [None] is a path that does not exist, and [Some e]
    is what the path leads to. *)
Definition get_dir_size (target : option entry) : Z :=
  match target with
  | None => 0
  | Some e => scan e
  end.

(** *** What there is to count *)

(** The sizes of all regular files below an entry whose size can be read. *)
Fixpoint file_sizes (e : entry) : list Z :=
  match e with
  | RegularFile (Some size) => [size]
  | RegularFile None => []
  | Directory (Some entries) => flat_map file_sizes entries
  | Directory None => []
  | Other => []
  end.

Definition sum_sizes (sizes : list Z) : Z := fold_right Z.add 0 sizes.

(** Every file can be read and every directory listed. *)
Fixpoint readable (e : entry) : bool :=
  match e with
  | RegularFile (Some _) => true
  | RegularFile None => false
  | Directory (Some entries) => forallb readable entries
  | Directory None => false
  | Other => true
  end.

End DirSize.

(** ** [google_search/demo1_sdk/main.py]: the filter on ad markers *)

(** Lines 193-202 of [main], over the heap of [filter_elements].  The text of
    an element is lowered by [str.lower], which is an argument here. *)

Module AdFilter.
Import FilterElements.
Section Lower.

Variable lower : string -> string.

Definition ad_markers : list string := ["ad"; "sponsored"; "·"].

(** [ad_marker in text], for two strings *)
Definition contains (ad_marker text : string) : bool :=
  match String.index 0 ad_marker text with
  | Some _ => true
  | None => false
  end.

(** [any(ad_marker in elem.get('text', '').lower() for ad_marker in [...])] *)
Definition is_ad (h : heap) (elem : hval) : outcome bool :=
  rbind (dict_of h elem) (fun d =>
  match default (HStr "") (d !! "text") with
  | HStr text => Ok (existsb (fun ad_marker => contains ad_marker (lower text)) ad_markers)
  | _ => Raise (no_attribute "lower")
  end).

(** [[elem for elem in elems if not any(...)]] *)
Fixpoint non_ad (h : heap) (elems : list hval) : outcome (list hval) :=
  match elems with
  | [] => Ok []
  | elem :: rest =>
      rbind (is_ad h elem) (fun ad =>
      rbind (non_ad h rest) (fun kept =>
      Ok (if negb ad then elem :: kept else kept)))
  end.

Definition filter_ads (h : heap) (filtered_data : loc) : outcome heap :=
  match h !! filtered_data with
  | Some (ODict d) =>
      (* original_count = len(filtered_data.get('elements', [])) *)
      let '(h1, elems0) := get_elements h d in
      rbind (py_len h1 elems0) (fun original_count =>
      (* non_ad_elements = [elem for elem in ... if not any(...)] *)
      let '(h2, elems) := get_elements h1 d in
      rbind (py_iter h2 elems) (fun items =>
      rbind (non_ad h2 items) (fun kept =>
      let '(h3, non_ad_elements) := alloc h2 (OList kept) in
      (* filtered_data['elements'] = non_ad_elements *)
      match h3 !! filtered_data with
      | Some (ODict fd) =>
          Ok (<[filtered_data := ODict (<["elements" := HRef non_ad_elements]> fd)]> h3)
      | _ => Raise (TypeError "object does not support item assignment")
      end)))
  | _ => Raise (no_attribute "get")
  end.

(** *** What the caller sees *)

(** The text of an element, lowered, has one of the markers in it; an
    element without ['text'] has the empty text. *)
Definition marked (h : heap) (v : hval) : bool :=
  match v with
  | HRef l =>
      match h !! l with
      | Some (ODict d) =>
          match default (HStr "") (d !! "text") with
          | HStr text =>
              existsb (fun ad_marker => contains ad_marker (lower text)) ad_markers
          | _ => false
          end
      | _ => false
      end
  | _ => false
  end.

(** An element with a text: a dictionary whose ['text'] is absent or a
    string. *)
Definition has_text (h : heap) (v : hval) : Prop :=
  exists l d, v = HRef l /\ h !! l = Some (ODict d) /\
              (d !! "text" = None \/ exists text, d !! "text" = Some (HStr text)).

(** An element whose ['text'] is there and is no string: null, a number, a
    list. *)
Definition text_not_a_string (h : heap) (v : hval) : Prop :=
  exists l d t, v = HRef l /\ h !! l = Some (ODict d) /\ d !! "text" = Some t /\
                match t with HStr _ => False | _ => True end.

End Lower.
End AdFilter.

(** An item of ['elements'] that is no dictionary: a scalar, or a list. *)
Definition not_a_dict (h : gmap positive FilterElements.hobj) (v : FilterElements.hval) : Prop :=
  match v with
  | FilterElements.HRef l => exists items, h !! l = Some (FilterElements.OList items)
  | _ => True
  end.

(** A value with no length: [None], a boolean, a number. *)
Definition no_len (v : FilterElements.hval) : Prop :=
  match v with
  | FilterElements.HStr _ | FilterElements.HRef _ => False
  | _ => True
  end.

(** ** Further notions for the runs of the demos *)

(** A computation that leaves the ledger as it is. *)
Definition keeps_ledger {E : Env} {A} (m : M E A) : Prop :=
  forall s s' r, m s = (s', r) -> ledger s' = ledger s.

(** What a computation adds to the ledger, by scene name: exactly [names]
    when it completes, and the first few of them when it raises. *)
Definition logs_scenes {E : Env} {A} (m : M E A) (names : list string) : Prop :=
  forall s s' r,
    m s = (s', r) ->
    exists added,
      map ur_scene (ledger s') = (map ur_scene (ledger s) ++ added)%list /\
      match r with
      | Ok _ => added = names
      | Raise _ => added `prefix_of` names
      end.

(** A verdict of scene 5 on which the scene does not raise: ['success'] is
    falsy, or the ['confirmation_elements'] can be joined. *)
Definition verdict_printable (d : gmap string pyval) : Prop :=
  truthy (default VNone (d !! "success")) = false \/
  Amazon.joinable (default (VList []) (d !! "confirmation_elements")) = Ok tt.

Module MoreSamples.
Import Samples.

(** A screenshot file that cannot be opened. *)
Definition unreadable : Env :=
  {| World := unit;
     respond := fun w _ => (w, None);
     page_url := fun _ => "https://www.amazon.com/";
     read_image := fun _ _ => Raise (ExternalError "No such file or directory");
     create := fun w _ => (w, Ok (sample_response (Some "scenario A")));
     json_loads := sample_loads;
     b64encode := fun bytes => bytes |}.

Definition blank_unreadable : state unreadable := initial (E:=unreadable) tt.

(** A page that navigates at the first mouse click (the world counts the
    clicks), on a machine where the video cannot be generated. *)
Definition responsive (content : option string) : Env :=
  {| World := nat;
     respond := fun w ev =>
       match ev with
       | EvMouseClick _ _ _ => (S w, None)
       | EvCreateVideo _ _ => (w, Some "No module named moviepy")
       | _ => (w, None)
       end;
     page_url := fun w =>
       match w with
       | O => "https://www.amazon.com/"
       | S _ => "https://www.amazon.com/dp/B000"
       end;
     read_image := fun _ _ => Ok "png";
     create := fun w _ => (w, Ok (sample_response content));
     json_loads := sample_loads;
     b64encode := fun bytes => bytes |}.

Definition blank_responsive (content : option string) : state (responsive content) :=
  initial (E:=responsive content) O.

(** A verdict with ['success'] true and no list to join. *)
Definition verdict_without_list : gmap string pyval :=
  {[ "success" := VBool true; "confirmation_elements" := VNone ]}.

Definition verdict_loads (content : string) : loads_outcome :=
  if String.eqb content "verdict" then Loaded (VDict verdict_without_list)
  else JSONDecodeError "Expecting value: line 1 column 1 (char 0)".

(** A provider that answers with that verdict. *)
Definition confirming : Env :=
  {| World := unit;
     respond := fun w _ => (w, None);
     page_url := fun _ => "https://www.amazon.com/cart";
     read_image := fun _ _ => Ok "png";
     create := fun w _ => (w, Ok (sample_response (Some "verdict")));
     json_loads := verdict_loads;
     b64encode := fun bytes => bytes |}.

Definition blank_confirming : state confirming := initial (E:=confirming) tt.

(** A box with ['x'] only. *)
Definition box_with_x_only : gmap string pyval :=
  {[ "bbox" := VDict {[ "x" := VInt 10 ]} ]}.

End MoreSamples.

(** Further samples: a cache directory, and the snapshots of a page of
    results. *)
Module FileSamples.
Import DirSize FilterElements.

(** A directory with a file whose [stat] fails between two that can be
    read, a subdirectory that cannot be listed and a symbolic link. *)
Definition cache_tree : entry :=
  Directory (Some [RegularFile (Some 1000);
                   Directory (Some [RegularFile (Some 48); Other]);
                   Directory None;
                   RegularFile None;
                   RegularFile (Some 5000)]).

Definition readable_entries : list entry :=
  [RegularFile (Some 1000); Other; Directory (Some [RegularFile (Some 48)])].

(** [str.lower] on the letters A to Z. *)
Definition lower_letter (c : Ascii.ascii) : Ascii.ascii :=
  let n := Ascii.nat_of_ascii c in
  if ((65 <=? n) && (n <=? 90))%nat then Ascii.ascii_of_nat (n + 32) else c.

Fixpoint ascii_lower (s : string) : string :=
  match s with
  | EmptyString => EmptyString
  | String c rest => String (lower_letter c) (ascii_lower rest)
  end.

(** Three results: a link, a link with "ad" inside a word, an image. *)
Definition results_snapshot : gmap string hval :=
  {[ "url" := HStr "https://www.google.com/search?q=visiting+japan";
     "elements" := HRef 2 ]}.

Definition results_heap : gmap positive hobj :=
  {[ 1%positive := ODict results_snapshot;
     2%positive := OList [HRef 3; HRef 4; HRef 5];
     3%positive := ODict {[ "role" := HStr "link"; "text" := HStr "Japan Travel Guide" ]};
     4%positive := ODict {[ "role" := HStr "link"; "text" := HStr "Roads of Japan" ]};
     5%positive := ODict {[ "role" := HStr "img" ]} ]}.

(** An element whose text is null. *)
Definition textless_snapshot : gmap string hval := {[ "elements" := HRef 2 ]}.

Definition textless_heap : gmap positive hobj :=
  {[ 1%positive := ODict textless_snapshot;
     2%positive := OList [HRef 3];
     3%positive := ODict {[ "role" := HStr "link"; "text" := HNone ]} ]}.

(** A snapshot whose ['elements'] is null, and one whose only element is a
    string. *)
Definition null_elements_heap : gmap positive hobj :=
  {[ 1%positive := ODict {[ "elements" := HNone ]} ]}.

Definition loose_snapshot : gmap string hval := {[ "elements" := HRef 2 ]}.

Definition loose_heap : gmap positive hobj :=
  {[ 1%positive := ODict loose_snapshot;
     2%positive := OList [HStr "combobox"] ]}.

End FileSamples.

(** * Properties *)

(** ** [format_size] *)

Module CacheSizesFacts.
Import CacheSizes.

Lemma scaled_succ (k : nat) (x : pynum) :
  scaled (S k) x = rbind (div_1024 x) (scaled k).
Proof.
  induction k as [|k IH]; simpl.
  - destruct (div_1024 x); reflexivity.
  - simpl in IH. rewrite IH. destruct (div_1024 x); reflexivity.
Qed.

Lemma below_1024_succ (x x' : pynum) (k : nat) :
  div_1024 x = Ok x' -> below_1024 x (S k) = below_1024 x' k.
Proof. intros H. unfold below_1024. rewrite scaled_succ, H. reflexivity. Qed.

Lemma below_1024_raise (x : pynum) (e : exn) (k : nat) :
  div_1024 x = Raise e -> below_1024 x (S k) = false.
Proof. intros H. unfold below_1024. rewrite scaled_succ, H. reflexivity. Qed.

Lemma find_seq_succ (f g : nat -> bool) (a len : nat) :
  (forall k, f (S k) = g k) ->
  find f (seq (S a) len) = option_map S (find g (seq a len)).
Proof.
  intros Hfg. revert a. induction len as [|len IH]; intros a; simpl; [reflexivity|].
  rewrite Hfg. destruct (g a); [reflexivity|]. apply IH.
Qed.

Lemma find_seq_none (f : nat -> bool) (a len : nat) :
  (forall k, f (S k) = false) -> find f (seq (S a) len) = None.
Proof.
  intros Hf. revert a. induction len as [|len IH]; intros a; simpl; [reflexivity|].
  rewrite Hf. apply IH.
Qed.

(** The loop, for any list of units: it stops at the first unit whose scaled
    value is below 1024 and otherwise falls through to PB. *)
Lemma format_size_loop_scaled (us : list string) (x : pynum) :
  format_size_loop us x =
  match find (below_1024 x) (seq 0 (length us)) with
  | Some k => rbind (scaled k x) (fun y => fstring_size y (nth k us "PB"))
  | None => rbind (scaled (length us) x) (fun y => fstring_size y "PB")
  end.
Proof.
  revert x. induction us as [|unit rest IH]; intros x; [reflexivity|].
  cbn [format_size_loop length seq find].
  change (below_1024 x 0) with (lt_1024 x).
  destruct (lt_1024 x); [reflexivity|].
  destruct (div_1024 x) as [x'|e] eqn:Hdiv.
  - cbn [rbind]. rewrite IH.
    rewrite (find_seq_succ (below_1024 x) (below_1024 x'))
      by (intros k; apply below_1024_succ; exact Hdiv).
    destruct (find (below_1024 x') (seq 0 (length rest))) as [k|]; cbn [option_map].
    + rewrite scaled_succ, Hdiv. reflexivity.
    + rewrite scaled_succ, Hdiv. reflexivity.
  - cbn [rbind].
    rewrite (find_seq_none (below_1024 x))
      by (intros k; apply (below_1024_raise x e); exact Hdiv).
    rewrite scaled_succ, Hdiv. reflexivity.
Qed.

Lemma format_size_described (x : pynum) : format_size x = described_size x.
Proof.
  unfold format_size, described_size, unit_index.
  rewrite format_size_loop_scaled.
  change (length units) with 5%nat.
  destruct (find (below_1024 x) (seq 0 5)) as [k|] eqn:Hfind; [|reflexivity].
  apply find_some in Hfind. destruct Hfind as [Hin _].
  apply in_seq in Hin.
  assert (Hk : (k = 0 \/ k = 1 \/ k = 2 \/ k = 3 \/ k = 4)%nat) by lia.
  destruct Hk as [-> | [-> | [-> | [-> | ->]]]]; reflexivity.
Qed.

Lemma small_sizes_checked_true : small_sizes_checked = true.
Proof. vm_compute. reflexivity. Qed.

Lemma format_size_small (n : Z) :
  0 <= n < 1024 -> format_size (PInt n) = Ok (str_of_Z n ++ ".0 B").
Proof.
  intros Hn.
  pose proof small_sizes_checked_true as H. unfold small_sizes_checked in H.
  rewrite forallb_forall in H.
  specialize (H (Z.to_nat n)).
  rewrite Z2Nat.id in H by lia.
  assert (Hin : In (Z.to_nat n) (seq 0 1024)) by (apply in_seq; lia).
  specialize (H Hin).
  destruct (format_size (PInt n)) as [s|e]; [|discriminate].
  apply String.eqb_eq in H. rewrite H. reflexivity.
Qed.

(** *** Conversion of an [int] to a [float] *)

Lemma digits2_pos_lt (p : positive) : Zpos p < 2 ^ Zpos (digits2_pos p).
Proof.
  induction p as [p IH|p IH|]; cbn [digits2_pos];
    rewrite ?Pos2Z.inj_succ, ?Z.pow_succ_r by lia; lia.
Qed.

Lemma digits2_pos_le (p : positive) (k : Z) :
  0 <= k -> Zpos p < 2 ^ k -> Zpos (digits2_pos p) <= k.
Proof.
  revert k. induction p as [p IH|p IH|]; intros k Hk Hlt; cbn [digits2_pos].
  - assert (k <> 0) by (intros ->; cbn in Hlt; lia).
    replace k with (Z.succ (k - 1)) in Hlt by lia.
    rewrite Z.pow_succ_r in Hlt by lia.
    specialize (IH (k - 1)). rewrite Pos2Z.inj_succ. lia.
  - assert (k <> 0) by (intros ->; cbn in Hlt; lia).
    replace k with (Z.succ (k - 1)) in Hlt by lia.
    rewrite Z.pow_succ_r in Hlt by lia.
    specialize (IH (k - 1)). rewrite Pos2Z.inj_succ. lia.
  - assert (k <> 0) by (intros ->; cbn in Hlt; lia). lia.
Qed.

Lemma Zdigits2_nonneg (m : Z) : 0 <= Zdigits2 m.
Proof. destruct m; cbn; lia. Qed.

Lemma Zdigits2_lt (m : Z) : 0 <= m -> m < 2 ^ Zdigits2 m.
Proof.
  destruct m as [|p|p]; intros H; [cbn; lia| |lia].
  apply digits2_pos_lt.
Qed.

Lemma Zdigits2_le (m k : Z) : 0 <= m -> 0 <= k -> m < 2 ^ k -> Zdigits2 m <= k.
Proof.
  destruct m as [|p|p]; intros H Hk Hlt; [cbn; lia| |lia].
  apply digits2_pos_le; assumption.
Qed.

Lemma digits2_pos_shift (p d : positive) :
  digits2_pos (Pos.iter xO p d) = (digits2_pos p + d)%positive.
Proof.
  induction d as [|d IH] using Pos.peano_ind.
  - cbn. lia.
  - rewrite Pos.iter_succ. cbn [digits2_pos]. rewrite IH. lia.
Qed.

(** C10 fails on the code: a count beyond the range of a double is not
    formatted; the conversion, and with it [format_size], raises. *)
Example format_size_overflow :
  format_size (PInt (2 ^ 1024))
  = Raise (OverflowError "int too large to convert to float").
Proof. vm_compute. reflexivity. Qed.

Example format_size_samples :
  format_size (PInt 0) = Ok "0.0 B" /\
  format_size (PInt 1023) = Ok "1023.0 B" /\
  format_size (PInt 1024) = Ok "1.0 KB" /\
  format_size (PInt 1280) = Ok "1.2 KB" /\
  format_size (PInt 1536000) = Ok "1.5 MB" /\
  format_size (PInt 123456789012345) = Ok "112.3 TB" /\
  format_size (PInt (2 ^ 60)) = Ok "1024.0 PB".
Proof. vm_compute. repeat split. Qed.

End CacheSizesFacts.

(** ** [filter_elements] *)

Module FilterElementsFacts.
Import FilterElements.

Lemma alloc_spec (h : heap) (o : hobj) :
  h !! (alloc h o).2 = None /\
  (alloc h o).1 = <[(alloc h o).2 := o]> h /\
  h ⊆ (alloc h o).1.
Proof.
  unfold alloc. cbn [fst snd].
  assert (Hfresh : h !! fresh (dom h) = None)
    by (apply not_elem_of_dom, is_fresh).
  split; [exact Hfresh|]. split; [reflexivity|].
  apply insert_subseteq. exact Hfresh.
Qed.

Lemma is_element_dict (h h' : heap) (v : hval) :
  h ⊆ h' -> is_element h v ->
  exists l d, v = HRef l /\ h !! l = Some (ODict d) /\ h' !! l = Some (ODict d).
Proof.
  intros Hsub (l & d & -> & Hl). exists l, d.
  split; [reflexivity|]. split; [exact Hl|].
  eapply lookup_weaken; eassumption.
Qed.

(** On elements that are dictionaries the comprehension is a filter, and it
    reads the same roles in any heap that extends the caller's. *)
Lemma comprehension_filter (h h' : heap) (exclude_roles : list string) (items : list hval) :
  h ⊆ h' ->
  Forall (is_element h) items ->
  comprehension h' exclude_roles items
  = Ok (List.filter (role_allowed h exclude_roles) items).
Proof.
  intros Hsub Hall. induction Hall as [|v items Hv _ IH]; [reflexivity|].
  destruct (is_element_dict h h' v Hsub Hv) as (l & d & -> & Hl & Hl').
  cbn [comprehension List.filter]. rewrite IH.
  unfold keep_elem, dict_of. rewrite Hl'. cbn [rbind].
  assert (Hrole : role_allowed h exclude_roles (HRef l)
                 = role_not_in (default HNone (d !! "role")) exclude_roles).
  { unfold role_allowed, role_not_in. rewrite Hl.
    destruct (d !! "role") as [[ | | | | r | ]|]; reflexivity. }
  rewrite Hrole. reflexivity.
Qed.

(** C9.  On a snapshot dictionary whose elements are dictionaries,
    [filter_elements] returns a new dictionary: its ['elements'] is a new
    list holding exactly the input elements whose role is not excluded, in
    their order; every other key has the value it has in the input; and no
    object of the caller's heap is changed, so the input dictionary and its
    own ['elements'] list are intact. *)
Theorem filter_elements_frame
    (h : heap) (snapshot_data : loc) (d : gmap string hval)
    (exclude_roles : list string) (items : list hval) :
  h !! snapshot_data = Some (ODict d) ->
  snapshot_elements h d items ->
  Forall (is_element h) items ->
  exists h' filtered_data filtered_elements d',
    filter_elements h snapshot_data exclude_roles = Ok (h', filtered_data) /\
    h' !! filtered_data = Some (ODict d') /\
    d' !! "elements" = Some (HRef filtered_elements) /\
    h' !! filtered_elements
    = Some (OList (List.filter (role_allowed h exclude_roles) items)) /\
    (forall k, k <> "elements" -> d' !! k = d !! k) /\
    h !! filtered_data = None /\
    h !! filtered_elements = None /\
    (forall a o, h !! a = Some o -> h' !! a = Some o).
Proof.
  intros Hsnap Helems Hall.
  unfold filter_elements. rewrite Hsnap.
  destruct (alloc_spec h (ODict d)) as (Hf1 & Hh1 & Hsub1).
  destruct (alloc h (ODict d)) as [h1 filtered_data] eqn:Ha1.
  cbn [fst snd] in Hf1, Hh1, Hsub1.
  assert (Hfd1 : h1 !! filtered_data = Some (ODict d))
    by (rewrite Hh1; apply lookup_insert_eq).
  (* the two reads of ['elements'] *)
  assert (Hread : exists h3 elems,
             h1 ⊆ h3 /\
             (let '(h2, elems0) := get_elements h1 d in
              rbind (py_len h2 elems0) (fun _ =>
              let '(h3', elems') := get_elements h2 d in
              rbind (py_iter h3' elems') (fun items' =>
              Ok (h3', items'))))
             = Ok (h3, items) /\ elems = items).
  { unfold snapshot_elements in Helems. unfold get_elements.
    destruct (d !! "elements") as [v|] eqn:Hv.
    - destruct Helems as (l & -> & Hl).
      assert (Hl1 : h1 !! l = Some (OList items))
        by (eapply lookup_weaken; eassumption).
      exists h1, items. split; [reflexivity|]. split; [|reflexivity].
      cbn [py_len py_iter]. rewrite Hl1. reflexivity.
    - subst items.
      destruct (alloc_spec h1 (OList [])) as (Hf2 & Hh2 & Hsub2).
      destruct (alloc h1 (OList [])) as [h2 l2] eqn:Ha2.
      cbn [fst snd] in Hf2, Hh2, Hsub2.
      destruct (alloc_spec h2 (OList [])) as (Hf3 & Hh3 & Hsub3).
      destruct (alloc h2 (OList [])) as [h3 l3] eqn:Ha3.
      cbn [fst snd] in Hf3, Hh3, Hsub3.
      exists h3, []. split; [etrans; eassumption|]. split; [|reflexivity].
      cbn [py_len py_iter].
      assert (H2 : h2 !! l2 = Some (OList [])) by (rewrite Hh2; apply lookup_insert_eq).
      assert (H3 : h3 !! l3 = Some (OList [])) by (rewrite Hh3; apply lookup_insert_eq).
      rewrite H2. cbn [rbind]. rewrite H3. reflexivity. }
  destruct Hread as (h3 & elems & Hsub3 & Hread & _).
  destruct (get_elements h1 d) as [h2 elems0].
  destruct (py_len h2 elems0) as [original_count|]; [|discriminate].
  cbn [rbind] in Hread |- *.
  destruct (get_elements h2 d) as [h3' elems'].
  destruct (py_iter h3' elems') as [items'|]; [|discriminate].
  cbn [rbind] in Hread |- *.
  injection Hread as -> ->.
  assert (Hsub : h ⊆ h3) by (etrans; eassumption).
  rewrite (comprehension_filter h h3 exclude_roles items Hsub Hall).
  cbn [rbind].
  set (kept := List.filter (role_allowed h exclude_roles) items).
  destruct (alloc_spec h3 (OList kept)) as (Hf4 & Hh4 & Hsub4).
  destruct (alloc h3 (OList kept)) as [h4 filtered_elements] eqn:Ha4.
  cbn [fst snd] in Hf4, Hh4, Hsub4.
  assert (Hfd4 : h4 !! filtered_data = Some (ODict d)).
  { eapply lookup_weaken; [|exact Hsub4].
    eapply lookup_weaken; [exact Hfd1|exact Hsub3]. }
  rewrite Hfd4.
  assert (Hne : filtered_data <> filtered_elements).
  { intros ->. assert (h3 !! filtered_elements = Some (ODict d))
      by (eapply lookup_weaken; [exact Hfd1|exact Hsub3]). congruence. }
  eexists _, filtered_data, filtered_elements, _.
  split; [reflexivity|].
  split; [apply lookup_insert_eq|].
  split; [apply lookup_insert_eq|].
  split.
  { rewrite lookup_insert_ne by exact Hne. rewrite Hh4. apply lookup_insert_eq. }
  split; [intros k Hk; apply lookup_insert_ne; congruence|].
  split; [exact Hf1|].
  split.
  { destruct (h !! filtered_elements) as [o|] eqn:Ho; [|reflexivity].
    assert (h3 !! filtered_elements = Some o)
      by (eapply lookup_weaken; [exact Ho|exact Hsub]). congruence. }
  intros a o Hao.
  assert (a <> filtered_data) by congruence.
  rewrite lookup_insert_ne by congruence.
  eapply lookup_weaken; [|exact Hsub4].
  eapply lookup_weaken; [exact Hao|exact Hsub].
Qed.

End FilterElementsFacts.

(** ** The monad of the action loop *)

Local Open Scope list_scope.

Section MonadFacts.

Context {E : Env}.
Local Open Scope action_scope.

Lemma bind_ok {A B} (m : M E A) (k : A -> M E B) (s s' : state E) (a : A) :
  m s = (s', Ok a) -> bind m k s = k a s'.
Proof. intros H. unfold bind. rewrite H. reflexivity. Qed.

Lemma bind_raise {A B} (m : M E A) (k : A -> M E B) (s s' : state E) (e : exn) :
  m s = (s', Raise e) -> bind m k s = (s', Raise e).
Proof. intros H. unfold bind. rewrite H. reflexivity. Qed.

Lemma try_except_ok {A} (m : M E A) (handler : exn -> M E A) (s s' : state E) (a : A) :
  m s = (s', Ok a) -> try_except m handler s = (s', Ok a).
Proof. intros H. unfold try_except. rewrite H. reflexivity. Qed.

Lemma try_except_raise {A} (m : M E A) (handler : exn -> M E A)
    (s s' : state E) (e : exn) :
  m s = (s', Raise e) -> try_except m handler s = handler e s'.
Proof. intros H. unfold try_except. rewrite H. reflexivity. Qed.

(** Whatever a driver call answers, it is recorded, and it records nothing
    in the ledger. *)
Lemma call_recorded (ev : event) (s s' : state E) (r : outcome unit) :
  call ev s = (s', r) ->
  calls s' = calls s ++ [ev] /\ ledger s' = ledger s.
Proof.
  unfold call. destruct (respond E (world s) ev) as [w [cause|]];
    intros H; injection H as <- _; split; reflexivity.
Qed.

Lemma sleep_recorded (ms : Z) (s s' : state E) (r : outcome unit) :
  sleep ms s = (s', r) ->
  calls s' = calls s ++ [EvSleep ms] /\ ledger s' = ledger s.
Proof. apply call_recorded. Qed.

Lemma mouse_click_recorded (x y : pyval) (n : option Z) (s s' : state E) (r : outcome unit) :
  mouse_click x y n s = (s', r) ->
  calls s' = calls s ++ [EvMouseClick x y n] /\ ledger s' = ledger s.
Proof. apply call_recorded. Qed.

Lemma bind_ok_inv {A B} (m : M E A) (k : A -> M E B) (s s' : state E) (b : B) :
  bind m k s = (s', Ok b) ->
  exists s1 a, m s = (s1, Ok a) /\ k a s1 = (s', Ok b).
Proof.
  unfold bind. destruct (m s) as [s1 [a|e]]; intros H; [eauto|discriminate].
Qed.

Lemma extends_calls_ret {A} (a : A) : extends_calls (ret (E:=E) a).
Proof. intros s. exists []. symmetry. apply app_nil_r. Qed.

Lemma extends_calls_raise {A} (e : exn) : extends_calls (raise (E:=E) (A:=A) e).
Proof. intros s. exists []. symmetry. apply app_nil_r. Qed.

Lemma extends_calls_get_url : extends_calls (get_url (E:=E)).
Proof. intros s. exists []. symmetry. apply app_nil_r. Qed.

Lemma extends_calls_call (ev : event) : extends_calls (call (E:=E) ev).
Proof.
  intros s. exists [ev]. destruct (call ev s) as [s' r] eqn:H.
  apply call_recorded in H. apply H.
Qed.

Lemma extends_calls_bind {A B} (m : M E A) (k : A -> M E B) :
  extends_calls m -> (forall a, extends_calls (k a)) -> extends_calls (bind m k).
Proof.
  intros Hm Hk s. destruct (Hm s) as [l1 H1]. unfold bind.
  destruct (m s) as [s1 [a|e]]; cbn [fst] in H1.
  - destruct (Hk a s1) as [l2 H2]. exists (l1 ++ l2).
    rewrite H2, H1. symmetry. apply app_assoc.
  - exists l1. exact H1.
Qed.

Lemma extends_calls_try_except {A} (m : M E A) (handler : exn -> M E A) :
  extends_calls m -> (forall e, extends_calls (handler e)) ->
  extends_calls (try_except m handler).
Proof.
  intros Hm Hh s. destruct (Hm s) as [l1 H1]. unfold try_except.
  destruct (m s) as [s1 [a|e]]; cbn [fst] in H1.
  - exists l1. exact H1.
  - destruct (Hh e s1) as [l2 H2]. exists (l1 ++ l2).
    rewrite H2, H1. symmetry. apply app_assoc.
Qed.

(** A computation that starts with a driver call has that call next in the
    record. *)
Lemma first_call_recorded {B} (ev : event) (k : unit -> M E B) (s : state E) :
  (forall a, extends_calls (k a)) ->
  exists later, calls (bind (call ev) k s).1 = calls s ++ [ev] ++ later.
Proof.
  intros Hk. unfold bind. destruct (call ev s) as [s1 [[]|e]] eqn:Hcall;
    apply call_recorded in Hcall; destruct Hcall as [Hc _].
  - destruct (Hk tt s1) as [later H]. exists later.
    rewrite H, Hc. symmetry. apply app_assoc.
  - exists []. cbn [fst]. rewrite Hc. reflexivity.
Qed.

End MonadFacts.

(** ** [VisionAgent.analyze_screenshot] *)

Section AgentFacts.

Context {E : Env}.
Local Open Scope action_scope.

Variables (model image_path task_prompt scene_name : string).
Variables (viewport_width viewport_height : Z).

(** Once the provider has answered, the call has read one image, sent one
    request and written one usage record, and it ends as the content makes
    it end. *)
Lemma analyze_screenshot_answered (s : state E) (bytes : string) (w : World E) (r : response) :
  read_image E (world s) image_path = Ok bytes ->
  create E (world s)
         (request_for (E:=E) model task_prompt viewport_width viewport_height bytes)
  = (w, Ok r) ->
  analyze_screenshot model image_path task_prompt scene_name
                     viewport_width viewport_height s
  = ({| world := w;
        calls := (calls s ++ [EvReadImage image_path])
                 ++ [EvCreate (request_for (E:=E) model task_prompt
                                           viewport_width viewport_height bytes)];
        ledger := ledger s ++ [usage_of scene_name r] |},
     answer_of (E:=E) r).
Proof.
  intros Hread Hcreate.
  unfold analyze_screenshot, bind, encode_image, chat_completions_create,
    log_interaction, answer_of.
  rewrite Hread. cbn [world calls ledger].
  unfold request_for in Hcreate. rewrite Hcreate.
  cbn [world calls ledger].
  destruct (message_content r) as [content|]; [|reflexivity].
  destruct (json_loads E content); reflexivity.
Qed.

Lemma string_app_assoc (a b c : string) : ((a ++ b) ++ c = a ++ b ++ c)%string.
Proof.
  induction a as [|ch a IH]; [reflexivity|].
  change (String ch ((a ++ b) ++ c) = String ch (a ++ b ++ c))%string.
  f_equal. exact IH.
Qed.

(** The contents the call has a result for.  When [json.loads] raises a
    [JSONDecodeError], the call returns the dictionary with the message of
    the error and a null ['coordinates']; when the completion has no content,
    it returns the dictionary that names the finish reason and, if there is
    one, the refusal. *)
Lemma analyze_screenshot_malformed
    (s : state E) (bytes : string) (w : World E) (r : response) :
  read_image E (world s) image_path = Ok bytes ->
  create E (world s)
         (request_for (E:=E) model task_prompt viewport_width viewport_height bytes)
  = (w, Ok r) ->
  let s' := {| world := w;
               calls := (calls s ++ [EvReadImage image_path])
                        ++ [EvCreate (request_for (E:=E) model task_prompt
                                        viewport_width viewport_height bytes)];
               ledger := ledger s ++ [usage_of scene_name r] |} in
  (forall content e,
      message_content r = Some content ->
      json_loads E content = JSONDecodeError e ->
      analyze_screenshot model image_path task_prompt scene_name
                         viewport_width viewport_height s
      = (s', Ok (VDict {[ "error" := VStr ("JSON parse error: " ++ e)%string;
                          "coordinates" := VNone;
                          "reasoning" := VStr "Failed to parse LLM response" ]}))) /\
  (message_content r = None ->
   analyze_screenshot model image_path task_prompt scene_name
                      viewport_width viewport_height s
   = (s', Ok (VDict {[ "error" :=
                         VStr ("Vision LLM returned empty response." ++ nl
                               ++ "Finish reason: " ++ finish_reason r ++ nl
                               ++ match message_refusal r with
                                  | Some refusal =>
                                      if String.eqb refusal "" then ""
                                      else "Refusal: " ++ refusal ++ nl
                                  | None => ""
                                  end)%string;
                       "coordinates" := VNone;
                       "reasoning" := VStr "LLM returned empty response" ]}))).
Proof.
  intros Hread Hcreate s'.
  pose proof (analyze_screenshot_answered s bytes w r Hread Hcreate) as Hrun.
  fold s' in Hrun. split.
  - intros content e Hcontent Hparse.
    rewrite Hrun. unfold answer_of. rewrite Hcontent, Hparse. reflexivity.
  - intros Hcontent.
    rewrite Hrun. unfold answer_of. rewrite Hcontent.
    unfold empty_response_result. do 4 f_equal.
    destruct (message_refusal r) as [refusal|];
      [destruct (String.eqb refusal "")|]; cbn [negb];
      rewrite ?string_app_assoc; cbn; rewrite ?string_app_assoc; reflexivity.
Qed.

(** C2.  The code does not keep every parse failure from the caller: it
    catches [JSONDecodeError] only.  When [json.loads] raises anything else
    on the content (a [RecursionError] on deep nesting, a [ValueError] on an
    integer literal beyond the digit limit), [analyze_screenshot] raises
    that exception, after the request and after the usage record. *)
Theorem analyze_screenshot_parse_exception_escapes
    (s : state E) (bytes : string) (w : World E) (r : response)
    (content : string) (e : exn) :
  read_image E (world s) image_path = Ok bytes ->
  create E (world s)
         (request_for (E:=E) model task_prompt viewport_width viewport_height bytes)
  = (w, Ok r) ->
  message_content r = Some content ->
  json_loads E content = LoadsRaises e ->
  analyze_screenshot model image_path task_prompt scene_name
                     viewport_width viewport_height s
  = ({| world := w;
        calls := (calls s ++ [EvReadImage image_path])
                 ++ [EvCreate (request_for (E:=E) model task_prompt
                                           viewport_width viewport_height bytes)];
        ledger := ledger s ++ [usage_of scene_name r] |},
     Raise e).
Proof.
  intros Hread Hcreate Hcontent Hparse.
  rewrite (analyze_screenshot_answered s bytes w r Hread Hcreate).
  unfold answer_of. rewrite Hcontent, Hparse. reflexivity.
Qed.

(** C3, as the code has it.  When the provider call raises, the exception
    leaves [analyze_screenshot] as it is: nothing is returned, the request
    has been made exactly once, and no usage record is written. *)
Theorem analyze_screenshot_provider_failure
    (s : state E) (bytes : string) (w : World E) (e : exn) :
  read_image E (world s) image_path = Ok bytes ->
  create E (world s)
         (request_for (E:=E) model task_prompt viewport_width viewport_height bytes)
  = (w, Raise e) ->
  analyze_screenshot model image_path task_prompt scene_name
                     viewport_width viewport_height s
  = ({| world := w;
        calls := (calls s ++ [EvReadImage image_path])
                 ++ [EvCreate (request_for (E:=E) model task_prompt
                                           viewport_width viewport_height bytes)];
        ledger := ledger s |},
     Raise e).
Proof.
  intros Hread Hcreate.
  unfold analyze_screenshot, bind, encode_image, chat_completions_create.
  rewrite Hread. cbn [world calls ledger].
  unfold request_for in Hcreate. rewrite Hcreate. reflexivity.
Qed.

(** C8.  A call that gets a completion from the provider ends with exactly
    one more record in the ledger: the scene name with the prompt and
    completion token counts of that completion.  The content plays no part
    in that: when it is empty or fails to parse with a [JSONDecodeError] (or
    parses), the call returns; and the record is written before the content
    is looked at, so it is there too when [json.loads] raises something
    else. *)
Theorem analyze_screenshot_logs_once
    (s : state E) (bytes : string) (w : World E) (r : response) :
  read_image E (world s) image_path = Ok bytes ->
  create E (world s)
         (request_for (E:=E) model task_prompt viewport_width viewport_height bytes)
  = (w, Ok r) ->
  exists s' res,
    analyze_screenshot model image_path task_prompt scene_name
                       viewport_width viewport_height s
    = (s', res) /\
    ledger s' = ledger s ++ [usage_of scene_name r] /\
    (content_handled (E:=E) r -> exists result, res = Ok result).
Proof.
  intros Hread Hcreate.
  eexists _, _. split; [|split].
  - apply (analyze_screenshot_answered s bytes w r Hread Hcreate).
  - reflexivity.
  - unfold content_handled, answer_of.
    destruct (message_content r) as [content|]; [|eauto].
    destruct (json_loads E content); [eauto|eauto|contradiction].
Qed.

(** Conversely, whenever the call returns at all, exactly one record was
    added; when it raises, none was, or the one of the completion whose
    content [json.loads] raised on. *)
Lemma analyze_screenshot_ledger (s s' : state E) (res : outcome pyval) :
  analyze_screenshot model image_path task_prompt scene_name
                     viewport_width viewport_height s = (s', res) ->
  match res with
  | Ok _ => exists r, ledger s' = ledger s ++ [usage_of scene_name r]
  | Raise _ =>
      ledger s' = ledger s \/ exists r, ledger s' = ledger s ++ [usage_of scene_name r]
  end.
Proof.
  unfold analyze_screenshot, bind, encode_image, chat_completions_create,
    log_interaction.
  destruct (read_image E (world s) image_path) as [bytes|e]; cbn [world calls ledger].
  - destruct (create E (world s) _) as [w [r|e]]; cbn [world calls ledger].
    + intros H.
      assert (Hs : ledger s' = ledger s ++ [usage_of scene_name r]).
      { destruct (message_content r) as [content|];
          [destruct (json_loads E content)|];
          injection H as <- _; reflexivity. }
      destruct res; eauto.
    + intros H. injection H as <- <-. left. reflexivity.
  - intros H. injection H as <- <-. left. reflexivity.
Qed.

End AgentFacts.

(** ** Validation of a decision *)

Section ValidationFacts.

Context {E : Env}.
Local Open Scope action_scope.

(** Without usable coordinates, one of the two values read is [None]. *)
Lemma read_coordinates_unusable (d : gmap string pyval) :
  no_usable_coordinates d ->
  exists x y,
    read_coordinates (VDict d) = Ok (x, y) /\ is_none x || is_none y = true.
Proof.
  unfold no_usable_coordinates, read_coordinates, py_get, py_get_default.
  cbn [rbind].
  destruct (d !! "coordinates") as [v|]; cbn [from_option id];
    [|intros _; eexists _, _; split; reflexivity].
  destruct v as [ |b|n|f|t|l|coords]; intros H; unfold py_or; cbn [truthy].
  - eexists _, _; split; reflexivity.
  - destruct b; eexists _, _; split; reflexivity.
  - destruct (negb (n =? 0)); eexists _, _; split; reflexivity.
  - destruct f; eexists _, _; split; reflexivity.
  - destruct (negb (String.eqb t "")); eexists _, _; split; reflexivity.
  - destruct l; eexists _, _; split; reflexivity.
  - destruct (negb (bool_decide (size coords = 0%nat)));
      [|eexists _, _; split; reflexivity].
    cbn [is_dict rbind].
    exists (default VNone (coords !! "x")), (default VNone (coords !! "y")).
    split; [reflexivity|].
    destruct H as [-> | ->]; [reflexivity|apply orb_true_r].
Qed.

(** C1.  A decision without usable coordinates makes the action step of
    scene 3 fail, in the Amazon demo and in the Google demo alike: it raises
    the exception of the scene and makes no call at all, so no mouse click
    is issued. *)
Theorem unusable_decision_fails_without_click (d : gmap string pyval) (s : state E) :
  no_usable_coordinates d ->
  Amazon.scene3_act (VDict d) s
  = (s, Raise (PyException "Could not find product coordinates")) /\
  Google.scene3_act (VDict d) s
  = (s, Raise (PyException "Could not find search result coordinates")).
Proof.
  intros H. destruct (read_coordinates_unusable d H) as (x & y & Hread & Hnone).
  unfold Amazon.scene3_act, Google.scene3_act, bind, lift.
  rewrite Hread, Hnone. split; reflexivity.
Qed.

(** The dictionaries that [analyze_screenshot] returns for content that is
    empty or does not parse are decisions without usable coordinates. *)
Lemma malformed_results_unusable (e : string) (r : response) :
  (exists d, parse_error_result e = VDict d /\ no_usable_coordinates d) /\
  (exists d, empty_response_result r = VDict d /\ no_usable_coordinates d).
Proof.
  split; eexists; (split; [reflexivity|]); vm_compute; exact I.
Qed.

Lemma field_absent_none (fields : gmap string pyval) (key : string) :
  field_absent fields key -> default VNone (fields !! key) = VNone.
Proof. intros [-> | ->]; reflexivity. Qed.

(** C4, as the code has it.  A point decision in which ['x'] or ['y'] is
    absent or null makes scene 1 of the Amazon demo raise its exception
    without a click; a box decision without a box, or whose box has ['x']
    absent or null, makes scenes 1 and 3 of the SDK demo return without a
    click.  Nothing is said of the type of a value that is present. *)
Theorem absent_field_is_not_acted_on (d : gmap string pyval) (s : state E) :
  (point_field_absent d ->
   Amazon.scene1_act (VDict d) s
   = (s, Raise (PyException "Could not find search bar coordinates"))) /\
  (bbox_x_absent d ->
   GoogleSdk.scene1_act (VDict d) s = (s, Ok GoogleSdk.Return) /\
   GoogleSdk.scene3_act (VDict d) s = (s, Ok GoogleSdk.Return)).
Proof.
  split.
  - unfold point_field_absent, Amazon.scene1_act, bind, lift, py_get, py_get_default.
    destruct (d !! "coordinates") as [v|]; cbn [from_option id].
    + destruct v as [ |b|n|f|t|l|coords]; try contradiction.
      intros [H | H]; apply field_absent_none in H; rewrite H;
        [reflexivity|].
      rewrite orb_true_r. reflexivity.
    + intros _. reflexivity.
  - intros H.
    assert (Hinv : GoogleSdk.invalid_bbox (VDict d) = Ok true).
    { unfold bbox_x_absent in H.
      unfold GoogleSdk.invalid_bbox, py_get, py_get_default, py_item. cbn [rbind].
      destruct (d !! "bbox") as [v|]; cbn [from_option id]; [|reflexivity].
      destruct v as [ |b|n|f|t|l|bbox]; try (rewrite H; reflexivity).
      destruct (negb (truthy (VDict bbox))); [reflexivity|].
      cbn [rbind]. apply field_absent_none in H. rewrite H. reflexivity. }
    unfold GoogleSdk.scene1_act, GoogleSdk.scene3_act, bind, lift.
    rewrite Hinv. split; reflexivity.
Qed.

(** In scene 1 of the Amazon demo a null ['coordinates'], which is what
    [analyze_screenshot] returns for content that does not parse, ends in an
    [AttributeError] instead of the exception of the scene. *)
Lemma scene1_null_coordinates (e : string) (s : state E) :
  Amazon.scene1_act (parse_error_result e) s = (s, Raise no_attribute_get).
Proof. reflexivity. Qed.

End ValidationFacts.

(** ** The navigation check and the fallback chain *)

Section FallbackFacts.

Context {E : Env}.
Local Open Scope action_scope.

Variables (result x y : pyval).
Hypothesis Hlocated : located result x y.

Lemma located_amazon_scene3 (s : state E) :
  Amazon.scene3_act result s
  = (url_before <- get_url ;;
     mouse_click x y None ;;
     sleep 5000 ;;
     url_after <- get_url ;;
     if String.eqb url_before url_after
     then Amazon.scene3_url_unchanged x y url_before
     else ret tt) s.
Proof.
  destruct Hlocated as (Hread & Hx & Hy).
  unfold Amazon.scene3_act. unfold bind at 1, lift.
  rewrite Hread, Hx, Hy. reflexivity.
Qed.

Lemma located_google_scene3 (s : state E) :
  Google.scene3_act result s
  = (url_before <- get_url ;;
     mouse_click x y None ;;
     sleep 3000 ;;
     url_after <- get_url ;;
     if String.eqb url_before url_after
     then Google.scene3_url_unchanged x y url_before
     else ret tt) s.
Proof.
  destruct Hlocated as (Hread & Hx & Hy).
  unfold Google.scene3_act. unfold bind at 1, lift.
  rewrite Hread, Hx, Hy. reflexivity.
Qed.

(** With the address unchanged after the settle delay, the scene continues
    in the branch of the unchanged address. *)
Lemma amazon_unchanged_url (s s1 s2 : state E) :
  mouse_click x y None s = (s1, Ok tt) ->
  sleep 5000 s1 = (s2, Ok tt) ->
  page_url E (world s2) = page_url E (world s) ->
  Amazon.scene3_act result s
  = Amazon.scene3_url_unchanged x y (page_url E (world s)) s2.
Proof.
  intros Hclick Hsleep Hurl.
  rewrite located_amazon_scene3.
  unfold bind at 1, get_url at 1.
  rewrite (bind_ok _ _ _ _ _ Hclick), (bind_ok _ _ _ _ _ Hsleep).
  unfold bind at 1, get_url at 1.
  rewrite Hurl, String.eqb_refl. reflexivity.
Qed.

Lemma google_unchanged_url (s s1 s2 : state E) :
  mouse_click x y None s = (s1, Ok tt) ->
  sleep 3000 s1 = (s2, Ok tt) ->
  page_url E (world s2) = page_url E (world s) ->
  Google.scene3_act result s
  = Google.scene3_url_unchanged x y (page_url E (world s)) s2.
Proof.
  intros Hclick Hsleep Hurl.
  rewrite located_google_scene3.
  unfold bind at 1, get_url at 1.
  rewrite (bind_ok _ _ _ _ _ Hclick), (bind_ok _ _ _ _ _ Hsleep).
  unfold bind at 1, get_url at 1.
  rewrite Hurl, String.eqb_refl. reflexivity.
Qed.

(** C5.  A located decision is clicked; if the page address after the
    settle delay equals the address before the click, the attempt is not
    taken as a success: the scene goes on with the branch of the unchanged
    address, whose first action is to click the same point again.  This
    holds in the Amazon demo (settle delay 5 s) and in the Google demo
    (3 s). *)
Theorem unchanged_url_is_unconfirmed (s s1 : state E) :
  mouse_click x y None s = (s1, Ok tt) ->
  (forall s2,
      sleep 5000 s1 = (s2, Ok tt) ->
      page_url E (world s2) = page_url E (world s) ->
      Amazon.scene3_act result s
      = Amazon.scene3_url_unchanged x y (page_url E (world s)) s2 /\
      Amazon.scene3_act result s <> (s2, Ok tt) /\
      exists later,
        calls (Amazon.scene3_act result s).1
        = calls s ++ [EvMouseClick x y None; EvSleep 5000; EvMouseClick x y (Some 1)]
                  ++ later) /\
  (forall s2,
      sleep 3000 s1 = (s2, Ok tt) ->
      page_url E (world s2) = page_url E (world s) ->
      Google.scene3_act result s
      = Google.scene3_url_unchanged x y (page_url E (world s)) s2 /\
      Google.scene3_act result s <> (s2, Ok tt) /\
      exists later,
        calls (Google.scene3_act result s).1
        = calls s ++ [EvMouseClick x y None; EvSleep 3000; EvMouseClick x y (Some 1)]
                  ++ later).
Proof.
  intros Hclick. split.
  - intros s2 Hsleep Hurl.
    pose proof (amazon_unchanged_url s s1 s2 Hclick Hsleep Hurl) as Hrun.
    destruct (first_call_recorded (EvMouseClick x y (Some 1))
                (fun _ => sleep 3000 ;;
                          url_after <- get_url ;;
                          if String.eqb (page_url E (world s)) url_after
                          then Amazon.scene3_selector_fallback
                          else ret tt) s2) as [later Hlater].
    { intros _. apply extends_calls_bind; [apply extends_calls_call|].
      intros _. apply extends_calls_bind; [apply extends_calls_get_url|].
      intros u. destruct (String.eqb (page_url E (world s)) u);
        [|apply extends_calls_ret].
      apply extends_calls_try_except.
      - apply extends_calls_bind; [apply extends_calls_call|].
        intros _. apply extends_calls_call.
      - intros e. apply extends_calls_raise. }
    change (calls (Amazon.scene3_url_unchanged x y (page_url E (world s)) s2).1
            = calls s2 ++ [EvMouseClick x y (Some 1)] ++ later) in Hlater.
    apply mouse_click_recorded in Hclick. apply sleep_recorded in Hsleep.
    destruct Hclick as [Hc1 _]. destruct Hsleep as [Hc2 _].
    split; [exact Hrun|]. split.
    + intros Heq. rewrite <- Hrun, Heq in Hlater.
      cbn [fst] in Hlater. apply (f_equal length) in Hlater.
      rewrite !length_app in Hlater. cbn [length] in Hlater. lia.
    + exists later. rewrite Hrun, Hlater, Hc2, Hc1.
      rewrite <- !app_assoc. reflexivity.
  - intros s2 Hsleep Hurl.
    pose proof (google_unchanged_url s s1 s2 Hclick Hsleep Hurl) as Hrun.
    destruct (first_call_recorded (EvMouseClick x y (Some 1))
                (fun _ => sleep 3000 ;;
                          url_after <- get_url ;;
                          if String.eqb (page_url E (world s)) url_after
                          then raise (PyException "Could not navigate to result page")
                          else ret tt) s2) as [later Hlater].
    { intros _. apply extends_calls_bind; [apply extends_calls_call|].
      intros _. apply extends_calls_bind; [apply extends_calls_get_url|].
      intros u. destruct (String.eqb (page_url E (world s)) u);
        [apply extends_calls_raise|apply extends_calls_ret]. }
    change (calls (Google.scene3_url_unchanged x y (page_url E (world s)) s2).1
            = calls s2 ++ [EvMouseClick x y (Some 1)] ++ later) in Hlater.
    apply mouse_click_recorded in Hclick. apply sleep_recorded in Hsleep.
    destruct Hclick as [Hc1 _]. destruct Hsleep as [Hc2 _].
    split; [exact Hrun|]. split.
    + intros Heq. rewrite <- Hrun, Heq in Hlater.
      cbn [fst] in Hlater. apply (f_equal length) in Hlater.
      rewrite !length_app in Hlater. cbn [length] in Hlater. lia.
    + exists later. rewrite Hrun, Hlater, Hc2, Hc1.
      rewrite <- !app_assoc. reflexivity.
Qed.

(** When neither the click nor its repetition changes the address, the
    scene is left to the selector fallback. *)
Lemma unchanged_twice_reaches_selector_fallback (s s1 s2 s3 s4 : state E) :
  mouse_click x y None s = (s1, Ok tt) ->
  sleep 5000 s1 = (s2, Ok tt) ->
  page_url E (world s2) = page_url E (world s) ->
  mouse_click x y (Some 1) s2 = (s3, Ok tt) ->
  sleep 3000 s3 = (s4, Ok tt) ->
  page_url E (world s4) = page_url E (world s) ->
  Amazon.scene3_act result s = Amazon.scene3_selector_fallback s4 /\
  calls s4 = calls s ++ [EvMouseClick x y None; EvSleep 5000;
                         EvMouseClick x y (Some 1); EvSleep 3000].
Proof.
  intros Hclick Hsleep Hurl Hclick2 Hsleep2 Hurl2.
  pose proof (amazon_unchanged_url s s1 s2 Hclick Hsleep Hurl) as Hrun.
  split.
  - rewrite Hrun. unfold Amazon.scene3_url_unchanged.
    rewrite (bind_ok _ _ _ _ _ Hclick2), (bind_ok _ _ _ _ _ Hsleep2).
    unfold bind, get_url. rewrite Hurl2, String.eqb_refl. reflexivity.
  - apply mouse_click_recorded in Hclick, Hclick2.
    apply sleep_recorded in Hsleep, Hsleep2.
    destruct Hclick as [H1 _], Hsleep as [H2 _], Hclick2 as [H3 _], Hsleep2 as [H4 _].
    rewrite H4, H3, H2, H1. rewrite <- !app_assoc. reflexivity.
Qed.

(** The earlier strategies stop the chain when they confirm. *)
Lemma primary_click_confirmed (s s1 s2 : state E) :
  mouse_click x y None s = (s1, Ok tt) ->
  sleep 5000 s1 = (s2, Ok tt) ->
  page_url E (world s2) <> page_url E (world s) ->
  Amazon.scene3_act result s = (s2, Ok tt).
Proof.
  intros Hclick Hsleep Hurl.
  rewrite located_amazon_scene3.
  unfold bind at 1, get_url at 1.
  rewrite (bind_ok _ _ _ _ _ Hclick), (bind_ok _ _ _ _ _ Hsleep).
  unfold bind at 1, get_url at 1.
  destruct (String.eqb_spec (page_url E (world s)) (page_url E (world s2)));
    [congruence|reflexivity].
Qed.

Lemma repeated_click_confirmed (s s1 s2 s3 s4 : state E) :
  mouse_click x y None s = (s1, Ok tt) ->
  sleep 5000 s1 = (s2, Ok tt) ->
  page_url E (world s2) = page_url E (world s) ->
  mouse_click x y (Some 1) s2 = (s3, Ok tt) ->
  sleep 3000 s3 = (s4, Ok tt) ->
  page_url E (world s4) <> page_url E (world s) ->
  Amazon.scene3_act result s = (s4, Ok tt).
Proof.
  intros Hclick Hsleep Hurl Hclick2 Hsleep2 Hurl2.
  pose proof (amazon_unchanged_url s s1 s2 Hclick Hsleep Hurl) as Hrun.
  rewrite Hrun. unfold Amazon.scene3_url_unchanged.
  rewrite (bind_ok _ _ _ _ _ Hclick2), (bind_ok _ _ _ _ _ Hsleep2).
  unfold bind, get_url.
  destruct (String.eqb_spec (page_url E (world s)) (page_url E (world s4)));
    [congruence|reflexivity].
Qed.


(** The failure of the selector fallback that the code knows.  In a run of
    [main] that reaches scene 3 with this decision: if the address is
    unchanged after the click and after its repetition, the selector
    fallback is invoked; and if its click raises, the scene raises "Could not
    navigate to product page", which ends the scenes and [main] itself.
    After the selector click the only call is the one that leaves the [with]
    block: no call of scene 4 or 5 is made. *)
Lemma selector_fallback_failure_halts
    (c : config) (s0 sm sp s sd s1 s2 s3 s4 s5 sf : state E) (cause : string) :
  key_missing c = false ->
  call (EvMakedirs (screenshots_dir c)) s0 = (sm, Ok tt) ->
  call EvPlaywrightStart sm = (sp, Ok tt) ->
  Amazon.scenes_before_3 c sp = (s, Ok tt) ->
  Amazon.scene3_decide c s = (sd, Ok result) ->
  mouse_click x y None sd = (s1, Ok tt) ->
  sleep 5000 s1 = (s2, Ok tt) ->
  page_url E (world s2) = page_url E (world sd) ->
  mouse_click x y (Some 1) s2 = (s3, Ok tt) ->
  sleep 3000 s3 = (s4, Ok tt) ->
  page_url E (world s4) = page_url E (world sd) ->
  call (EvLocatorClick Amazon.product_link_selector) s4
  = (s5, Raise (ExternalError cause)) ->
  call EvPlaywrightStop s5 = (sf, Ok tt) ->
  Amazon.scene3 c s = (s5, Raise (PyException "Could not navigate to product page")) /\
  Amazon.scenes c sp = (s5, Raise (PyException "Could not navigate to product page")) /\
  Amazon.main c s0 = (sf, Raise (PyException "Could not navigate to product page")) /\
  calls sf = calls sd ++ [EvMouseClick x y None; EvSleep 5000;
                          EvMouseClick x y (Some 1); EvSleep 3000;
                          EvLocatorClick Amazon.product_link_selector;
                          EvPlaywrightStop].
Proof.
  intros Hkey Hmk Hstart Hbefore Hdecide
         Hclick Hsleep Hurl Hclick2 Hsleep2 Hurl2 Hlocator Hstop.
  destruct (unchanged_twice_reaches_selector_fallback sd s1 s2 s3 s4
              Hclick Hsleep Hurl Hclick2 Hsleep2 Hurl2) as [Hrun Hcalls].
  assert (Hscene3 : Amazon.scene3 c s
                    = (s5, Raise (PyException "Could not navigate to product page"))).
  { unfold Amazon.scene3. rewrite (bind_ok _ _ _ _ _ Hdecide), Hrun.
    unfold Amazon.scene3_selector_fallback.
    erewrite try_except_raise; [reflexivity|].
    apply bind_raise. exact Hlocator. }
  assert (Hscenes : Amazon.scenes c sp
                    = (s5, Raise (PyException "Could not navigate to product page"))).
  { unfold Amazon.scenes_before_3 in Hbefore.
    apply bind_ok_inv in Hbefore. destruct Hbefore as (sa & [] & Ha & Hbefore).
    apply bind_ok_inv in Hbefore. destruct Hbefore as (sb & [] & Hb & Hbefore).
    apply bind_ok_inv in Hbefore. destruct Hbefore as (sc & [] & Hc & Hbefore).
    unfold Amazon.scenes.
    rewrite (bind_ok _ _ _ _ _ Ha), (bind_ok _ _ _ _ _ Hb),
      (bind_ok _ _ _ _ _ Hc), (bind_ok _ _ _ _ _ Hbefore).
    apply bind_raise. exact Hscene3. }
  split; [exact Hscene3|]. split; [exact Hscenes|]. split.
  - unfold Amazon.main. rewrite Hkey.
    rewrite (bind_ok _ _ _ _ _ Hmk), (bind_ok _ _ _ _ _ Hstart).
    apply bind_raise. unfold finally. rewrite Hscenes, Hstop. reflexivity.
  - apply call_recorded in Hlocator, Hstop.
    destruct Hlocator as [H5 _], Hstop as [H6 _].
    rewrite H6, H5, Hcalls. rewrite <- !app_assoc. reflexivity.
Qed.

End FallbackFacts.

(** ** The properties on the sample environments *)

Module SampleRuns.
Import Samples.

Lemma scenario_a_located : located scenario_a (VInt 960) (VInt 120).
Proof. repeat split; vm_compute; reflexivity. Defined.

Lemma scenario_b_unusable : no_usable_coordinates scenario_b.
Proof. vm_compute. left. reflexivity. Defined.

Lemma unusable_decision_fails_without_click_witness :
  Amazon.scene3_act (E:=stuck_page true None) (VDict scenario_b) (blank true None)
  = (blank true None, Raise (PyException "Could not find product coordinates")) /\
  Google.scene3_act (E:=stuck_page true None) (VDict scenario_b) (blank true None)
  = (blank true None, Raise (PyException "Could not find search result coordinates")).
Proof.
  apply (unusable_decision_fails_without_click (E:=stuck_page true None)).
  vm_compute. left. reflexivity.
Defined.

Lemma analyze_screenshot_malformed_sample :
  (analyze_screenshot (E:=stuck_page true (Some "Sure! Here is the JSON"))
     "gpt-4o" "shot.png" "Find the product." "Scene 3: Select Product" 1920 1080
     (blank true (Some "Sure! Here is the JSON"))).2
  = Ok (VDict {[ "error" := VStr "JSON parse error: Expecting value: line 1 column 1 (char 0)";
                 "coordinates" := VNone;
                 "reasoning" := VStr "Failed to parse LLM response" ]}).
Proof.
  refine (f_equal snd
            (proj1 (analyze_screenshot_malformed
                      (E:=stuck_page true (Some "Sure! Here is the JSON"))
                      "gpt-4o" "shot.png" "Find the product." "Scene 3: Select Product"
                      1920 1080 (blank true (Some "Sure! Here is the JSON")) "png" tt
                      (sample_response (Some "Sure! Here is the JSON")) _ _)
                   "Sure! Here is the JSON" "Expecting value: line 1 column 1 (char 0)" _ _));
    reflexivity.
Defined.

(** C2 at a content nested deeper than the recursion limit: the
    [RecursionError] of [json.loads] leaves [analyze_screenshot]. *)
Lemma analyze_screenshot_parse_exception_escapes_witness :
  analyze_screenshot (E:=stuck_page true (Some deeply_nested))
    "gpt-4o" "shot.png" "Find the product." "Scene 3: Select Product" 1920 1080
    (blank true (Some deeply_nested))
  = ({| world := (tt : World (stuck_page true (Some deeply_nested)));
        calls := ([] ++ [EvReadImage "shot.png"])
                 ++ [EvCreate (request_for (E:=stuck_page true (Some deeply_nested))
                                 "gpt-4o" "Find the product." 1920 1080 "png")];
        ledger := [] ++ [usage_of "Scene 3: Select Product"
                                  (sample_response (Some deeply_nested))] |},
     Raise (RecursionError
              "maximum recursion depth exceeded while decoding a JSON array from a unicode string")).
Proof.
  apply (analyze_screenshot_parse_exception_escapes
           (E:=stuck_page true (Some deeply_nested))
           "gpt-4o" "shot.png" "Find the product." "Scene 3: Select Product"
           1920 1080 (blank true (Some deeply_nested)) "png" tt
           (sample_response (Some deeply_nested)) deeply_nested);
    reflexivity.
Defined.

(** C3 fails on the code: with a provider that cannot be reached the call
    raises the connection error; no dictionary is returned. *)
Lemma provider_failure_is_raised :
  (analyze_screenshot (E:=offline) "gpt-4o" "shot.png" "Find the product."
                      "Scene 3: Select Product" 1920 1080 blank_offline).2
  = Raise (ExternalError "Connection error.") /\
  ~ (exists result,
        (analyze_screenshot (E:=offline) "gpt-4o" "shot.png" "Find the product."
                            "Scene 3: Select Product" 1920 1080 blank_offline).2
        = Ok result).
Proof.
  split; [reflexivity|].
  intros [result H]. vm_compute in H. discriminate H.
Qed.

Lemma analyze_screenshot_provider_failure_witness :
  analyze_screenshot (E:=offline) "gpt-4o" "shot.png" "Find the product."
                     "Scene 3: Select Product" 1920 1080 blank_offline
  = ({| world := (tt : World offline);
        calls := ([] ++ [EvReadImage "shot.png"])
                 ++ [EvCreate (request_for (E:=offline) "gpt-4o" "Find the product."
                                           1920 1080 "png")];
        ledger := [] |},
     Raise (ExternalError "Connection error.")).
Proof.
  apply (analyze_screenshot_provider_failure (E:=offline)
           "gpt-4o" "shot.png" "Find the product." "Scene 3: Select Product"
           1920 1080 blank_offline "png" tt (ExternalError "Connection error."));
    reflexivity.
Defined.

(** C4 fails on the code: a decision whose ['x'] is the string ["abc"] is
    clicked. *)
Lemma text_coordinate_is_clicked :
  (exists coords,
      text_x !! "coordinates" = Some (VDict coords) /\ field_invalid coords "x") /\
  Amazon.scene1_act (E:=stuck_page true None) (VDict text_x) (blank true None)
  = ({| world := (tt : World (stuck_page true None));
        calls := [EvMouseClick (VStr "abc") (VInt 200) None; EvSleep 1000];
        ledger := [] |},
     Ok tt).
Proof.
  split; [|vm_compute; reflexivity].
  eexists. split; [vm_compute; reflexivity|]. vm_compute. exact I.
Qed.

Lemma absent_field_is_not_acted_on_witness :
  Amazon.scene1_act (E:=stuck_page true None) (VDict scenario_b) (blank true None)
  = (blank true None, Raise (PyException "Could not find search bar coordinates")) /\
  GoogleSdk.scene1_act (E:=stuck_page true None) (VDict box_without_x) (blank true None)
  = (blank true None, Ok GoogleSdk.Return).
Proof.
  split.
  - apply (proj1 (absent_field_is_not_acted_on (E:=stuck_page true None)
                    scenario_b (blank true None))).
    vm_compute. left. right. reflexivity.
  - apply (proj2 (absent_field_is_not_acted_on (E:=stuck_page true None)
                    box_without_x (blank true None))).
    vm_compute. left. reflexivity.
Defined.

Lemma unchanged_url_is_unconfirmed_witness :
  exists later,
    calls (Amazon.scene3_act (E:=stuck_page true None) scenario_a (blank true None)).1
    = [] ++ [EvMouseClick (VInt 960) (VInt 120) None; EvSleep 5000;
             EvMouseClick (VInt 960) (VInt 120) (Some 1)] ++ later.
Proof.
  refine (proj2 (proj2 (proj1
    (unchanged_url_is_unconfirmed (E:=stuck_page true None)
       scenario_a (VInt 960) (VInt 120) scenario_a_located (blank true None) _ _) _ _ _))).
  - reflexivity.
  - reflexivity.
  - reflexivity.
Defined.



Lemma selector_fallback_failure_halts_witness :
  (Amazon.main sample_config (blank false (Some "scenario A"))).2
  = Raise (PyException "Could not navigate to product page") /\
  calls (Amazon.main sample_config (blank false (Some "scenario A"))).1
  = calls after_decision ++ [EvMouseClick (VInt 960) (VInt 120) None; EvSleep 5000;
                             EvMouseClick (VInt 960) (VInt 120) (Some 1); EvSleep 3000;
                             EvLocatorClick Amazon.product_link_selector;
                             EvPlaywrightStop].
Proof.
  pose (s0 := blank false (Some "scenario A")).
  pose (sm := (call (EvMakedirs (screenshots_dir sample_config)) s0).1).
  pose (sp := (call EvPlaywrightStart sm).1).
  pose (s := (Amazon.scenes_before_3 sample_config sp).1).
  pose (s1 := (mouse_click (VInt 960) (VInt 120) None after_decision).1).
  pose (s2 := (sleep 5000 s1).1).
  pose (s3 := (mouse_click (VInt 960) (VInt 120) (Some 1) s2).1).
  pose (s4 := (sleep 3000 s3).1).
  pose (s5 := (call (EvLocatorClick Amazon.product_link_selector) s4).1).
  pose (sf := (call EvPlaywrightStop s5).1).
  destruct (selector_fallback_failure_halts
              scenario_a (VInt 960) (VInt 120) scenario_a_located
              sample_config s0 sm sp s after_decision s1 s2 s3 s4 s5 sf
              "Timeout 30000ms exceeded.")
    as (_ & _ & Hmain & Hcalls); try (vm_compute; reflexivity).
  fold s0. rewrite Hmain. split; [reflexivity|exact Hcalls].
Defined.

(** C7.  The code does not halt when the selector fallback fails to change
    the state.  On a page whose address never changes, the selector click is
    performed, nothing has changed after the click, after its repetition and
    after the selector click, and the run goes on: the next call is the first
    one of scene 4, the browser is closed at the end of scene 5, and [main]
    completes. *)
Theorem unconfirmed_selector_click_goes_on :
  (Amazon.main (E:=stuck_page true (Some "scenario A")) sample_config
               (blank true (Some "scenario A"))).2 = Ok tt /\
  (forall w, page_url (stuck_page true (Some "scenario A")) w
             = "https://www.amazon.com/s?k=Christmas+gift") /\
  exists before later,
    calls (Amazon.main (E:=stuck_page true (Some "scenario A")) sample_config
                       (blank true (Some "scenario A"))).1
    = before ++ [EvMouseClick (VInt 960) (VInt 120) None; EvSleep 5000;
                 EvMouseClick (VInt 960) (VInt 120) (Some 1); EvSleep 3000;
                 EvLocatorClick Amazon.product_link_selector; EvSleep 5000;
                 EvSetViewportSize 1920 1600] ++ later /\
    In EvBrowserClose later.
Proof.
  split; [vm_compute; reflexivity|]. split; [reflexivity|].
  exists (take 20 (calls (Amazon.main (E:=stuck_page true (Some "scenario A"))
                            sample_config (blank true (Some "scenario A"))).1)),
    (drop 27 (calls (Amazon.main (E:=stuck_page true (Some "scenario A"))
                       sample_config (blank true (Some "scenario A"))).1)).
  split; [vm_compute; reflexivity|].
  vm_compute. tauto.
Qed.

Lemma analyze_screenshot_logs_once_witness :
  exists s' result,
    analyze_screenshot (E:=stuck_page true None)
      "gpt-4o" "shot.png" "Find the product." "Scene 3: Select Product" 1920 1080
      (blank true None)
    = (s', Ok result) /\
    ledger s' = [] ++ [usage_of "Scene 3: Select Product" (sample_response None)].
Proof.
  destruct (analyze_screenshot_logs_once (E:=stuck_page true None)
              "gpt-4o" "shot.png" "Find the product." "Scene 3: Select Product"
              1920 1080 (blank true None) "png" tt (sample_response None)
              eq_refl eq_refl)
    as (s' & res & Hrun & Hledger & Hreturns).
  destruct (Hreturns I) as [result ->].
  exists s', result. split; [exact Hrun|exact Hledger].
Defined.

Section FilterSample.
Import FilterElements FilterElementsFacts.

Lemma filter_elements_frame_witness :
  exists h' filtered_data filtered_elements d',
    filter_elements sample_heap 1 ["img"; "button"; "link"] = Ok (h', filtered_data) /\
    h' !! filtered_data = Some (ODict d') /\
    d' !! "elements" = Some (HRef filtered_elements) /\
    h' !! filtered_elements
    = Some (OList (List.filter (role_allowed sample_heap ["img"; "button"; "link"])
                               [HRef 3; HRef 4])) /\
    (forall k, k <> "elements" -> d' !! k = sample_snapshot !! k) /\
    sample_heap !! filtered_data = None /\
    sample_heap !! filtered_elements = None /\
    (forall a o, sample_heap !! a = Some o -> h' !! a = Some o).
Proof.
  apply (filter_elements_frame sample_heap 1 sample_snapshot).
  - vm_compute. reflexivity.
  - exists 2%positive. split; vm_compute; reflexivity.
  - repeat constructor.
    + exists 3%positive, {[ "role" := HStr "img" ]}. split; vm_compute; reflexivity.
    + exists 4%positive, {[ "role" := HStr "combobox" ]}. split; vm_compute; reflexivity.
Defined.

End FilterSample.

End SampleRuns.

(** ** [format_size] without floats *)

Module SizeArithmeticFacts.
Import CacheSizes CacheSizesFacts SizeArithmetic.

Lemma pos_iter_xO (p d : positive) : Zpos (Pos.iter xO p d) = Zpos p * 2 ^ Zpos d.
Proof.
  induction d as [|d IH] using Pos.peano_ind.
  - cbn. lia.
  - rewrite Pos.iter_succ, Pos2Z.inj_succ, Z.pow_succ_r by lia.
    rewrite Pos2Z.inj_xO, IH. lia.
Qed.

Lemma fexp_normal (x : Z) : -1021 <= x -> fexp prec emax x = x - 53.
Proof. unfold fexp, emin, prec, emax. lia. Qed.

(** Rounding a mantissa of 53 digits leaves it as it is. *)
Lemma binary_round_aux_canonical (s : bool) (m : positive) (e : Z) :
  Zpos (digits2_pos m) = 53 ->
  -1074 <= e <= 971 ->
  binary_round_aux prec emax s (Zpos m) e loc_Exact = S754_finite s m e.
Proof.
  intros Hd He.
  assert (Hshift : fexp prec emax (Zdigits2 (Zpos m) + e) - e = 0).
  { cbn [Zdigits2]. rewrite Hd, fexp_normal by lia. lia. }
  unfold binary_round_aux, shr_fexp, shr. rewrite Hshift.
  cbn [shr_record_of_loc shr_m loc_of_shr_record round_nearest_even].
  rewrite Hshift. cbn [shr_m].
  destruct (Z.leb_spec e (emax - prec)); [reflexivity|].
  unfold emax, prec in *. lia.
Qed.

(** Rounding twice a mantissa of 53 digits halves it again, exactly. *)
Lemma binary_round_aux_double (s : bool) (m : positive) (e : Z) :
  Zpos (digits2_pos m) = 53 ->
  -1075 <= e <= 970 ->
  binary_round_aux prec emax s (Zpos m~0) e loc_Exact = S754_finite s m (e + 1).
Proof.
  intros Hd He.
  assert (Hshift : fexp prec emax (Zdigits2 (Zpos m~0) + e) - e = 1).
  { cbn [Zdigits2 digits2_pos]. rewrite Pos2Z.inj_succ, Hd, fexp_normal by lia. lia. }
  assert (Hshift' : fexp prec emax (Zdigits2 (Zpos m) + (e + 1)) - (e + 1) = 0).
  { cbn [Zdigits2]. rewrite Hd, fexp_normal by lia. lia. }
  unfold binary_round_aux, shr_fexp, shr. rewrite Hshift.
  cbn [shr_record_of_loc SpecFloat.iter_pos shr_1 shr_m loc_of_shr_record
       round_nearest_even orb].
  rewrite Hshift'. cbn [shr_record_of_loc shr_m].
  destruct (Z.leb_spec (e + 1) (emax - prec)); [reflexivity|].
  unfold emax, prec in *. lia.
Qed.

(** A positive count below 2^53 converts without rounding: the mantissa is
    the count shifted to 53 digits. *)
Lemma float_of_int_exact (n : Z) :
  0 < n < 2 ^ 53 ->
  exists m e,
    float_of_int n = Ok (S754_finite false m e) /\
    Zpos (digits2_pos m) = 53 /\
    -52 <= e <= 0 /\
    Zpos m = n * 2 ^ (- e).
Proof.
  intros [Hpos Hlt]. destruct n as [|p|p]; [lia| |lia].
  pose proof (digits2_pos_le p 53 ltac:(lia) Hlt) as Hd.
  assert (H1 : 1 <= Zpos (digits2_pos p)) by lia.
  unfold float_of_int. cbn [binary_normalize]. unfold binary_round, shl_align.
  rewrite fexp_normal by lia.
  destruct (Zpos (digits2_pos p) + 0 - 53 - 0) as [|d|d] eqn:Hshift; [|lia|].
  - exists p, 0. rewrite binary_round_aux_canonical by lia.
    repeat split; lia.
  - assert (Hdig : Zpos (digits2_pos (Pos.iter xO p d)) = 53)
      by (rewrite digits2_pos_shift; lia).
    exists (Pos.iter xO p d), (Zpos (digits2_pos p) + 0 - 53).
    rewrite binary_round_aux_canonical by lia.
    repeat split; try lia.
    rewrite pos_iter_xO. f_equal. f_equal. lia.
Qed.

(** Dividing a float of 53 digits by 1024.0 only lowers its exponent. *)
Lemma SFdiv_1024_exact (m : positive) (e : Z) :
  Zpos (digits2_pos m) = 53 ->
  -1063 <= e <= 981 ->
  SFdiv prec emax (S754_finite false m e) f1024 = S754_finite false m (e - 10).
Proof.
  intros Hd He.
  assert (Hcore : SFdiv_core_binary prec emax (Zpos m) e 4503599627370496 (-42)
                  = (Zpos m~0, e - 11, loc_Exact)).
  { unfold SFdiv_core_binary.
    assert (He' : Z.min (fexp prec emax (Zdigits2 (Zpos m) + e
                                         - (Zdigits2 4503599627370496 + -42)))
                        (e - -42) = e - 11).
    { cbn [Zdigits2]. rewrite Hd.
      change (Zpos (digits2_pos 4503599627370496)) with 53.
      rewrite fexp_normal by lia. lia. }
    rewrite He'.
    replace (e - -42 - (e - 11)) with 53 by lia.
    rewrite Z.shiftl_mul_pow2 by lia.
    pose proof (Z_div_mod (Zpos m * 2 ^ 53) 4503599627370496 ltac:(lia)) as Hdiv.
    destruct (Z.div_eucl (Zpos m * 2 ^ 53) 4503599627370496) as [q r].
    change (2 ^ 53) with 9007199254740992 in Hdiv.
    assert (Hq : q = Zpos m~0) by lia.
    assert (Hr : r = 0) by lia.
    subst q r. reflexivity. }
  unfold SFdiv, f1024. rewrite Hcore. cbn [xorb].
  rewrite binary_round_aux_double by lia. f_equal. lia.
Qed.

(** Such a float is below 1024.0 exactly when its exponent is below -42. *)
Lemma SFltb_1024 (m : positive) (e : Z) :
  Zpos (digits2_pos m) = 53 ->
  SFltb (S754_finite false m e) f1024 = (e <? -42).
Proof.
  intros Hd.
  assert (Hm : 4503599627370496 <= Zpos m).
  { destruct (Z.lt_ge_cases (Zpos m) (2 ^ 52)) as [H|H]; [|exact H].
    pose proof (digits2_pos_le m 52 ltac:(lia) H). lia. }
  unfold SFltb, SFcompare, f1024.
  destruct (Z.compare_spec e (-42)) as [Heq | Hlt | Hgt].
  - rewrite Pos.compare_cont_spec. cbn [Pos.switch_Eq].
    destruct (m ?= 4503599627370496)%positive eqn:Hc.
    + subst e. reflexivity.
    + rewrite Pos2Z.inj_compare in Hc. pose proof (proj1 (Z.compare_lt_iff _ _) Hc) as Hlt. lia.
    + subst e. reflexivity.
  - destruct (Z.ltb_spec e (-42)); [reflexivity|lia].
  - destruct (Z.ltb_spec e (-42)); [lia|reflexivity].
Qed.

(** The count lies between the powers of two that its exponent names. *)
Lemma exponent_bounds (n : Z) (m : positive) (e : Z) (j : Z) :
  Zpos (digits2_pos m) = 53 ->
  -52 <= e <= 0 ->
  Zpos m = n * 2 ^ (- e) ->
  0 <= j ->
  (n <? 2 ^ j) = (e + 53 <=? j).
Proof.
  intros Hd He Hm Hj.
  assert (Hlo : 2 ^ 52 <= Zpos m).
  { destruct (Z.lt_ge_cases (Zpos m) (2 ^ 52)) as [H|H]; [|exact H].
    pose proof (digits2_pos_le m 52 ltac:(lia) H). lia. }
  assert (Hhi : Zpos m < 2 ^ 53).
  { pose proof (digits2_pos_lt m) as H. rewrite Hd in H. exact H. }
  assert (Hc : 0 < 2 ^ (- e)) by (apply Z.pow_pos_nonneg; lia).
  assert (Hn_hi : n < 2 ^ (e + 53)).
  { apply (Z.mul_lt_mono_pos_r (2 ^ (- e))); [exact Hc|].
    rewrite <- Hm, <- Z.pow_add_r by lia.
    replace (e + 53 + - e) with 53 by lia. exact Hhi. }
  assert (Hn_lo : 2 ^ (e + 52) <= n).
  { apply (Z.mul_le_mono_pos_r _ _ (2 ^ (- e))); [exact Hc|].
    rewrite <- Hm, <- Z.pow_add_r by lia.
    replace (e + 52 + - e) with 52 by lia. exact Hlo. }
  destruct (Z.leb_spec (e + 53) j) as [H|H].
  - apply Z.ltb_lt.
    pose proof (Z.pow_le_mono_r 2 (e + 53) j ltac:(lia) H). lia.
  - apply Z.ltb_ge.
    pose proof (Z.pow_le_mono_r 2 j (e + 52) ltac:(lia) ltac:(lia)). lia.
Qed.

Lemma compare_mul_pos_r (a b c : Z) : 0 < c -> (a * c ?= b * c) = (a ?= b).
Proof.
  intros Hc. destruct (Z.compare_spec a b) as [-> | H | H].
  - apply Z.compare_refl.
  - apply Z.compare_lt_iff. nia.
  - apply Z.compare_gt_iff. nia.
Qed.

(** The tenths printed for an exactly scaled count. *)
Lemma round_tenths_exact (n : Z) (m : positive) (e j : Z) :
  Zpos m = n * 2 ^ (- e) ->
  e <= 0 -> 0 <= j -> e - j < 0 ->
  round_tenths m (e - j) = nearest_tenths n (2 ^ j).
Proof.
  intros Hm He Hj Hneg.
  unfold round_tenths, nearest_tenths.
  destruct (e - j) as [|p|p] eqn:Hp; [lia|lia|].
  assert (Hpow : 2 ^ Zpos p = 2 ^ j * 2 ^ (- e)).
  { rewrite <- Z.pow_add_r by lia. f_equal. lia. }
  assert (Hc : 0 < 2 ^ (- e)) by (apply Z.pow_pos_nonneg; lia).
  assert (Hj2 : 0 < 2 ^ j) by (apply Z.pow_pos_nonneg; lia).
  cbv zeta. rewrite Hpow, Hm.
  replace (10 * (n * 2 ^ (- e))) with (10 * n * 2 ^ (- e)) by lia.
  rewrite Z.div_mul_cancel_r by lia.
  rewrite Z.mul_mod_distr_r by lia.
  replace (2 * (((10 * n) mod 2 ^ j) * 2 ^ (- e)))
    with (2 * ((10 * n) mod 2 ^ j) * 2 ^ (- e)) by lia.
  rewrite compare_mul_pos_r by exact Hc.
  reflexivity.
Qed.

(** The scaled values of a positive count below 2^53. *)
Lemma scaled_exact (n : Z) (m : positive) (e : Z) (k : nat) :
  float_of_int n = Ok (S754_finite false m e) ->
  Zpos (digits2_pos m) = 53 ->
  -52 <= e <= 0 ->
  (k < 100)%nat ->
  scaled (S k) (PInt n) = Ok (PFloat (S754_finite false m (e - 10 * Z.of_nat (S k)))).
Proof.
  intros Hf Hd He. induction k as [|k IH]; intros Hk.
  - cbn [scaled rbind div_1024]. rewrite Hf. cbn [rbind].
    rewrite SFdiv_1024_exact by lia.
    replace (e - 10 * Z.of_nat 1) with (e - 10) by lia. reflexivity.
  - change (scaled (S (S k)) (PInt n)) with (rbind (scaled (S k) (PInt n)) div_1024).
    rewrite IH by lia. cbn [rbind div_1024].
    rewrite SFdiv_1024_exact by lia.
    replace (e - 10 * Z.of_nat (S (S k))) with (e - 10 * Z.of_nat (S k) - 10) by lia.
    reflexivity.
Qed.

Lemma below_1024_exact (n : Z) (m : positive) (e : Z) (k : nat) :
  float_of_int n = Ok (S754_finite false m e) ->
  Zpos (digits2_pos m) = 53 ->
  -52 <= e <= 0 ->
  Zpos m = n * 2 ^ (- e) ->
  (k < 100)%nat ->
  below_1024 (PInt n) k = (n <? 1024 ^ Z.of_nat (S k)).
Proof.
  intros Hf Hd He Hm Hk.
  assert (Hpow : 1024 ^ Z.of_nat (S k) = 2 ^ (10 * Z.of_nat (S k))).
  { rewrite Z.pow_mul_r by lia. reflexivity. }
  destruct k as [|k].
  - reflexivity.
  - unfold below_1024. rewrite (scaled_exact n m e k Hf Hd He) by lia.
    cbn [lt_1024]. rewrite SFltb_1024 by exact Hd.
    rewrite Hpow, (exponent_bounds n m e _ Hd He Hm) by lia.
    destruct (Z.ltb_spec (e - 10 * Z.of_nat (S k)) (-42));
      destruct (Z.leb_spec (e + 53) (10 * Z.of_nat (S (S k)))); lia.
Qed.

(** The loop stops at the magnitude of the count. *)
Lemma unit_index_magnitude (n : Z) :
  0 <= n < 2 ^ 53 -> unit_index (PInt n) = magnitude n.
Proof.
  intros [Hn Hlt].
  destruct (Z.eq_dec n 0) as [-> | Hnz]; [reflexivity|].
  destruct (float_of_int_exact n ltac:(lia)) as (m & e & Hf & Hd & He & Hm).
  unfold unit_index, magnitude. cbn [seq find].
  rewrite !(below_1024_exact n m e _ Hf Hd He Hm) by lia.
  change (1024 ^ Z.of_nat 1) with 1024.
  change (Z.of_nat 2) with 2. change (Z.of_nat 3) with 3.
  change (Z.of_nat 4) with 4. change (Z.of_nat 5) with 5.
  destruct (n <? 1024); [reflexivity|].
  destruct (n <? 1024 ^ 2); [reflexivity|].
  destruct (n <? 1024 ^ 3); [reflexivity|].
  destruct (n <? 1024 ^ 4); [reflexivity|].
  destruct (n <? 1024 ^ 5); reflexivity.
Qed.

(** Below 2^53 no step of [format_size] rounds but the last one. *)
Lemma format_size_exact (n : Z) :
  0 <= n < 2 ^ 53 -> format_size (PInt n) = Ok (decimal_size n).
Proof.
  intros [Hn Hlt].
  destruct (Z.eq_dec n 0) as [-> | Hnz]; [vm_compute; reflexivity|].
  destruct (float_of_int_exact n ltac:(lia)) as (m & e & Hf & Hd & He & Hm).
  rewrite format_size_described. unfold described_size, decimal_size.
  rewrite unit_index_magnitude by lia.
  assert (Hk : (magnitude n <= 5)%nat).
  { unfold magnitude. repeat (destruct (_ <? _); [lia|]). lia. }
  assert (Hpow : forall k : nat, 1024 ^ Z.of_nat k = 2 ^ (10 * Z.of_nat k)).
  { intros k. rewrite Z.pow_mul_r by lia. reflexivity. }
  destruct (magnitude n) as [|k] eqn:Hmag.
  - (* below 1024: the count itself is formatted *)
    assert (Hsmall : n < 1024).
    { unfold magnitude in Hmag. destruct (Z.ltb_spec n 1024); [assumption|].
      repeat (destruct (_ <? _); [discriminate|]). discriminate. }
    assert (He' : e + 53 <= 10).
    { pose proof (exponent_bounds n m e 10 Hd He Hm ltac:(lia)) as H.
      change (2 ^ 10) with 1024 in H.
      destruct (Z.ltb_spec n 1024); [|lia].
      destruct (Z.leb_spec (e + 53) 10); [assumption|discriminate]. }
    cbn [scaled rbind]. unfold fstring_size. cbn [format_1f]. rewrite Hf.
    cbn [rbind format_1f_float sign_prefix].
    assert (Hrt : round_tenths m e = nearest_tenths n (2 ^ 0)).
    { rewrite <- (round_tenths_exact n m e 0 Hm) by lia. f_equal. lia. }
    rewrite Hrt. reflexivity.
  - rewrite (scaled_exact n m e k Hf Hd He) by lia.
    cbn [rbind]. unfold fstring_size. cbn [format_1f rbind format_1f_float sign_prefix].
    rewrite (round_tenths_exact n m e (10 * Z.of_nat (S k)) Hm) by lia.
    rewrite Hpow. reflexivity.
Qed.

(** X1.  For a byte count below 2^53 the text is exact, though the code
    computes it in floating point: the number of tenths nearest to
    [n / 1024^k] (ties to the even one), printed with one decimal, and the
    unit of the magnitude [k] of [n]. *)
Theorem format_size_decimal (n : Z) :
  0 <= n < 2 ^ 53 -> format_size (PInt n) = Ok (decimal_size n).
Proof. exact (format_size_exact n). Qed.

Lemma nearest_tenths_1024 (n den : Z) :
  0 < den -> 20479 * den <= 20 * n -> n < 1024 * den ->
  nearest_tenths n den = 10240.
Proof.
  intros Hden Hlow Hhigh. unfold nearest_tenths.
  assert (Hq : 10 * n / den = 10239).
  { symmetry. apply (Z.div_unique_pos _ _ _ (10 * n - 10239 * den)); lia. }
  assert (Hr : (10 * n) mod den = 10 * n - 10239 * den).
  { rewrite Z.mod_eq by lia. rewrite Hq. lia. }
  cbv zeta. rewrite Hq, Hr.
  destruct (Z.compare_spec (2 * (10 * n - 10239 * den)) den) as [_|Hc|_];
    [reflexivity|lia|reflexivity].
Qed.

(** X2.  The unit is chosen before the rounding: a count within a twentieth
    of a unit below the next power of 1024 is printed as "1024.0" of the
    smaller unit, not as "1.0" of the larger one. *)
Theorem format_size_rounds_up_to_1024 (n : Z) (k : nat) :
  (1 <= k <= 4)%nat ->
  20479 * 1024 ^ Z.of_nat k <= 20 * n ->
  n < 1024 * 1024 ^ Z.of_nat k ->
  format_size (PInt n) = Ok ("1024.0 " ++ nth k unit_names "PB")%string.
Proof.
  intros Hk Hlow Hhigh.
  assert (Hcases : (k = 1 \/ k = 2 \/ k = 3 \/ k = 4)%nat) by lia.
  assert (Hden : 0 < 1024 ^ Z.of_nat k) by (apply Z.pow_pos_nonneg; lia).
  rewrite format_size_exact.
  - unfold decimal_size.
    assert (Hmag : magnitude n = k).
    { unfold magnitude.
      destruct Hcases as [-> | [-> | [-> | ->]]];
        cbn [Z.of_nat Pos.of_succ_nat Pos.succ] in Hlow, Hhigh;
        repeat match goal with
               | H : context [1024 ^ ?p] |- _ =>
                   let v := eval vm_compute in (1024 ^ p) in
                   change (1024 ^ p) with v in H
               | |- context [1024 ^ ?p] =>
                   let v := eval vm_compute in (1024 ^ p) in
                   change (1024 ^ p) with v
               end;
        repeat match goal with
               | |- context [?a <? ?b] => destruct (Z.ltb_spec a b); try lia
               end;
        reflexivity. }
    rewrite Hmag, (nearest_tenths_1024 n _ Hden Hlow Hhigh). reflexivity.
  - split; [lia|].
    destruct Hcases as [-> | [-> | [-> | ->]]];
      cbn [Z.of_nat Pos.of_succ_nat Pos.succ] in Hhigh;
      match type of Hhigh with
      | context [1024 ^ ?p] =>
          let v := eval vm_compute in (1024 ^ p) in
          change (1024 ^ p) with v in Hhigh
      end;
      change (2 ^ 53) with 9007199254740992; lia.
Qed.

End SizeArithmeticFacts.

(** ** [format_size] over every count *)

Module DoubleArithmeticFacts.
Import CacheSizes CacheSizesFacts SizeArithmetic SizeArithmeticFacts DoubleArithmetic.

Lemma shr_1_shifted (mrs : shr_record) (M P : Z) :
  0 < P -> shifted mrs M P -> shifted (shr_1 mrs) M (2 * P).
Proof.
  intros HP (rho & Hrho & Hm & HM & Hr & Hs).
  destruct mrs as [m r s]. cbn [shr_m shr_r shr_s] in *.
  assert (Hsticky : orb r s = negb (rho =? 0)).
  { rewrite Hr, Hs.
    destruct (Z.leb_spec P (2 * rho)), (Z.eqb_spec rho 0), (Z.eqb_spec (2 * rho) P);
      cbn; try reflexivity; lia. }
  assert (Hp : forall p : positive, Zpos p~1 = 2 * Zpos p + 1 /\ Zpos p~0 = 2 * Zpos p)
    by (intros p; lia).
  destruct m as [|[p|p|]|p]; [| | | |lia]; cbn [shr_1 shr_m shr_r shr_s];
    rewrite Hsticky; try destruct (Hp p) as [HpI HpO];
    [exists rho|exists (P + rho)|exists rho|exists (P + rho)];
    cbn [shr_m shr_r shr_s];
    (split; [lia|]); (split; [lia|]); (split; [nia|]);
    (split;
     [match goal with
      | |- _ = (?a <=? ?b) => destruct (Z.leb_spec a b); [first [reflexivity|lia]|first [reflexivity|lia]]
      end
     |match goal with
      | |- _ = negb ((?a =? 0) || (?b =? ?c)) =>
          destruct (Z.eqb_spec rho 0), (Z.eqb_spec a 0), (Z.eqb_spec b c);
          cbn [negb orb]; first [reflexivity|lia]
      end]).
Qed.

Lemma iter_shr_1_shifted (k : positive) (mrs : shr_record) (M P : Z) :
  0 < P -> shifted mrs M P ->
  shifted (SpecFloat.iter_pos shr_1 k mrs) M (P * 2 ^ Zpos k).
Proof.
  revert mrs P. induction k as [k IH|k IH|]; intros mrs P HP H; cbn [SpecFloat.iter_pos].
  - assert (Hpow : P * 2 ^ Zpos k~1 = 2 * P * 2 ^ Zpos k * 2 ^ Zpos k).
    { replace (Zpos k~1) with (Zpos k + Zpos k + 1) by lia.
      rewrite !Z.pow_add_r by lia. change (2 ^ 1) with 2. lia. }
    rewrite Hpow.
    assert (0 < 2 ^ Zpos k) by (apply Z.pow_pos_nonneg; lia).
    apply IH; [nia|]. apply IH; [lia|]. apply shr_1_shifted; assumption.
  - assert (Hpow : P * 2 ^ Zpos k~0 = P * 2 ^ Zpos k * 2 ^ Zpos k).
    { replace (Zpos k~0) with (Zpos k + Zpos k) by lia.
      rewrite Z.pow_add_r by lia. lia. }
    rewrite Hpow.
    assert (0 < 2 ^ Zpos k) by (apply Z.pow_pos_nonneg; lia).
    apply IH; [nia|]. apply IH; [lia|]. exact H.
  - replace (P * 2 ^ 1) with (2 * P) by lia. apply shr_1_shifted; assumption.
Qed.

(** Rounding the shifted mantissa gives the nearest quotient. *)
Lemma round_shifted (mrs : shr_record) (M P : Z) :
  0 < P -> shifted mrs M P ->
  round_nearest_even (shr_m mrs) (loc_of_shr_record mrs) = nearest M P.
Proof.
  intros HP (rho & Hrho & Hm & HM & Hr & Hs).
  assert (Hq : M / P = shr_m mrs).
  { symmetry. apply (Z.div_unique_pos M P (shr_m mrs) rho); lia. }
  assert (Hmod : M mod P = rho).
  { symmetry. apply (Z.mod_unique_pos M P (shr_m mrs) rho); lia. }
  unfold nearest. cbv zeta. rewrite Hq, Hmod.
  destruct mrs as [m r s]. cbn [shr_m shr_r shr_s loc_of_shr_record] in *.
  subst r s.
  destruct (Z.compare_spec (2 * rho) P) as [Heq|Hlt|Hgt];
    destruct (Z.leb_spec P (2 * rho)), (Z.eqb_spec rho 0), (Z.eqb_spec (2 * rho) P);
    cbn [negb orb round_nearest_even]; try lia; reflexivity.
Qed.

Lemma digits2_pos_ge (p : positive) : 2 ^ (Zpos (digits2_pos p) - 1) <= Zpos p.
Proof.
  destruct (Z.le_gt_cases (2 ^ (Zpos (digits2_pos p) - 1)) (Zpos p)) as [H|H]; [exact H|].
  pose proof (digits2_pos_le p (Zpos (digits2_pos p) - 1) ltac:(lia) H). lia.
Qed.

Lemma Zdigits2_53 (q : Z) : 2 ^ 52 <= q < 2 ^ 53 -> Zdigits2 q = 53.
Proof.
  intros [Hlo Hhi].
  assert (Hq : 0 <= q) by lia.
  pose proof (Zdigits2_le q 53 Hq ltac:(lia) Hhi) as Hle.
  pose proof (Zdigits2_lt q Hq) as Hlt.
  pose proof (Zdigits2_nonneg q) as Hnn.
  destruct (Z.le_gt_cases 53 (Zdigits2 q)) as [H|H]; [lia|].
  pose proof (Z.pow_le_mono_r 2 (Zdigits2 q) 52 ltac:(lia) ltac:(lia)). lia.
Qed.

(** The quotient of a count by the unit of its last place has 53 bits, and
    its rounding at most one more. *)
Lemma nearest_bounds (p : positive) (k : Z) :
  k = Zpos (digits2_pos p) - 53 -> 0 < k ->
  2 ^ 52 <= Zpos p / 2 ^ k <= 2 ^ 53 - 1 /\
  (nearest (Zpos p) (2 ^ k) = Zpos p / 2 ^ k \/
   nearest (Zpos p) (2 ^ k) = Zpos p / 2 ^ k + 1).
Proof.
  intros Hk Hpos.
  pose proof (digits2_pos_ge p) as Hlo. pose proof (digits2_pos_lt p) as Hhi.
  assert (HP : 0 < 2 ^ k) by (apply Z.pow_pos_nonneg; lia).
  replace (Zpos (digits2_pos p) - 1) with (52 + k) in Hlo by lia.
  replace (Zpos (digits2_pos p)) with (53 + k) in Hhi by lia.
  rewrite Z.pow_add_r in Hlo, Hhi by lia.
  split.
  - split.
    + apply Z.div_le_lower_bound; lia.
    + assert (Zpos p / 2 ^ k < 2 ^ 53); [|lia].
      apply Z.div_lt_upper_bound; lia.
  - unfold nearest. cbv zeta.
    destruct (2 * (Zpos p mod 2 ^ k) ?= 2 ^ k); [destruct (Z.even _)| |]; auto.
Qed.

(** [float(n)] for a count of more than 53 bits. *)
Lemma binary_normalize_long (p : positive) (k : Z) :
  k = Zpos (digits2_pos p) - 53 -> 0 < k ->
  binary_normalize prec emax (Zpos p) 0 false
  = if nearest (Zpos p) (2 ^ k) <? 2 ^ 53
    then if k <=? 971
         then S754_finite false (Z.to_pos (nearest (Zpos p) (2 ^ k))) k
         else S754_infinity false
    else if k + 1 <=? 971
         then S754_finite false 4503599627370496 (k + 1)
         else S754_infinity false.
Proof.
  intros Hk Hpos.
  destruct (nearest_bounds p k Hk Hpos) as [Hq0 Hq].
  assert (HP : 0 < 2 ^ k) by (apply Z.pow_pos_nonneg; lia).
  cbn [binary_normalize]. unfold binary_round, shl_align.
  rewrite fexp_normal by lia.
  destruct (Zpos (digits2_pos p) + 0 - 53 - 0) as [|kp|kp] eqn:Hshift; [lia| |lia].
  assert (Hkp : k = Zpos kp) by lia.
  unfold binary_round_aux.
  assert (H1 : shr_fexp prec emax (Zpos p) 0 loc_Exact
               = (SpecFloat.iter_pos shr_1 kp {| shr_m := Zpos p; shr_r := false; shr_s := false |},
                  k)).
  { unfold shr_fexp, shr. cbn [Zdigits2]. rewrite fexp_normal by lia.
    rewrite Hshift. cbn [shr_record_of_loc]. f_equal. lia. }
  rewrite H1.
  assert (Hinit : shifted {| shr_m := Zpos p; shr_r := false; shr_s := false |} (Zpos p) 1).
  { exists 0. cbn [shr_m shr_r shr_s]. repeat split; try lia; reflexivity. }
  pose proof (iter_shr_1_shifted kp _ _ 1 ltac:(lia) Hinit) as Hshifted.
  rewrite Z.mul_1_l, <- Hkp in Hshifted.
  rewrite (round_shifted _ _ _ HP Hshifted).
  set (q := nearest (Zpos p) (2 ^ k)) in *.
  assert (Hqb : 2 ^ 52 <= q <= 2 ^ 53) by lia.
  destruct (Z.ltb_spec q (2 ^ 53)) as [Hlt|Hge].
  - assert (H2 : shr_fexp prec emax q k loc_Exact
                 = ({| shr_m := q; shr_r := false; shr_s := false |}, k)).
    { unfold shr_fexp, shr. rewrite (Zdigits2_53 q) by lia.
      rewrite fexp_normal by lia.
      replace (53 + k - 53 - k) with 0 by lia. reflexivity. }
    rewrite H2. cbn [shr_m].
    destruct q as [|qp|qp] eqn:Hqp; [lia| |lia].
    reflexivity.
  - assert (Hq53 : q = 9007199254740992) by (change (2 ^ 53) with 9007199254740992 in *; lia).
    rewrite Hq53.
    assert (H2 : shr_fexp prec emax 9007199254740992 k loc_Exact
                 = ({| shr_m := 4503599627370496; shr_r := false; shr_s := false |}, k + 1)).
    { unfold shr_fexp, shr.
      change (Zdigits2 9007199254740992) with 54.
      rewrite fexp_normal by lia.
      replace (54 + k - 53 - k) with 1 by lia. reflexivity. }
    rewrite H2. cbn [shr_m]. reflexivity.
Qed.

Ltac literal_powers :=
  repeat match goal with
         | |- context [2 ^ ?c] =>
             lazymatch c with
             | Zpos _ => let v := eval vm_compute in (2 ^ c) in change (2 ^ c) with v
             end
         | H : context [2 ^ ?c] |- _ =>
             lazymatch c with
             | Zpos _ => let v := eval vm_compute in (2 ^ c) in change (2 ^ c) with v in H
             end
         end.

(** At the last exponent of the format, the count rounds below 2^53 exactly
    when it is below the limit. *)
Lemma nearest_at_limit (n : Z) :
  2 ^ 1023 <= n < 2 ^ 1024 ->
  (nearest n (2 ^ 971) <? 2 ^ 53) = (n <? float_limit).
Proof.
  intros Hn. unfold nearest, float_limit. cbv zeta.
  literal_powers.
  match goal with |- context [n / ?c] =>
    pose proof (Z.div_mod n c ltac:(lia)) as Hdiv;
    pose proof (Z.mod_pos_bound n c ltac:(lia)) as Hmod;
    set (q0 := n / c) in *; set (rho := n mod c) in *
  end.
  clearbody q0 rho.
  match goal with |- context [2 * rho ?= ?c] => destruct (Z.compare_spec (2 * rho) c) end.
  - destruct (Z.even q0) eqn:Heven.
    + assert (q0 <> 9007199254740991) by (intros ->; discriminate).
      match goal with |- (?a <? ?b) = (?c <? ?d) =>
        destruct (Z.ltb_spec a b), (Z.ltb_spec c d) end; try reflexivity; lia.
    + match goal with |- (?a <? ?b) = (?c <? ?d) =>
        destruct (Z.ltb_spec a b), (Z.ltb_spec c d) end; try reflexivity; lia.
  - match goal with |- (?a <? ?b) = (?c <? ?d) =>
      destruct (Z.ltb_spec a b), (Z.ltb_spec c d) end; try reflexivity; lia.
  - match goal with |- (?a <? ?b) = (?c <? ?d) =>
      destruct (Z.ltb_spec a b), (Z.ltb_spec c d) end; try reflexivity; lia.
Qed.

Lemma digits2_pos_log2 (p : positive) : Z.log2 (Zpos p) = Zpos (digits2_pos p) - 1.
Proof.
  apply Z.log2_unique; [lia|].
  pose proof (digits2_pos_ge p). pose proof (digits2_pos_lt p).
  replace (Z.succ (Zpos (digits2_pos p) - 1)) with (Zpos (digits2_pos p)) by lia. lia.
Qed.

(** [float(n)] for a count of more than 53 bits: the nearest double, and
    [OverflowError] from the limit on. *)
Lemma float_of_int_long (n : Z) :
  2 ^ 53 <= n ->
  (n < float_limit ->
   exists m e,
     float_of_int n = Ok (S754_finite false m e) /\
     Zpos (digits2_pos m) = 53 /\
     1 <= e <= 971 /\
     Zpos m * 2 ^ e = nearest_double n) /\
  (float_limit <= n ->
   float_of_int n = Raise (OverflowError "int too large to convert to float")).
Proof.
  intros Hn. destruct n as [|p|p]; [cbn in Hn; lia| |lia].
  set (k := Zpos (digits2_pos p) - 53).
  assert (Hk : 0 < k).
  { pose proof (digits2_pos_lt p) as Hlt.
    destruct (Z.le_gt_cases (Zpos (digits2_pos p)) 53) as [H|H]; [|lia].
    pose proof (Z.pow_le_mono_r 2 _ 53 ltac:(lia) H). lia. }
  assert (HP : 0 < 2 ^ k) by (apply Z.pow_pos_nonneg; lia).
  destruct (nearest_bounds p k eq_refl Hk) as [Hq0 Hq].
  assert (Hdouble : nearest_double (Zpos p) = nearest (Zpos p) (2 ^ k) * 2 ^ k).
  { unfold nearest_double. cbv zeta. rewrite digits2_pos_log2.
    replace (Zpos (digits2_pos p) - 1 - 52) with k by lia.
    destruct (Z.leb_spec k 0); [lia|reflexivity]. }
  pose proof (digits2_pos_ge p) as Hlo. pose proof (digits2_pos_lt p) as Hhi.
  replace (Zpos (digits2_pos p) - 1) with (52 + k) in Hlo by lia.
  replace (Zpos (digits2_pos p)) with (53 + k) in Hhi by lia.
  (* where the count lies, by its exponent *)
  assert (Hrange : (k <= 970 /\ Zpos p < float_limit) \/
                   (k = 971 /\ 2 ^ 1023 <= Zpos p < 2 ^ 1024) \/
                   (972 <= k /\ float_limit <= Zpos p)).
  { destruct (Z.le_gt_cases k 970) as [H|H]; [left|right].
    - split; [exact H|].
      pose proof (Z.pow_le_mono_r 2 (53 + k) 1023 ltac:(lia) ltac:(lia)) as Hp.
      unfold float_limit. literal_powers. lia.
    - destruct (Z.eq_dec k 971) as [->|Hne]; [left|right].
      + split; [reflexivity|]. exact (conj Hlo Hhi).
      + split; [lia|].
        pose proof (Z.pow_le_mono_r 2 1024 (52 + k) ltac:(lia) ltac:(lia)) as Hp.
        unfold float_limit. literal_powers. lia. }
  unfold float_of_int. rewrite (binary_normalize_long p k eq_refl Hk).
  set (q := nearest (Zpos p) (2 ^ k)) in *.
  assert (Hqb : 2 ^ 52 <= q <= 2 ^ 53) by lia.
  destruct (Z.ltb_spec q (2 ^ 53)) as [Hlt|Hge].
  - destruct (Z.leb_spec k 971) as [Hle|Hgt].
    + (* finite, no carry *)
      assert (Hfin : Zpos p < float_limit).
      { destruct Hrange as [[_ H]|[[Hk971 H]|[H _]]]; [exact H| |lia].
        pose proof (nearest_at_limit (Zpos p) H) as Hlim.
        subst q. rewrite Hk971 in Hlt.
        destruct (Z.ltb_spec (nearest (Zpos p) (2 ^ 971)) (2 ^ 53)); [|lia].
        destruct (Z.ltb_spec (Zpos p) float_limit); [assumption|discriminate]. }
      split; [|lia].
      intros _. destruct q as [|qp|qp] eqn:Hqp; [lia| |lia].
      exists qp, k. cbn [Z.to_pos].
      split; [reflexivity|].
      split; [exact (Zdigits2_53 (Zpos qp) ltac:(lia))|].
      split; [lia|]. rewrite Hdouble. reflexivity.
    + (* beyond the last exponent *)
      assert (Hbig : float_limit <= Zpos p).
      { destruct Hrange as [[H _]|[[H _]|[_ H]]]; [lia|lia|exact H]. }
      split; [lia|]. intros _. reflexivity.
  - assert (Hq53 : q = 2 ^ 53) by lia.
    destruct (Z.leb_spec (k + 1) 971) as [Hle|Hgt].
    + (* finite, after a carry *)
      assert (Hfin : Zpos p < float_limit).
      { destruct Hrange as [[_ H]|[[H _]|[H _]]]; [exact H|lia|lia]. }
      split; [|lia].
      intros _. exists 4503599627370496%positive, (k + 1).
      split; [reflexivity|]. split; [reflexivity|]. split; [lia|].
      rewrite Hdouble. fold q. rewrite Hq53, Z.pow_add_r by lia.
      change (Zpos 4503599627370496) with (2 ^ 52).
      change (2 ^ 53) with (2 * 2 ^ 52). change (2 ^ 1) with 2. lia.
    + assert (Hbig : float_limit <= Zpos p).
      { destruct Hrange as [[H _]|[[Hk971 H]|[_ H]]]; [lia| |exact H].
        pose proof (nearest_at_limit (Zpos p) H) as Hlim.
        subst q. rewrite Hk971 in Hq53.
        destruct (Z.ltb_spec (nearest (Zpos p) (2 ^ 971)) (2 ^ 53)); [lia|].
        destruct (Z.ltb_spec (Zpos p) float_limit); [discriminate|assumption]. }
      split; [lia|]. intros _. reflexivity.
Qed.

(** Scaling both sides of a quotient changes no tenth. *)
Lemma nearest_tenths_scale (num den c : Z) :
  0 < den -> 0 < c -> nearest_tenths (num * c) (den * c) = nearest_tenths num den.
Proof.
  intros Hden Hc. unfold nearest_tenths. cbv zeta.
  replace (10 * (num * c)) with (10 * num * c) by lia.
  rewrite Z.div_mul_cancel_r by lia.
  rewrite Z.mul_mod_distr_r by lia.
  replace (2 * ((10 * num) mod den * c)) with (2 * ((10 * num) mod den) * c) by lia.
  rewrite compare_mul_pos_r by exact Hc. reflexivity.
Qed.

Lemma nearest_tenths_whole (num : Z) : nearest_tenths num 1 = 10 * num.
Proof.
  unfold nearest_tenths. cbv zeta.
  rewrite Z.div_1_r, Z.mod_1_r. reflexivity.
Qed.

(** The tenths printed for a double [m * 2^e] divided by 2^50. *)
Lemma round_tenths_long (m : positive) (e : Z) :
  0 <= e ->
  round_tenths m (e - 50) = nearest_tenths (Zpos m * 2 ^ e) (2 ^ 50).
Proof.
  intros He.
  assert (Hc : 0 < 2 ^ e) by (apply Z.pow_pos_nonneg; lia).
  destruct (Z.lt_ge_cases e 50) as [Hlt|Hge].
  - replace (e - 50) with (0 - (50 - e)) by lia.
    rewrite (round_tenths_exact (Zpos m) m 0 (50 - e)) by (cbn; lia).
    rewrite <- (nearest_tenths_scale (Zpos m) (2 ^ (50 - e)) (2 ^ e))
      by (try apply Z.pow_pos_nonneg; lia).
    rewrite <- Z.pow_add_r by lia. replace (50 - e + e) with 50 by lia. reflexivity.
  - assert (Hval : Zpos m * 2 ^ e = Zpos m * 2 ^ (e - 50) * 2 ^ 50).
    { rewrite <- Z.mul_assoc, <- Z.pow_add_r by lia. repeat f_equal. lia. }
    rewrite Hval.
    rewrite <- (Z.mul_1_l (2 ^ 50)) at 2.
    rewrite nearest_tenths_scale by lia.
    rewrite nearest_tenths_whole.
    unfold round_tenths. destruct (e - 50) as [|d|d] eqn:Hd; lia.
Qed.

(** The scaled values of a count of more than 53 bits. *)
Lemma scaled_long (n : Z) (m : positive) (e : Z) (k : nat) :
  float_of_int n = Ok (S754_finite false m e) ->
  Zpos (digits2_pos m) = 53 ->
  1 <= e <= 971 ->
  (k < 5)%nat ->
  scaled (S k) (PInt n) = Ok (PFloat (S754_finite false m (e - 10 * Z.of_nat (S k)))).
Proof.
  intros Hf Hd He. induction k as [|k IH]; intros Hk.
  - cbn [scaled rbind div_1024]. rewrite Hf. cbn [rbind].
    rewrite SFdiv_1024_exact by lia.
    replace (e - 10 * Z.of_nat 1) with (e - 10) by lia. reflexivity.
  - change (scaled (S (S k)) (PInt n)) with (rbind (scaled (S k) (PInt n)) div_1024).
    rewrite IH by lia. cbn [rbind div_1024].
    rewrite SFdiv_1024_exact by lia.
    replace (e - 10 * Z.of_nat (S (S k))) with (e - 10 * Z.of_nat (S k) - 10) by lia.
    reflexivity.
Qed.

Lemma magnitude_long (R : Z) : 2 ^ 50 <= R -> magnitude R = 5%nat.
Proof.
  intros HR. unfold magnitude.
  change (1024 ^ 5) with (2 ^ 50). 
  assert (1024 < 2 ^ 50 /\ 1024 ^ 2 < 2 ^ 50 /\ 1024 ^ 3 < 2 ^ 50 /\ 1024 ^ 4 < 2 ^ 50)
    by (repeat split; reflexivity).
  repeat match goal with
         | |- context [?a <? ?b] => destruct (Z.ltb_spec a b); [lia|]
         end.
  reflexivity.
Qed.

(** A count of more than 53 bits is printed in PB, from its nearest
    double. *)
Lemma format_size_long (n : Z) :
  2 ^ 53 <= n < float_limit ->
  format_size (PInt n) = Ok (decimal_size (nearest_double n)).
Proof.
  intros [Hlo Hhi].
  destruct (proj1 (float_of_int_long n Hlo) Hhi) as (m & e & Hf & Hd & He & Hval).
  assert (Hn : 1024 <= n) by (change (2 ^ 53) with 9007199254740992 in Hlo; lia).
  assert (Hbelow : forall k, (k < 5)%nat -> below_1024 (PInt n) k = false).
  { intros [|k] Hk.
    - unfold below_1024. cbn [scaled lt_1024]. apply Z.ltb_ge. exact Hn.
    - unfold below_1024. rewrite (scaled_long n m e k Hf Hd He) by lia.
      cbn [lt_1024]. rewrite SFltb_1024 by exact Hd. apply Z.ltb_ge. lia. }
  assert (Hindex : unit_index (PInt n) = 5%nat).
  { unfold unit_index. cbn [seq find]. rewrite !Hbelow by lia. reflexivity. }
  rewrite format_size_described. unfold described_size. rewrite Hindex.
  rewrite (scaled_long n m e 4 Hf Hd He) by lia.
  cbn [rbind]. unfold fstring_size. cbn [format_1f rbind format_1f_float sign_prefix].
  change (10 * Z.of_nat 5) with 50.
  rewrite round_tenths_long by lia. rewrite Hval.
  unfold decimal_size.
  assert (HR : 2 ^ 50 <= nearest_double n).
  { rewrite <- Hval.
    pose proof (digits2_pos_ge m) as Hm. rewrite Hd in Hm. change (53 - 1) with 52 in Hm.
    assert (0 < 2 ^ e) by (apply Z.pow_pos_nonneg; lia).
    change (2 ^ 50) with 1125899906842624. change (2 ^ 52) with 4503599627370496 in Hm.
    nia. }
  rewrite (magnitude_long _ HR). reflexivity.
Qed.

Lemma nearest_double_short (n : Z) : 0 <= n < 2 ^ 53 -> nearest_double n = n.
Proof.
  intros [Hn Hlt]. unfold nearest_double. cbv zeta.
  destruct (Z.leb_spec (Z.log2 n - 52) 0) as [H|H]; [reflexivity|].
  destruct (Z.eq_dec n 0) as [->|Hnz]; [cbn in H; lia|].
  pose proof (Z.log2_lt_pow2 n 53 ltac:(lia)) as Hlog. lia.
Qed.

Lemma format_size_too_long (n : Z) :
  float_limit <= n ->
  format_size (PInt n) = Raise (OverflowError "int too large to convert to float").
Proof.
  intros Hn.
  assert (Hbig : 2 ^ 53 <= n) by (unfold float_limit in Hn; literal_powers; lia).
  pose proof (proj2 (float_of_int_long n Hbig) Hn) as Hf.
  unfold format_size, units. cbn [format_size_loop lt_1024].
  destruct (Z.ltb_spec n 1024) as [H|H];
    [change (2 ^ 53) with 9007199254740992 in Hbig; lia|].
  cbn [div_1024]. rewrite Hf. reflexivity.
Qed.

(** C10, as the code has it.  For every non-negative byte count: below
    2^1024 - 2^970 the result is the double nearest to the count (the count
    itself below 2^53), divided by 1024 as many times as it takes to get
    below 1024, and five times at most, rounded to the nearest tenth (ties to
    the even tenth) and printed with one decimal and the unit B, KB, MB, GB,
    TB or PB of the number of divisions; below 1024 that is the count with
    ".0 B"; and from 2^1024 - 2^970 on the call raises [OverflowError]. *)
Theorem format_size_every_count (n : Z) :
  0 <= n ->
  (n < float_limit -> format_size (PInt n) = Ok (decimal_size (nearest_double n))) /\
  (n < 2 ^ 53 -> nearest_double n = n) /\
  (n < 1024 -> format_size (PInt n) = Ok (str_of_Z n ++ ".0 B")%string) /\
  (float_limit <= n ->
   format_size (PInt n) = Raise (OverflowError "int too large to convert to float")).
Proof.
  intros Hn.
  split; [|split; [|split]].
  - intros Hlim. destruct (Z.lt_ge_cases n (2 ^ 53)) as [Hshort|Hlong].
    + rewrite nearest_double_short by lia. apply format_size_exact. lia.
    + apply format_size_long. lia.
  - intros Hshort. apply nearest_double_short. lia.
  - intros Hsmall. apply format_size_small. lia.
  - apply format_size_too_long.
Qed.

End DoubleArithmeticFacts.

(** ** [get_dir_size] *)

Module DirSizeFacts.
Import DirSize.

(** Induction on an entry, with the property known of the entries of a
    directory. *)
Lemma entry_induction (P : entry -> Prop) :
  (forall size, P (RegularFile size)) ->
  P (Directory None) ->
  (forall entries, Forall P entries -> P (Directory (Some entries))) ->
  P Other ->
  forall e, P e.
Proof.
  intros Hfile Hnone Hdir Hother.
  fix IH 1. intros [size|[entries|]|].
  - apply Hfile.
  - apply Hdir. induction entries as [|e rest IHrest]; constructor.
    + apply IH.
    + exact IHrest.
  - exact Hnone.
  - exact Hother.
Qed.

Lemma scan_directory (entries : list entry) :
  scan (Directory (Some entries)) = scan_entries entries 0.
Proof.
  cbn [scan]. generalize 0 at 1 2.
  induction entries as [|[[size|]|listing|] rest IH]; intros total;
    cbn [scan_entries]; try reflexivity; apply IH.
Qed.

Lemma scan_entries_total (es : list entry) (total : Z) :
  scan_entries es total = total + scan_entries es 0.
Proof.
  revert total. induction es as [|[[size|]|listing|] rest IH]; intros total;
    cbn [scan_entries]; try lia.
  - rewrite (IH (total + size)), (IH (0 + size)). lia.
  - rewrite (IH (total + _)), (IH (0 + _)). lia.
  - apply IH.
Qed.

Lemma sum_sizes_app (a b : list Z) : sum_sizes (a ++ b) = sum_sizes a + sum_sizes b.
Proof. unfold sum_sizes. induction a as [|z a IH]; cbn [app fold_right]; lia. Qed.

Lemma Forall_file_sizes_cons (P : Z -> Prop) (e : entry) (rest : list entry) :
  Forall P (flat_map file_sizes (e :: rest)) ->
  Forall P (file_sizes e) /\ Forall P (flat_map file_sizes rest).
Proof. cbn [flat_map]. apply Forall_app. Qed.

Lemma scan_bounds (e : entry) :
  Forall (fun size => 0 <= size) (file_sizes e) ->
  0 <= scan e <= sum_sizes (file_sizes e).
Proof.
  induction e as [size| |entries IH|] using entry_induction; intros Hpos.
  - destruct size as [size|]; cbn in *; [|lia].
    apply Forall_cons in Hpos. destruct Hpos as [H _]. lia.
  - cbn. lia.
  - rewrite scan_directory. cbn [file_sizes] in *.
    induction IH as [|e rest He _ IHrest]; [cbn; lia|].
    apply Forall_file_sizes_cons in Hpos. destruct Hpos as [Hpe Hprest].
    specialize (IHrest Hprest). specialize (He Hpe).
    cbn [flat_map]. rewrite sum_sizes_app.
    assert (Hsum : 0 <= sum_sizes (file_sizes e)) by lia.
    destruct e as [[size|]|listing|]; cbn [scan_entries].
    + rewrite scan_entries_total. cbn in He |- *. lia.
    + cbn. lia.
    + rewrite scan_entries_total. lia.
    + cbn in *. lia.
  - cbn. lia.
Qed.

(** X3.  With sizes that are not negative, the total is not negative and not
    more than the sum of the sizes of the files below the path: whatever
    cannot be read only lowers it. *)
Theorem get_dir_size_bounds (e : entry) :
  Forall (fun size => 0 <= size) (file_sizes e) ->
  0 <= get_dir_size (Some e) <= sum_sizes (file_sizes e).
Proof. intros Hpos. cbn [get_dir_size]. apply scan_bounds, Hpos. Qed.

(** What an entry adds to the total of its directory when it is readable. *)
Lemma readable_entry_adds (e : entry) :
  readable e = true ->
  (forall rest total,
      scan_entries (e :: rest) total
      = scan_entries rest (total + sum_sizes (file_sizes e))) /\
  (forall entries, e = Directory (Some entries) -> scan e = sum_sizes (file_sizes e)).
Proof.
  induction e as [size| |entries IH|] using entry_induction; intros Hread.
  - destruct size as [size|]; [|discriminate].
    split; [|discriminate]. intros rest total. cbn. f_equal. lia.
  - discriminate.
  - assert (Hscan : scan (Directory (Some entries))
                    = sum_sizes (file_sizes (Directory (Some entries)))).
    { rewrite scan_directory. cbn [file_sizes readable] in *.
      induction IH as [|e rest He _ IHrest]; [reflexivity|].
      cbn [forallb] in Hread. apply andb_true_iff in Hread.
      destruct Hread as [Hre Hrrest].
      destruct (He Hre) as [Hadd _]. rewrite Hadd.
      cbn [flat_map]. rewrite sum_sizes_app, scan_entries_total, IHrest by exact Hrrest.
      lia. }
    split.
    + intros rest total. cbn [scan_entries]. rewrite Hscan. reflexivity.
    + intros _ _. exact Hscan.
  - split; [|discriminate]. intros rest total. cbn. f_equal. lia.
Qed.

(** X4.  When every file and directory below a directory can be read, the
    total is exactly the sum of the sizes of the regular files; links and
    special files count for nothing. *)
Theorem get_dir_size_readable (entries : list entry) :
  readable (Directory (Some entries)) = true ->
  get_dir_size (Some (Directory (Some entries)))
  = sum_sizes (file_sizes (Directory (Some entries))).
Proof.
  intros Hread. cbn [get_dir_size].
  exact (proj2 (readable_entry_adds _ Hread) entries eq_refl).
Qed.

(** X5.  A file whose [stat] fails ends the count of its directory: the
    entries listed after it add nothing. *)
Theorem get_dir_size_stops_at_failure (before after : list entry) :
  get_dir_size (Some (Directory (Some (before ++ RegularFile None :: after))))
  = get_dir_size (Some (Directory (Some before))).
Proof.
  cbn [get_dir_size]. rewrite !scan_directory. generalize 0.
  induction before as [|[[size|]|listing|] rest IH]; intros total;
    cbn [app scan_entries]; try reflexivity; apply IH.
Qed.

End DirSizeFacts.

(** ** More on [analyze_screenshot] *)

Section MoreAgentFacts.

Context {E : Env}.
Local Open Scope action_scope.

Variables (model image_path task_prompt scene_name : string).
Variables (viewport_width viewport_height : Z).

(** X6.  When the screenshot cannot be read, [analyze_screenshot] raises
    at once: no request is sent to the provider and no usage is recorded. *)
Theorem analyze_screenshot_unreadable_image (s : state E) (e : exn) :
  read_image E (world s) image_path = Raise e ->
  analyze_screenshot model image_path task_prompt scene_name
                     viewport_width viewport_height s
  = ({| world := world s;
        calls := calls s ++ [EvReadImage image_path];
        ledger := ledger s |},
     Raise e).
Proof.
  intros Hread. unfold analyze_screenshot, bind, encode_image.
  rewrite Hread. reflexivity.
Qed.

(** X7.  Content that parses is returned as [json.loads] gives it, after
    exactly one image read and one request, with one usage record. *)
Theorem analyze_screenshot_parsed
    (s : state E) (bytes content : string) (w : World E) (r : response) (result : pyval) :
  read_image E (world s) image_path = Ok bytes ->
  create E (world s)
         (request_for (E:=E) model task_prompt viewport_width viewport_height bytes)
  = (w, Ok r) ->
  message_content r = Some content ->
  json_loads E content = Loaded result ->
  analyze_screenshot model image_path task_prompt scene_name
                     viewport_width viewport_height s
  = ({| world := w;
        calls := (calls s ++ [EvReadImage image_path])
                 ++ [EvCreate (request_for (E:=E) model task_prompt
                                           viewport_width viewport_height bytes)];
        ledger := ledger s ++ [usage_of scene_name r] |},
     Ok result).
Proof.
  intros Hread Hcreate Hcontent Hparse.
  rewrite (analyze_screenshot_answered model image_path task_prompt scene_name
             viewport_width viewport_height s bytes w r Hread Hcreate).
  unfold answer_of. rewrite Hcontent, Hparse. reflexivity.
Qed.

(** X8.  Whatever happens, a call of [analyze_screenshot] makes no call to
    the browser: it reads the image and sends at most one request. *)
Theorem analyze_screenshot_calls (s : state E) :
  exists later,
    calls (analyze_screenshot model image_path task_prompt scene_name
                              viewport_width viewport_height s).1
    = calls s ++ EvReadImage image_path :: later /\
    (later = [] \/ exists req, later = [EvCreate req]).
Proof.
  unfold analyze_screenshot, bind, encode_image, chat_completions_create,
    log_interaction.
  destruct (read_image E (world s) image_path) as [bytes|e]; cbn [world calls ledger].
  - destruct (create E (world s) _) as [w [r|e]] eqn:Hc; cbn [world calls ledger].
    + eexists. split; [|right; eexists; reflexivity].
      destruct (message_content r) as [content|];
        [destruct (json_loads E content)|]; cbn [fst calls];
        rewrite <- app_assoc; reflexivity.
    + eexists. split; [|right; eexists; reflexivity].
      cbn [fst calls]. rewrite <- app_assoc. reflexivity.
  - exists []. split; [reflexivity|left; reflexivity].
Qed.

End MoreAgentFacts.

(** ** More on the scenes *)

Section MoreSceneFacts.

Context {E : Env}.
Local Open Scope action_scope.

(** X9.  In scene 4 of the Amazon demo a decision without usable
    coordinates is not a failure: the button is clicked through its selector,
    without a mouse click, and the scene completes after its pause. *)
Theorem scene4_selector_fallback (d : gmap string pyval) (s s1 s2 : state E) :
  no_usable_coordinates d ->
  call (EvLocatorClick "#add-to-cart-button") s = (s1, Ok tt) ->
  sleep 3000 s1 = (s2, Ok tt) ->
  Amazon.scene4_act (VDict d) s = (s2, Ok tt) /\
  calls s2 = calls s ++ [EvLocatorClick "#add-to-cart-button"; EvSleep 3000].
Proof.
  intros Hd Hlocator Hsleep.
  destruct (read_coordinates_unusable d Hd) as (x & y & Hread & Hnone).
  split.
  - unfold Amazon.scene4_act. unfold bind at 1, lift. rewrite Hread, Hnone.
    rewrite (bind_ok _ _ _ _ _ (try_except_ok _ _ _ _ _ Hlocator)).
    exact Hsleep.
  - apply call_recorded in Hlocator. apply sleep_recorded in Hsleep.
    destruct Hlocator as [H1 _], Hsleep as [H2 _].
    rewrite H2, H1, <- app_assoc. reflexivity.
Qed.

(** X10.  When a decision of scene 4 has no usable coordinates and the click
    through the selector raises, scene 4 raises "Could not click Add to Cart
    button", whatever the cause, and its pause is not taken. *)
Theorem scene4_selector_fallback_fails
    (d : gmap string pyval) (s s1 : state E) (e : exn) :
  no_usable_coordinates d ->
  call (EvLocatorClick "#add-to-cart-button") s = (s1, Raise e) ->
  Amazon.scene4_act (VDict d) s
  = (s1, Raise (PyException "Could not click Add to Cart button")) /\
  calls s1 = calls s ++ [EvLocatorClick "#add-to-cart-button"].
Proof.
  intros Hd Hlocator.
  destruct (read_coordinates_unusable d Hd) as (x & y & Hread & Hnone).
  split.
  - unfold Amazon.scene4_act. unfold bind at 1, lift. rewrite Hread, Hnone.
    apply bind_raise. rewrite (try_except_raise _ _ _ _ _ Hlocator). reflexivity.
  - apply call_recorded in Hlocator. apply Hlocator.
Qed.

(** X11.  A located decision of scene 4 is clicked once and the scene
    completes after its pause; the address of the page is not consulted, so
    nothing confirms the click. *)
Theorem scene4_click_unverified (result x y : pyval) (s s1 s2 : state E) :
  located result x y ->
  mouse_click x y None s = (s1, Ok tt) ->
  sleep 3000 s1 = (s2, Ok tt) ->
  Amazon.scene4_act result s = (s2, Ok tt) /\
  calls s2 = calls s ++ [EvMouseClick x y None; EvSleep 3000].
Proof.
  intros (Hread & Hx & Hy) Hclick Hsleep. split.
  - unfold Amazon.scene4_act. unfold bind at 1, lift. rewrite Hread, Hx, Hy.
    rewrite (bind_ok _ _ _ _ _ Hclick). exact Hsleep.
  - apply mouse_click_recorded in Hclick. apply sleep_recorded in Hsleep.
    destruct Hclick as [H1 _], Hsleep as [H2 _].
    rewrite H2, H1, <- app_assoc. reflexivity.
Qed.

(** X12.  The Google demo has no selector fallback: when the address is
    unchanged after the click and after its repetition, scene 3 raises
    "Could not navigate to result page" right after the second pause. *)
Theorem google_scene3_gives_up
    (result x y : pyval) (s s1 s2 s3 s4 : state E) :
  located result x y ->
  mouse_click x y None s = (s1, Ok tt) ->
  sleep 3000 s1 = (s2, Ok tt) ->
  page_url E (world s2) = page_url E (world s) ->
  mouse_click x y (Some 1) s2 = (s3, Ok tt) ->
  sleep 3000 s3 = (s4, Ok tt) ->
  page_url E (world s4) = page_url E (world s) ->
  Google.scene3_act result s
  = (s4, Raise (PyException "Could not navigate to result page")) /\
  calls s4 = calls s ++ [EvMouseClick x y None; EvSleep 3000;
                         EvMouseClick x y (Some 1); EvSleep 3000].
Proof.
  intros Hloc Hclick Hsleep Hurl Hclick2 Hsleep2 Hurl2. split.
  - rewrite (google_unchanged_url result x y Hloc s s1 s2 Hclick Hsleep Hurl).
    unfold Google.scene3_url_unchanged.
    rewrite (bind_ok _ _ _ _ _ Hclick2), (bind_ok _ _ _ _ _ Hsleep2).
    unfold bind, get_url. rewrite Hurl2, String.eqb_refl. reflexivity.
  - apply mouse_click_recorded in Hclick, Hclick2.
    apply sleep_recorded in Hsleep, Hsleep2.
    destruct Hclick as [H1 _], Hsleep as [H2 _], Hclick2 as [H3 _], Hsleep2 as [H4 _].
    rewrite H4, H3, H2, H1, <- !app_assoc. reflexivity.
Qed.

(** X13.  When the address has changed after the first pause, scene 3 is
    over after one click and one pause, in the Amazon demo and in the
    Google demo: nothing is repeated and no selector is used. *)
Theorem first_click_confirmed (result x y : pyval) (s s1 : state E) :
  located result x y ->
  mouse_click x y None s = (s1, Ok tt) ->
  (forall s2,
      sleep 5000 s1 = (s2, Ok tt) ->
      page_url E (world s2) <> page_url E (world s) ->
      Amazon.scene3_act result s = (s2, Ok tt) /\
      calls s2 = calls s ++ [EvMouseClick x y None; EvSleep 5000]) /\
  (forall s2,
      sleep 3000 s1 = (s2, Ok tt) ->
      page_url E (world s2) <> page_url E (world s) ->
      Google.scene3_act result s = (s2, Ok tt) /\
      calls s2 = calls s ++ [EvMouseClick x y None; EvSleep 3000]).
Proof.
  intros Hloc Hclick.
  pose proof (mouse_click_recorded _ _ _ _ _ _ Hclick) as [H1 _].
  split; intros s2 Hsleep Hurl;
    pose proof (sleep_recorded _ _ _ _ Hsleep) as [H2 _].
  - split; [|rewrite H2, H1, <- app_assoc; reflexivity].
    rewrite (located_amazon_scene3 result x y Hloc).
    unfold bind at 1, get_url at 1.
    rewrite (bind_ok _ _ _ _ _ Hclick), (bind_ok _ _ _ _ _ Hsleep).
    unfold bind at 1, get_url at 1.
    destruct (String.eqb_spec (page_url E (world s)) (page_url E (world s2)));
      [congruence|reflexivity].
  - split; [|rewrite H2, H1, <- app_assoc; reflexivity].
    rewrite (located_google_scene3 result x y Hloc).
    unfold bind at 1, get_url at 1.
    rewrite (bind_ok _ _ _ _ _ Hclick), (bind_ok _ _ _ _ _ Hsleep).
    unfold bind at 1, get_url at 1.
    destruct (String.eqb_spec (page_url E (world s)) (page_url E (world s2)));
      [congruence|reflexivity].
Qed.

(** X14.  Scene 5 of the Amazon demo does not act on the verdict: with
    ['success'] falsy, or with confirmation elements that can be joined, it
    pauses, closes the browser and completes, in the same way. *)
Theorem scene5_verdict_ignored
    (c : config) (d : gmap string pyval) (path : string) (s s1 s2 s3 s4 : state E) :
  screenshot (screenshots_dir c) "vision_scene5_confirmation.png" s = (s1, Ok path) ->
  analyze_screenshot "gpt-4o" path (prompt_scene5 c) "Scene 5: Verify Success"
                     1920 1080 s1 = (s2, Ok (VDict d)) ->
  verdict_printable d ->
  sleep 2000 s2 = (s3, Ok tt) ->
  call EvBrowserClose s3 = (s4, Ok tt) ->
  Amazon.scene5 c s = (s4, Ok tt).
Proof.
  intros Hshot Hanalyze Hverdict Hsleep Hclose.
  unfold Amazon.scene5.
  rewrite (bind_ok _ _ _ _ _ Hshot), (bind_ok _ _ _ _ _ Hanalyze).
  unfold bind at 1, lift, py_get, py_get_default.
  assert (Hprint : (if truthy (default VNone (d !! "success"))
                    then elements <- lift (py_get_default (VDict d)
                                             "confirmation_elements" (VList [])) ;;
                         lift (Amazon.joinable elements)
                    else ret tt) s2 = (s2, Ok tt)).
  { destruct Hverdict as [-> | Hjoin]; [reflexivity|].
    destruct (truthy _); [|reflexivity].
    unfold bind, lift, py_get_default. rewrite Hjoin. reflexivity. }
  rewrite (bind_ok _ _ _ _ _ Hprint), (bind_ok _ _ _ _ _ Hsleep).
  exact Hclose.
Qed.

(** X15.  A verdict with ['success'] truthy and confirmation elements
    that cannot be joined (null, a number, a list with a non-string) makes
    scene 5 raise a [TypeError], before the pause and before the browser is
    closed. *)
Theorem scene5_unjoinable_elements
    (c : config) (d : gmap string pyval) (path : string) (s s1 s2 : state E) (e : exn) :
  screenshot (screenshots_dir c) "vision_scene5_confirmation.png" s = (s1, Ok path) ->
  analyze_screenshot "gpt-4o" path (prompt_scene5 c) "Scene 5: Verify Success"
                     1920 1080 s1 = (s2, Ok (VDict d)) ->
  truthy (default VNone (d !! "success")) = true ->
  Amazon.joinable (default (VList []) (d !! "confirmation_elements")) = Raise e ->
  Amazon.scene5 c s = (s2, Raise e).
Proof.
  intros Hshot Hanalyze Hsuccess Hjoin.
  unfold Amazon.scene5.
  rewrite (bind_ok _ _ _ _ _ Hshot), (bind_ok _ _ _ _ _ Hanalyze).
  unfold bind at 1, lift, py_get, py_get_default.
  rewrite Hsuccess. apply bind_raise.
  unfold bind, lift. rewrite Hjoin. reflexivity.
Qed.

(** X16.  The SDK demo checks the box for ['x'] only: a box whose ['x'] is
    present and not null is passed to [click_rect] as it is, whether or not
    it has ['y'], ['width'] and ['height']. *)
Theorem sdk_box_checked_for_x_only
    (d bbox : gmap string pyval) (x : pyval) (s s1 s2 : state E) :
  d !! "bbox" = Some (VDict bbox) ->
  bbox !! "x" = Some x ->
  is_none x = false ->
  call (EvClickRect (VDict bbox)) s = (s1, Ok tt) ->
  sleep 500 s1 = (s2, Ok tt) ->
  GoogleSdk.scene1_act (VDict d) s = (s2, Ok GoogleSdk.Continue).
Proof.
  intros Hbbox Hx Hnone Hclick Hsleep.
  assert (Htruthy : truthy (VDict bbox) = true).
  { cbn [truthy]. apply negb_true_iff, bool_decide_eq_false.
    intros Hsize. apply map_size_empty_iff in Hsize. subst bbox.
    rewrite lookup_empty in Hx. discriminate. }
  assert (Hinv : GoogleSdk.invalid_bbox (VDict d) = Ok false).
  { unfold GoogleSdk.invalid_bbox, py_get, py_get_default, py_item.
    rewrite Hbbox. cbn [from_option id rbind]. rewrite Htruthy.
    cbn [negb rbind]. rewrite Hx. cbn [from_option id]. rewrite Hnone. reflexivity. }
  unfold GoogleSdk.scene1_act. unfold bind at 1, lift. rewrite Hinv.
  unfold bind at 1, lift, py_item. rewrite Hbbox.
  rewrite (bind_ok _ _ _ _ _ Hclick), (bind_ok _ _ _ _ _ Hsleep). reflexivity.
Qed.

(** X17.  The answer that [analyze_screenshot] gives for content that does
    not parse has a null ['coordinates']: scene 1 of the Amazon demo then
    ends in an [AttributeError], raised by [coords.get], while scene 3 raises
    its own exception; neither makes a call after the decision. *)
Theorem malformed_answer_ends_scene (c : config) (e : string) (s sd : state E) :
  (Amazon.scene1_decide c s = (sd, Ok (parse_error_result e)) ->
   Amazon.scene1 c s = (sd, Raise no_attribute_get)) /\
  (Amazon.scene3_decide c s = (sd, Ok (parse_error_result e)) ->
   Amazon.scene3 c s
   = (sd, Raise (PyException "Could not find product coordinates"))).
Proof.
  split; intros Hdecide.
  - unfold Amazon.scene1. rewrite (bind_ok _ _ _ _ _ Hdecide). reflexivity.
  - unfold Amazon.scene3. rewrite (bind_ok _ _ _ _ _ Hdecide). reflexivity.
Qed.

(** X18.  The SDK demo only warns when the address is unchanged after the
    click: scene 3 goes on after one [click_rect] and one pause, whatever the
    address of the page is before and after. *)
Theorem sdk_scene3_unverified (result bbox : pyval) (s s1 s2 : state E) :
  GoogleSdk.invalid_bbox result = Ok false ->
  py_item result "bbox" = Ok bbox ->
  call (EvClickRect bbox) s = (s1, Ok tt) ->
  sleep 3000 s1 = (s2, Ok tt) ->
  GoogleSdk.scene3_act result s = (s2, Ok GoogleSdk.Continue) /\
  calls s2 = calls s ++ [EvClickRect bbox; EvSleep 3000].
Proof.
  intros Hvalid Hbbox Hclick Hsleep. split.
  - unfold GoogleSdk.scene3_act. unfold bind at 1, lift. rewrite Hvalid.
    unfold bind at 1, get_url at 1. unfold bind at 1, lift. rewrite Hbbox.
    rewrite (bind_ok _ _ _ _ _ Hclick), (bind_ok _ _ _ _ _ Hsleep). reflexivity.
  - apply call_recorded in Hclick. apply sleep_recorded in Hsleep.
    destruct Hclick as [H1 _], Hsleep as [H2 _].
    rewrite H2, H1, <- app_assoc. reflexivity.
Qed.

(** X19.  Whatever makes the scenes of the Amazon demo raise, [main] leaves
    the Playwright context and raises the same exception: the token summary
    is not saved and no video is generated. *)
Theorem main_scene_failure (c : config) (s sm sp s' sf : state E) (e : exn) :
  key_missing c = false ->
  call (EvMakedirs (screenshots_dir c)) s = (sm, Ok tt) ->
  call EvPlaywrightStart sm = (sp, Ok tt) ->
  Amazon.scenes c sp = (s', Raise e) ->
  call EvPlaywrightStop s' = (sf, Ok tt) ->
  Amazon.main c s = (sf, Raise e) /\
  calls sf = calls s' ++ [EvPlaywrightStop].
Proof.
  intros Hkey Hdirs Hstart Hscenes Hstop. split.
  - unfold Amazon.main. rewrite Hkey.
    rewrite (bind_ok _ _ _ _ _ Hdirs), (bind_ok _ _ _ _ _ Hstart).
    apply bind_raise. unfold finally. rewrite Hscenes, Hstop. reflexivity.
  - apply call_recorded in Hstop. apply Hstop.
Qed.

(** X20.  A failure of the video generation does not fail the run: when the
    scenes complete and the summary is saved, [main] completes even though
    [create_demo_video] raises. *)
Theorem main_video_failure
    (c : config) (s sm sp s' sf ss sd sv : state E) (e : exn) :
  key_missing c = false ->
  call (EvMakedirs (screenshots_dir c)) s = (sm, Ok tt) ->
  call EvPlaywrightStart sm = (sp, Ok tt) ->
  Amazon.scenes c sp = (s', Ok tt) ->
  call EvPlaywrightStop s' = (sf, Ok tt) ->
  call (EvSaveSummary (path_join (screenshots_dir c) "token_summary.json")) sf
  = (ss, Ok tt) ->
  call (EvMakedirs (path_join (script_dir c) "video")) ss = (sd, Ok tt) ->
  call (EvCreateVideo (screenshots_dir c) (Amazon.video_output c)) sd = (sv, Raise e) ->
  Amazon.main c s = (sv, Ok tt).
Proof.
  intros Hkey Hdirs Hstart Hscenes Hstop Hsave Hvideo_dir Hvideo.
  unfold Amazon.main. rewrite Hkey.
  rewrite (bind_ok _ _ _ _ _ Hdirs), (bind_ok _ _ _ _ _ Hstart).
  assert (Hwith : finally (Amazon.scenes c) (call EvPlaywrightStop) sp = (sf, Ok tt)).
  { unfold finally. rewrite Hscenes, Hstop. reflexivity. }
  rewrite (bind_ok _ _ _ _ _ Hwith), (bind_ok _ _ _ _ _ Hsave),
    (bind_ok _ _ _ _ _ Hvideo_dir).
  rewrite (try_except_raise _ _ _ _ _ Hvideo). reflexivity.
Qed.

End MoreSceneFacts.

(** ** The ledger over a run *)

Section LedgerFacts.

Context {E : Env}.
Local Open Scope action_scope.

Lemma keeps_ledger_ret {A} (a : A) : keeps_ledger (ret (E:=E) a).
Proof. intros s s' r H. injection H as <- _. reflexivity. Qed.

Lemma keeps_ledger_raise {A} (e : exn) : keeps_ledger (raise (E:=E) (A:=A) e).
Proof. intros s s' r H. injection H as <- _. reflexivity. Qed.

Lemma keeps_ledger_lift {A} (o : outcome A) : keeps_ledger (lift (E:=E) o).
Proof. intros s s' r H. injection H as <- _. reflexivity. Qed.

Lemma keeps_ledger_get_url : keeps_ledger (get_url (E:=E)).
Proof. intros s s' r H. injection H as <- _. reflexivity. Qed.

Lemma keeps_ledger_call (ev : event) : keeps_ledger (call (E:=E) ev).
Proof. intros s s' r H. apply call_recorded in H. apply H. Qed.

Lemma keeps_ledger_bind {A B} (m : M E A) (k : A -> M E B) :
  keeps_ledger m -> (forall a, keeps_ledger (k a)) -> keeps_ledger (bind m k).
Proof.
  intros Hm Hk s s' r. unfold bind.
  destruct (m s) as [s1 [a|e]] eqn:H1; intros H.
  - rewrite (Hk a _ _ _ H). exact (Hm _ _ _ H1).
  - injection H as <- _. exact (Hm _ _ _ H1).
Qed.

Lemma keeps_ledger_try_except {A} (m : M E A) (handler : exn -> M E A) :
  keeps_ledger m -> (forall e, keeps_ledger (handler e)) ->
  keeps_ledger (try_except m handler).
Proof.
  intros Hm Hh s s' r. unfold try_except.
  destruct (m s) as [s1 [a|e]] eqn:H1; intros H.
  - injection H as <- _. exact (Hm _ _ _ H1).
  - rewrite (Hh e _ _ _ H). exact (Hm _ _ _ H1).
Qed.

Lemma keeps_ledger_if {A} (b : bool) (m1 m2 : M E A) :
  keeps_ledger m1 -> keeps_ledger m2 -> keeps_ledger (if b then m1 else m2).
Proof. destruct b; auto. Qed.

Lemma logs_nothing {A} (m : M E A) : keeps_ledger m -> logs_scenes m [].
Proof.
  intros Hm s s' r H. exists []. rewrite (Hm _ _ _ H), app_nil_r.
  split; [reflexivity|]. destruct r; reflexivity.
Qed.

Lemma logs_scenes_bind {A B} (m : M E A) (k : A -> M E B) (n1 n2 : list string) :
  logs_scenes m n1 -> (forall a, logs_scenes (k a) n2) ->
  logs_scenes (bind m k) (n1 ++ n2).
Proof.
  intros Hm Hk s s' r. unfold bind.
  destruct (m s) as [s1 [a|e]] eqn:H1; intros H.
  - destruct (Hm _ _ _ H1) as (l1 & E1 & ->).
    destruct (Hk a _ _ _ H) as (l2 & E2 & Hl2).
    exists (n1 ++ l2). rewrite E2, E1, <- app_assoc. split; [reflexivity|].
    destruct r; [subst l2; reflexivity|apply prefix_app, Hl2].
  - injection H as <- <-.
    destruct (Hm _ _ _ H1) as (l1 & E1 & Hl1).
    exists l1. split; [exact E1|]. apply prefix_app_r. exact Hl1.
Qed.

Lemma logs_scenes_after {A B} (m : M E A) (k : A -> M E B) (names : list string) :
  keeps_ledger m -> (forall a, logs_scenes (k a) names) ->
  logs_scenes (bind m k) names.
Proof.
  intros Hm Hk. apply (logs_scenes_bind m k [] names); [|exact Hk].
  apply logs_nothing, Hm.
Qed.

Lemma logs_scenes_before {A B} (m : M E A) (k : A -> M E B) (names : list string) :
  logs_scenes m names -> (forall a, keeps_ledger (k a)) ->
  logs_scenes (bind m k) names.
Proof.
  intros Hm Hk. rewrite <- (app_nil_r names).
  apply logs_scenes_bind; [exact Hm|]. intros a. apply logs_nothing, Hk.
Qed.

Lemma analyze_screenshot_logs (model image_path task_prompt scene_name : string)
    (viewport_width viewport_height : Z) :
  logs_scenes (analyze_screenshot (E:=E) model image_path task_prompt scene_name
                                  viewport_width viewport_height)
              [scene_name].
Proof.
  intros s s' r H.
  apply analyze_screenshot_ledger in H. destruct r as [v|e].
  - destruct H as [resp H]. exists [scene_name]. rewrite H, map_app.
    split; reflexivity.
  - destruct H as [H | [resp H]].
    + exists []. rewrite H, app_nil_r. split; [reflexivity|]. apply prefix_nil.
    + exists [scene_name]. rewrite H, map_app. split; reflexivity.
Qed.

Ltac keeps_ledger_tac :=
  repeat first
    [ apply keeps_ledger_call | apply keeps_ledger_ret | apply keeps_ledger_raise
    | apply keeps_ledger_lift | apply keeps_ledger_get_url
    | apply keeps_ledger_bind | apply keeps_ledger_try_except
    | apply keeps_ledger_if
    | match goal with |- forall _, _ => intros ? end
    | progress unfold sleep, mouse_click, screenshot
    | match goal with |- keeps_ledger (match ?p with (_, _) => _ end) => destruct p end ].

Lemma scene_acts_keep_ledger (c : config) (result : pyval) :
  keeps_ledger (Amazon.scene1_act (E:=E) result) /\
  keeps_ledger (Amazon.scene2 (E:=E) c) /\
  keeps_ledger (Amazon.scene3_act (E:=E) result) /\
  keeps_ledger (Amazon.scene4_act (E:=E) result) /\
  keeps_ledger (Google.scene1_act (E:=E) result) /\
  keeps_ledger (Google.scene2 (E:=E) c) /\
  keeps_ledger (Google.scene3_act (E:=E) result) /\
  keeps_ledger (Google.scene4 (E:=E) c).
Proof.
  repeat split.
  - unfold Amazon.scene1_act. keeps_ledger_tac.
  - unfold Amazon.scene2. keeps_ledger_tac.
  - unfold Amazon.scene3_act, Amazon.scene3_url_unchanged,
      Amazon.scene3_selector_fallback. keeps_ledger_tac.
  - unfold Amazon.scene4_act. keeps_ledger_tac.
  - unfold Google.scene1_act. keeps_ledger_tac.
  - unfold Google.scene2. keeps_ledger_tac.
  - unfold Google.scene3_act, Google.scene3_url_unchanged. keeps_ledger_tac.
  - unfold Google.scene4. keeps_ledger_tac.
Qed.

(** X21.  The scenes of the Amazon demo record usage once per model call, in
    the order of the scenes: a run that completes has added the records of
    scenes 1, 3, 4 and 5, and a run that raises has added the first few of
    them.  Scene 2 asks the model nothing and records nothing. *)
Theorem amazon_scenes_ledger (c : config) :
  logs_scenes (Amazon.scenes (E:=E) c)
              ["Scene 1: Find Search Bar"; "Scene 3: Select Product";
               "Scene 4: Add to Cart"; "Scene 5: Verify Success"].
Proof.
  unfold Amazon.scenes.
  apply logs_scenes_after; [keeps_ledger_tac|intros _].
  apply logs_scenes_after; [keeps_ledger_tac|intros _].
  apply (logs_scenes_bind _ _ ["Scene 1: Find Search Bar"]
           ["Scene 3: Select Product"; "Scene 4: Add to Cart";
            "Scene 5: Verify Success"]).
  { unfold Amazon.scene1. apply logs_scenes_before.
    - unfold Amazon.scene1_decide.
      do 3 (apply logs_scenes_after; [keeps_ledger_tac|intros _]).
      apply logs_scenes_after; [keeps_ledger_tac|intros path].
      apply analyze_screenshot_logs.
    - intros result. apply (scene_acts_keep_ledger c result). }
  intros _.
  apply logs_scenes_after; [apply (scene_acts_keep_ledger c VNone)|intros _].
  apply (logs_scenes_bind _ _ ["Scene 3: Select Product"]
           ["Scene 4: Add to Cart"; "Scene 5: Verify Success"]).
  { unfold Amazon.scene3. apply logs_scenes_before.
    - unfold Amazon.scene3_decide.
      apply logs_scenes_after; [keeps_ledger_tac|intros path].
      apply analyze_screenshot_logs.
    - intros result. apply (scene_acts_keep_ledger c result). }
  intros _.
  apply (logs_scenes_bind _ _ ["Scene 4: Add to Cart"] ["Scene 5: Verify Success"]).
  { unfold Amazon.scene4. apply logs_scenes_before.
    - unfold Amazon.scene4_decide.
      do 2 (apply logs_scenes_after; [keeps_ledger_tac|intros _]).
      apply logs_scenes_after; [keeps_ledger_tac|intros path].
      apply analyze_screenshot_logs.
    - intros result. apply (scene_acts_keep_ledger c result). }
  intros _.
  unfold Amazon.scene5.
  apply logs_scenes_after; [keeps_ledger_tac|intros path].
  apply logs_scenes_before; [apply analyze_screenshot_logs|].
  intros result. keeps_ledger_tac.
Qed.

End LedgerFacts.

(** ** [filter_elements] and the ad filter *)

Module MoreFilterFacts.
Import FilterElements FilterElementsFacts.

(** The two reads of ['elements'] give the list of the snapshot, in a heap
    that extends the given one. *)
Lemma read_elements {A} (h : heap) (d : gmap string hval) (items : list hval)
    (k : heap -> list hval -> outcome A) :
  snapshot_elements h d items ->
  exists h',
    h ⊆ h' /\
    (let '(h1, elems0) := get_elements h d in
     rbind (py_len h1 elems0) (fun original_count =>
     let '(h2, elems) := get_elements h1 d in
     rbind (py_iter h2 elems) (fun items' => k h2 items')))
    = k h' items.
Proof.
  unfold snapshot_elements, get_elements. intros Helems.
  destruct (d !! "elements") as [v|] eqn:Hv.
  - destruct Helems as (l & -> & Hl).
    exists h. split; [reflexivity|].
    cbn [py_len py_iter]. rewrite Hl. reflexivity.
  - subst items.
    destruct (alloc_spec h (OList [])) as (Hf1 & Hh1 & Hsub1).
    destruct (alloc h (OList [])) as [h1 l1] eqn:Ha1.
    cbn [fst snd] in Hf1, Hh1, Hsub1.
    destruct (alloc_spec h1 (OList [])) as (Hf2 & Hh2 & Hsub2).
    destruct (alloc h1 (OList [])) as [h2 l2] eqn:Ha2.
    cbn [fst snd] in Hf2, Hh2, Hsub2.
    exists h2. split; [etrans; eassumption|].
    cbn [py_len py_iter].
    assert (H1 : h1 !! l1 = Some (OList [])) by (rewrite Hh1; apply lookup_insert_eq).
    assert (H2 : h2 !! l2 = Some (OList [])) by (rewrite Hh2; apply lookup_insert_eq).
    rewrite H1. cbn [rbind]. rewrite H2. reflexivity.
Qed.

Lemma comprehension_bad_element (h h' : heap) (exclude_roles : list string)
    (items : list hval) :
  h ⊆ h' ->
  Exists (not_a_dict h) items ->
  comprehension h' exclude_roles items = Raise (no_attribute "get").
Proof.
  intros Hsub Hbad. induction Hbad as [v items Hv|v items _ IH].
  - cbn [comprehension]. unfold keep_elem, dict_of.
    destruct v as [| | | | |l]; try reflexivity.
    destruct Hv as [its Hl].
    rewrite (lookup_weaken _ _ _ _ Hl Hsub). reflexivity.
  - cbn [comprehension]. rewrite IH.
    unfold keep_elem, dict_of.
    destruct v as [| | | | |l]; try reflexivity.
    destruct (h' !! l) as [[|d]|]; reflexivity.
Qed.

(** X22.  [filter_elements] takes a missing ['elements'] for an empty list,
    but not a null one: when the snapshot has ['elements'] and it is [None],
    a boolean or a number, the call raises the [TypeError] of [len]. *)
Theorem filter_elements_null_elements
    (h : heap) (snapshot_data : loc) (d : gmap string hval)
    (exclude_roles : list string) (v : hval) :
  h !! snapshot_data = Some (ODict d) ->
  d !! "elements" = Some v ->
  no_len v ->
  filter_elements h snapshot_data exclude_roles
  = Raise (TypeError "object has no len()").
Proof.
  intros Hsnap Hv Hno. unfold filter_elements. rewrite Hsnap.
  destruct (alloc h (ODict d)) as [h1 filtered_data].
  unfold get_elements. rewrite Hv.
  destruct v; try contradiction; reflexivity.
Qed.

(** X23.  When one of the elements of the snapshot is no dictionary,
    [filter_elements] raises the [AttributeError] of [elem.get]: it returns
    no partial result. *)
Theorem filter_elements_bad_element
    (h : heap) (snapshot_data : loc) (d : gmap string hval)
    (exclude_roles : list string) (items : list hval) :
  h !! snapshot_data = Some (ODict d) ->
  snapshot_elements h d items ->
  Exists (not_a_dict h) items ->
  filter_elements h snapshot_data exclude_roles = Raise (no_attribute "get").
Proof.
  intros Hsnap Helems Hbad. unfold filter_elements. rewrite Hsnap.
  destruct (alloc_spec h (ODict d)) as (Hf1 & Hh1 & Hsub1).
  destruct (alloc h (ODict d)) as [h1 filtered_data] eqn:Ha1.
  cbn [fst snd] in Hf1, Hh1, Hsub1.
  assert (Helems1 : snapshot_elements h1 d items).
  { unfold snapshot_elements in *. destruct (d !! "elements"); [|exact Helems].
    destruct Helems as (l & -> & Hl). exists l. split; [reflexivity|].
    eapply lookup_weaken; eassumption. }
  destruct (read_elements h1 d items
              (fun h3 items' =>
                 rbind (comprehension h3 exclude_roles items') (fun kept =>
                 let '(h4, filtered_elements) := alloc h3 (OList kept) in
                 match h4 !! filtered_data with
                 | Some (ODict fd) =>
                     Ok (<[filtered_data :=
                             ODict (<["elements" := HRef filtered_elements]> fd)]> h4,
                         filtered_data)
                 | _ => Raise (TypeError "object does not support item assignment")
                 end))
              Helems1) as (h3 & Hsub3 & Hread).
  etrans; [exact Hread|].
  rewrite (comprehension_bad_element h h3 exclude_roles items); [reflexivity| |exact Hbad].
  etrans; eassumption.
Qed.

(** What [filter_elements] returns over elements that are dictionaries. *)
Lemma filter_elements_returns
    (h : heap) (snapshot_data : loc) (d : gmap string hval)
    (exclude_roles : list string) (items : list hval) :
  h !! snapshot_data = Some (ODict d) ->
  snapshot_elements h d items ->
  Forall (is_element h) items ->
  exists h' filtered_data filtered_elements,
    filter_elements h snapshot_data exclude_roles = Ok (h', filtered_data) /\
    h' !! filtered_data = Some (ODict (<["elements" := HRef filtered_elements]> d)) /\
    h' !! filtered_elements
    = Some (OList (List.filter (role_allowed h exclude_roles) items)) /\
    h !! filtered_data = None /\
    (forall a o, h !! a = Some o -> h' !! a = Some o).
Proof.
  intros Hsnap Helems Hall. unfold filter_elements. rewrite Hsnap.
  destruct (alloc_spec h (ODict d)) as (Hf1 & Hh1 & Hsub1).
  destruct (alloc h (ODict d)) as [h1 filtered_data] eqn:Ha1.
  cbn [fst snd] in Hf1, Hh1, Hsub1.
  assert (Hfd1 : h1 !! filtered_data = Some (ODict d))
    by (rewrite Hh1; apply lookup_insert_eq).
  assert (Helems1 : snapshot_elements h1 d items).
  { unfold snapshot_elements in *. destruct (d !! "elements"); [|exact Helems].
    destruct Helems as (l & -> & Hl). exists l. split; [reflexivity|].
    eapply lookup_weaken; eassumption. }
  destruct (read_elements h1 d items
              (fun h3 items' =>
                 rbind (comprehension h3 exclude_roles items') (fun kept =>
                 let '(h4, filtered_elements) := alloc h3 (OList kept) in
                 match h4 !! filtered_data with
                 | Some (ODict fd) =>
                     Ok (<[filtered_data :=
                             ODict (<["elements" := HRef filtered_elements]> fd)]> h4,
                         filtered_data)
                 | _ => Raise (TypeError "object does not support item assignment")
                 end))
              Helems1) as (h3 & Hsub3 & Hread).
  rewrite Hread. clear Hread.
  assert (Hsub : h ⊆ h3) by (etrans; eassumption).
  rewrite (comprehension_filter h h3 exclude_roles items Hsub Hall). cbn [rbind].
  set (kept := List.filter (role_allowed h exclude_roles) items).
  destruct (alloc_spec h3 (OList kept)) as (Hf4 & Hh4 & Hsub4).
  destruct (alloc h3 (OList kept)) as [h4 filtered_elements] eqn:Ha4.
  cbn [fst snd] in Hf4, Hh4, Hsub4.
  assert (Hfd3 : h3 !! filtered_data = Some (ODict d))
    by (eapply lookup_weaken; eassumption).
  assert (Hfd4 : h4 !! filtered_data = Some (ODict d))
    by (eapply lookup_weaken; eassumption).
  rewrite Hfd4.
  assert (Hne : filtered_data <> filtered_elements) by congruence.
  eexists _, filtered_data, filtered_elements.
  split; [reflexivity|].
  split; [apply lookup_insert_eq|].
  split.
  { rewrite lookup_insert_ne by exact Hne. rewrite Hh4. apply lookup_insert_eq. }
  split; [exact Hf1|].
  intros a o Hao.
  assert (a <> filtered_data) by congruence.
  rewrite lookup_insert_ne by congruence.
  eapply lookup_weaken; [|exact Hsub4].
  eapply lookup_weaken; [exact Hao|exact Hsub].
Qed.

Lemma filter_twice {A} (f g : A -> bool) (l : list A) :
  List.filter g (List.filter f l) = List.filter (fun x => f x && g x) l.
Proof.
  induction l as [|x l IH]; [reflexivity|].
  cbn [List.filter]. destruct (f x); cbn [List.filter andb]; rewrite IH; reflexivity.
Qed.

Lemma filter_agree {A} (f g : A -> bool) (l : list A) :
  Forall (fun x => f x = g x) l -> List.filter f l = List.filter g l.
Proof.
  induction 1 as [|x l Hx _ IH]; [reflexivity|].
  cbn [List.filter]. rewrite Hx, IH. reflexivity.
Qed.

Lemma Forall_filter_keeps {A} (P : A -> Prop) (f : A -> bool) (l : list A) :
  Forall P l -> Forall P (List.filter f l).
Proof.
  induction 1 as [|x l Hx _ IH]; [constructor|].
  cbn [List.filter]. destruct (f x); [constructor|]; assumption.
Qed.

Section Lower.
Import AdFilter.
Variable lower : string -> string.

Lemma non_ad_filter (h h' : heap) (items : list hval) :
  h ⊆ h' ->
  Forall (has_text h) items ->
  non_ad lower h' items = Ok (List.filter (fun v => negb (marked lower h v)) items).
Proof.
  intros Hsub Hall. induction Hall as [|v items Hv _ IH]; [reflexivity|].
  destruct Hv as (l & d & -> & Hl & Htext).
  cbn [non_ad List.filter]. rewrite IH.
  unfold is_ad, dict_of, marked. rewrite (lookup_weaken _ _ _ _ Hl Hsub), Hl.
  cbn [rbind].
  destruct Htext as [-> | [text ->]]; cbn [from_option id default rbind];
    reflexivity.
Qed.

Lemma non_ad_raises (h h' : heap) (items : list hval) :
  h ⊆ h' ->
  Exists (text_not_a_string h) items ->
  exists message, non_ad lower h' items = Raise (AttributeError message).
Proof.
  intros Hsub Hbad. induction Hbad as [v items Hv|v items _ [message IH]].
  - destruct Hv as (l & d & t & -> & Hl & Ht & Hstr).
    cbn [non_ad]. unfold is_ad, dict_of.
    rewrite (lookup_weaken _ _ _ _ Hl Hsub). cbn [rbind]. rewrite Ht.
    cbn [from_option id default].
    destruct t; try contradiction; eexists; reflexivity.
  - cbn [non_ad]. rewrite IH. unfold is_ad, dict_of.
    destruct v as [| | | | |l]; try (eexists; reflexivity).
    destruct (h' !! l) as [[|d]|]; try (eexists; reflexivity).
    cbn [rbind].
    destruct (default (HStr "") (d !! "text")); eexists; reflexivity.
Qed.

(** What the ad filter leaves in the heap. *)
Lemma filter_ads_returns
    (h : heap) (filtered_data : loc) (d : gmap string hval) (items : list hval) :
  h !! filtered_data = Some (ODict d) ->
  snapshot_elements h d items ->
  Forall (has_text h) items ->
  exists h' non_ad_elements,
    filter_ads lower h filtered_data = Ok h' /\
    h' !! filtered_data = Some (ODict (<["elements" := HRef non_ad_elements]> d)) /\
    h' !! non_ad_elements
    = Some (OList (List.filter (fun v => negb (marked lower h v)) items)) /\
    h !! non_ad_elements = None /\
    (forall a o, a <> filtered_data -> h !! a = Some o -> h' !! a = Some o).
Proof.
  intros Hfd Helems Hall. unfold filter_ads. rewrite Hfd.
  destruct (read_elements h d items
              (fun h2 items' =>
                 rbind (non_ad lower h2 items') (fun kept =>
                 let '(h3, non_ad_elements) := alloc h2 (OList kept) in
                 match h3 !! filtered_data with
                 | Some (ODict fd) =>
                     Ok (<[filtered_data :=
                             ODict (<["elements" := HRef non_ad_elements]> fd)]> h3)
                 | _ => Raise (TypeError "object does not support item assignment")
                 end))
              Helems) as (h2 & Hsub2 & Hread).
  rewrite Hread. clear Hread.
  rewrite (non_ad_filter h h2 items Hsub2 Hall). cbn [rbind].
  set (kept := List.filter (fun v => negb (marked lower h v)) items).
  destruct (alloc_spec h2 (OList kept)) as (Hf3 & Hh3 & Hsub3).
  destruct (alloc h2 (OList kept)) as [h3 non_ad_elements] eqn:Ha3.
  cbn [fst snd] in Hf3, Hh3, Hsub3.
  assert (Hfd2 : h2 !! filtered_data = Some (ODict d))
    by (eapply lookup_weaken; eassumption).
  assert (Hfd3 : h3 !! filtered_data = Some (ODict d))
    by (eapply lookup_weaken; eassumption).
  rewrite Hfd3.
  assert (Hne : filtered_data <> non_ad_elements) by congruence.
  exists (<[filtered_data := ODict (<["elements" := HRef non_ad_elements]> d)]> h3),
    non_ad_elements.
  split; [reflexivity|].
  split; [apply lookup_insert_eq|].
  split.
  { rewrite lookup_insert_ne by exact Hne. rewrite Hh3. apply lookup_insert_eq. }
  split.
  { destruct (h !! non_ad_elements) as [o|] eqn:Ho; [|reflexivity].
    rewrite (lookup_weaken _ _ _ _ Ho Hsub2) in Hf3. discriminate. }
  intros a o Ha Hao.
  rewrite lookup_insert_ne by congruence.
  eapply lookup_weaken; [|exact Hsub3].
  eapply lookup_weaken; [exact Hao|exact Hsub2].
Qed.

(** X24.  An element whose ['text'] is there but is no string (null, as for
    an element without text in the answer of the API) makes the ad filter
    raise an [AttributeError]: the default of [elem.get('text', '')] covers
    a missing key only. *)
Theorem filter_ads_null_text
    (h : heap) (filtered_data : loc) (d : gmap string hval) (items : list hval) :
  h !! filtered_data = Some (ODict d) ->
  snapshot_elements h d items ->
  Exists (text_not_a_string h) items ->
  exists message, filter_ads lower h filtered_data = Raise (AttributeError message).
Proof.
  intros Hfd Helems Hbad. unfold filter_ads. rewrite Hfd.
  destruct (read_elements h d items
              (fun h2 items' =>
                 rbind (non_ad lower h2 items') (fun kept =>
                 let '(h3, non_ad_elements) := alloc h2 (OList kept) in
                 match h3 !! filtered_data with
                 | Some (ODict fd) =>
                     Ok (<[filtered_data :=
                             ODict (<["elements" := HRef non_ad_elements]> fd)]> h3)
                 | _ => Raise (TypeError "object does not support item assignment")
                 end))
              Helems) as (h2 & Hsub2 & Hread).
  rewrite Hread. clear Hread.
  destruct (non_ad_raises h h2 items Hsub2 Hbad) as [message ->].
  exists message. reflexivity.
Qed.

Lemma marked_weaken (h h' : heap) (v : hval) :
  (forall a o, h !! a = Some o -> h' !! a = Some o) ->
  has_text h v -> has_text h' v /\ marked lower h' v = marked lower h v.
Proof.
  intros Hsub (l & d & -> & Hl & Htext). split.
  - exists l, d. split; [reflexivity|]. split; [apply Hsub, Hl|exact Htext].
  - unfold marked. rewrite (Hsub _ _ Hl), Hl. reflexivity.
Qed.

(** X25.  The two filters of scene 3, one after the other: the dictionary
    that [filter_elements] returns ends with the elements whose role is not
    excluded and whose text has no ad marker, in their order, and the ad
    filter, which assigns to that dictionary, changes no object of the
    caller: the snapshot and its own list are as they were. *)
Theorem scene3_filters_compose
    (h : heap) (snapshot_data : loc) (d : gmap string hval)
    (exclude_roles : list string) (items : list hval) :
  h !! snapshot_data = Some (ODict d) ->
  snapshot_elements h d items ->
  Forall (has_text h) items ->
  exists h1 filtered_data h2 non_ad_elements,
    filter_elements h snapshot_data exclude_roles = Ok (h1, filtered_data) /\
    filter_ads lower h1 filtered_data = Ok h2 /\
    h2 !! filtered_data = Some (ODict (<["elements" := HRef non_ad_elements]> d)) /\
    h2 !! non_ad_elements
    = Some (OList (List.filter
                     (fun v => role_allowed h exclude_roles v && negb (marked lower h v))
                     items)) /\
    (forall a o, h !! a = Some o -> h2 !! a = Some o).
Proof.
  intros Hsnap Helems Hall.
  assert (Hdicts : Forall (is_element h) items).
  { eapply Forall_impl; [exact Hall|].
    intros v (l & dv & -> & Hl & _). exists l, dv. split; [reflexivity|exact Hl]. }
  destruct (filter_elements_returns h snapshot_data d exclude_roles items
              Hsnap Helems Hdicts)
    as (h1 & filtered_data & filtered_elements & Hcall & Hfd1 & Hfe1 & Hfresh & Hframe).
  set (kept := List.filter (role_allowed h exclude_roles) items) in *.
  assert (Hkept : Forall (has_text h1) kept /\
                  Forall (fun v => negb (marked lower h1 v) = negb (marked lower h v)) kept).
  { split; apply Forall_filter_keeps; (eapply Forall_impl; [exact Hall|]); intros v Hv;
      destruct (marked_weaken h h1 v Hframe Hv) as [Ht Hm]; [exact Ht|].
    rewrite Hm. reflexivity. }
  destruct Hkept as [Htext1 Hmarked].
  assert (Helems1 : snapshot_elements h1 (<["elements" := HRef filtered_elements]> d) kept).
  { unfold snapshot_elements. rewrite lookup_insert_eq.
    exists filtered_elements. split; [reflexivity|exact Hfe1]. }
  destruct (filter_ads_returns h1 filtered_data _ kept Hfd1 Helems1 Htext1)
    as (h2 & non_ad_elements & Hads & Hfd2 & Hlist & _ & Hframe2).
  exists h1, filtered_data, h2, non_ad_elements.
  split; [exact Hcall|]. split; [exact Hads|].
  split; [rewrite Hfd2, insert_insert_eq; reflexivity|].
  split.
  - rewrite Hlist. f_equal. f_equal.
    rewrite (filter_agree _ _ kept Hmarked). apply filter_twice.
  - intros a o Hao. apply Hframe2; [congruence|]. apply Hframe, Hao.
Qed.

End Lower.
End MoreFilterFacts.

(** ** Sample runs of the further properties *)

Module MoreRuns.
Import Samples MoreSamples.
Local Open Scope action_scope.

Lemma analyze_screenshot_unreadable_image_witness :
  analyze_screenshot (E:=unreadable) "gpt-4o" "shot.png" "Find the product."
                     "Scene 3: Select Product" 1920 1080 blank_unreadable
  = ({| world := (tt : World unreadable);
        calls := [] ++ [EvReadImage "shot.png"];
        ledger := [] |},
     Raise (ExternalError "No such file or directory")).
Proof.
  apply (analyze_screenshot_unreadable_image (E:=unreadable)
           "gpt-4o" "shot.png" "Find the product." "Scene 3: Select Product"
           1920 1080 blank_unreadable (ExternalError "No such file or directory")).
  reflexivity.
Defined.

Lemma analyze_screenshot_parsed_witness :
  analyze_screenshot (E:=stuck_page true (Some "scenario A"))
    "gpt-4o" "shot.png" "Find the product." "Scene 3: Select Product" 1920 1080
    (blank true (Some "scenario A"))
  = ({| world := (tt : World (stuck_page true (Some "scenario A")));
        calls := ([] ++ [EvReadImage "shot.png"])
                 ++ [EvCreate (request_for (E:=stuck_page true (Some "scenario A"))
                                 "gpt-4o" "Find the product." 1920 1080 "png")];
        ledger := [] ++ [usage_of "Scene 3: Select Product"
                                  (sample_response (Some "scenario A"))] |},
     Ok scenario_a).
Proof.
  apply (analyze_screenshot_parsed (E:=stuck_page true (Some "scenario A"))
           "gpt-4o" "shot.png" "Find the product." "Scene 3: Select Product"
           1920 1080 (blank true (Some "scenario A")) "png" "scenario A" tt
           (sample_response (Some "scenario A")) scenario_a);
    reflexivity.
Defined.

Lemma scene4_selector_fallback_witness :
  exists s2 : state (stuck_page true None),
    Amazon.scene4_act (E:=stuck_page true None) (VDict scenario_b) (blank true None)
    = (s2, Ok tt) /\
    calls s2 = [] ++ [EvLocatorClick "#add-to-cart-button"; EvSleep 3000].
Proof.
  eexists.
  eapply (scene4_selector_fallback (E:=stuck_page true None)
            scenario_b (blank true None) _ _ SampleRuns.scenario_b_unusable);
    reflexivity.
Defined.

Lemma scene4_selector_fallback_fails_witness :
  exists s1 : state (stuck_page false None),
    Amazon.scene4_act (E:=stuck_page false None) (VDict scenario_b) (blank false None)
    = (s1, Raise (PyException "Could not click Add to Cart button")) /\
    calls s1 = [] ++ [EvLocatorClick "#add-to-cart-button"].
Proof.
  eexists.
  eapply (scene4_selector_fallback_fails (E:=stuck_page false None)
            scenario_b (blank false None) _ (ExternalError "Timeout 30000ms exceeded.")
            SampleRuns.scenario_b_unusable).
  reflexivity.
Defined.

Lemma scene4_click_unverified_witness :
  exists s2 : state (stuck_page true None),
    Amazon.scene4_act (E:=stuck_page true None) scenario_a (blank true None)
    = (s2, Ok tt) /\
    calls s2 = [] ++ [EvMouseClick (VInt 960) (VInt 120) None; EvSleep 3000].
Proof.
  eexists.
  eapply (scene4_click_unverified (E:=stuck_page true None)
            scenario_a (VInt 960) (VInt 120) (blank true None) _ _
            SampleRuns.scenario_a_located);
    reflexivity.
Defined.

Lemma google_scene3_gives_up_witness :
  exists s4 : state (stuck_page true None),
    Google.scene3_act (E:=stuck_page true None) scenario_a (blank true None)
    = (s4, Raise (PyException "Could not navigate to result page")) /\
    calls s4 = [] ++ [EvMouseClick (VInt 960) (VInt 120) None; EvSleep 3000;
                      EvMouseClick (VInt 960) (VInt 120) (Some 1); EvSleep 3000].
Proof.
  eexists.
  eapply (google_scene3_gives_up (E:=stuck_page true None)
            scenario_a (VInt 960) (VInt 120) (blank true None) _ _ _ _
            SampleRuns.scenario_a_located);
    reflexivity.
Defined.

Lemma first_click_confirmed_witness :
  (exists s2 : state (responsive None),
      Amazon.scene3_act (E:=responsive None) scenario_a (blank_responsive None)
      = (s2, Ok tt) /\
      calls s2 = [] ++ [EvMouseClick (VInt 960) (VInt 120) None; EvSleep 5000]) /\
  (exists s2 : state (responsive None),
      Google.scene3_act (E:=responsive None) scenario_a (blank_responsive None)
      = (s2, Ok tt) /\
      calls s2 = [] ++ [EvMouseClick (VInt 960) (VInt 120) None; EvSleep 3000]).
Proof.
  pose (s1 := (mouse_click (E:=responsive None) (VInt 960) (VInt 120) None
                 (blank_responsive None)).1).
  destruct (first_click_confirmed (E:=responsive None)
              scenario_a (VInt 960) (VInt 120) (blank_responsive None) s1
              SampleRuns.scenario_a_located eq_refl) as [Hamazon Hgoogle].
  split; eexists.
  - apply Hamazon; [reflexivity|]. vm_compute. discriminate.
  - apply Hgoogle; [reflexivity|]. vm_compute. discriminate.
Defined.

Lemma scene5_verdict_ignored_witness :
  exists s4 : state (stuck_page true (Some "scenario A")),
    Amazon.scene5 (E:=stuck_page true (Some "scenario A")) sample_config
                  (blank true (Some "scenario A"))
    = (s4, Ok tt).
Proof.
  pose (E := stuck_page true (Some "scenario A")).
  pose (s := blank true (Some "scenario A")).
  pose (path := path_join (screenshots_dir sample_config) "vision_scene5_confirmation.png").
  pose (s1 := (screenshot (E:=E) (screenshots_dir sample_config)
                 "vision_scene5_confirmation.png" s).1).
  pose (s2 := (analyze_screenshot (E:=E) "gpt-4o" path (prompt_scene5 sample_config)
                 "Scene 5: Verify Success" 1920 1080 s1).1).
  pose (s3 := (sleep (E:=E) 2000 s2).1).
  pose (s4 := (call (E:=E) EvBrowserClose s3).1).
  exists s4.
  apply (scene5_verdict_ignored (E:=E) sample_config
           {[ "coordinates" := VDict {[ "x" := VInt 960; "y" := VInt 120 ]} ]}
           path s s1 s2 s3 s4);
    try (vm_compute; reflexivity).
  left. vm_compute. reflexivity.
Defined.

Lemma scene5_unjoinable_elements_witness :
  exists s2 : state confirming,
    Amazon.scene5 (E:=confirming) sample_config blank_confirming
    = (s2, Raise (TypeError "can only join an iterable")).
Proof.
  pose (path := path_join (screenshots_dir sample_config) "vision_scene5_confirmation.png").
  pose (s1 := (screenshot (E:=confirming) (screenshots_dir sample_config)
                 "vision_scene5_confirmation.png" blank_confirming).1).
  pose (s2 := (analyze_screenshot (E:=confirming) "gpt-4o" path
                 (prompt_scene5 sample_config) "Scene 5: Verify Success" 1920 1080 s1).1).
  exists s2.
  apply (scene5_unjoinable_elements (E:=confirming) sample_config verdict_without_list
           path blank_confirming s1 s2);
    vm_compute; reflexivity.
Defined.

Lemma sdk_box_checked_for_x_only_witness :
  exists s2 : state (stuck_page true None),
    GoogleSdk.scene1_act (E:=stuck_page true None) (VDict box_with_x_only) (blank true None)
    = (s2, Ok GoogleSdk.Continue).
Proof.
  eexists.
  eapply (sdk_box_checked_for_x_only (E:=stuck_page true None)
            box_with_x_only {[ "x" := VInt 10 ]} (VInt 10) (blank true None));
    reflexivity.
Defined.

Lemma sdk_scene3_unverified_witness :
  exists s2 : state (stuck_page true None),
    GoogleSdk.scene3_act (E:=stuck_page true None) (VDict box_with_x_only) (blank true None)
    = (s2, Ok GoogleSdk.Continue) /\
    calls s2 = [] ++ [EvClickRect (VDict {[ "x" := VInt 10 ]}); EvSleep 3000].
Proof.
  eexists.
  eapply (sdk_scene3_unverified (E:=stuck_page true None)
            (VDict box_with_x_only) (VDict {[ "x" := VInt 10 ]}) (blank true None));
    reflexivity.
Defined.

Lemma malformed_answer_ends_scene_witness :
  (Amazon.scene1 (E:=stuck_page true (Some "Sure! Here is the JSON")) sample_config
                 (blank true (Some "Sure! Here is the JSON"))).2
  = Raise no_attribute_get /\
  (Amazon.scene3 (E:=stuck_page true (Some "Sure! Here is the JSON")) sample_config
                 (blank true (Some "Sure! Here is the JSON"))).2
  = Raise (PyException "Could not find product coordinates").
Proof.
  pose (E := stuck_page true (Some "Sure! Here is the JSON")).
  pose (s := blank true (Some "Sure! Here is the JSON")).
  pose (sd1 := (Amazon.scene1_decide (E:=E) sample_config s).1).
  pose (sd3 := (Amazon.scene3_decide (E:=E) sample_config s).1).
  split.
  - refine (f_equal snd
              (proj1 (malformed_answer_ends_scene (E:=E) sample_config
                        "Expecting value: line 1 column 1 (char 0)" s sd1) _)).
    vm_compute. reflexivity.
  - refine (f_equal snd
              (proj2 (malformed_answer_ends_scene (E:=E) sample_config
                        "Expecting value: line 1 column 1 (char 0)" s sd3) _)).
    vm_compute. reflexivity.
Defined.

Lemma main_scene_failure_witness :
  (Amazon.main (E:=offline) sample_config blank_offline).2
  = Raise (ExternalError "Connection error.") /\
  last (calls (Amazon.main (E:=offline) sample_config blank_offline).1)
  = Some EvPlaywrightStop.
Proof.
  pose (sm := (call (E:=offline) (EvMakedirs (screenshots_dir sample_config))
                 blank_offline).1).
  pose (sp := (call (E:=offline) EvPlaywrightStart sm).1).
  pose (s' := (Amazon.scenes (E:=offline) sample_config sp).1).
  pose (sf := (call (E:=offline) EvPlaywrightStop s').1).
  destruct (main_scene_failure (E:=offline) sample_config blank_offline sm sp s' sf
              (ExternalError "Connection error."))
    as [Hmain Hcalls]; try (vm_compute; reflexivity).
  split.
  - exact (f_equal snd Hmain).
  - change (last (calls (Amazon.main (E:=offline) sample_config blank_offline).1)
            = Some EvPlaywrightStop).
    rewrite Hmain. cbn [fst]. rewrite Hcalls. apply last_snoc.
Defined.

Lemma main_video_failure_witness :
  (Amazon.main (E:=responsive (Some "scenario A")) sample_config
               (blank_responsive (Some "scenario A"))).2
  = Ok tt.
Proof.
  pose (E := responsive (Some "scenario A")).
  pose (s := blank_responsive (Some "scenario A")).
  pose (sm := (call (E:=E) (EvMakedirs (screenshots_dir sample_config)) s).1).
  pose (sp := (call (E:=E) EvPlaywrightStart sm).1).
  pose (s' := (Amazon.scenes (E:=E) sample_config sp).1).
  pose (sf := (call (E:=E) EvPlaywrightStop s').1).
  pose (ss := (call (E:=E) (EvSaveSummary
                 (path_join (screenshots_dir sample_config) "token_summary.json")) sf).1).
  pose (sd := (call (E:=E) (EvMakedirs (path_join (script_dir sample_config) "video")) ss).1).
  pose (sv := (call (E:=E) (EvCreateVideo (screenshots_dir sample_config)
                              (Amazon.video_output sample_config)) sd).1).
  refine (f_equal snd
            (main_video_failure (E:=E) sample_config s sm sp s' sf ss sd sv
               (ExternalError "No module named moviepy") _ _ _ _ _ _ _ _));
    vm_compute; reflexivity.
Defined.

Lemma amazon_scenes_ledger_witness :
  map ur_scene
      (ledger (Amazon.scenes (E:=responsive (Some "scenario A")) sample_config
                             (blank_responsive (Some "scenario A"))).1)
  = [] ++ ["Scene 1: Find Search Bar"; "Scene 3: Select Product";
           "Scene 4: Add to Cart"; "Scene 5: Verify Success"].
Proof.
  pose (s := blank_responsive (Some "scenario A")).
  pose (s' := (Amazon.scenes (E:=responsive (Some "scenario A")) sample_config s).1).
  destruct (amazon_scenes_ledger (E:=responsive (Some "scenario A")) sample_config
              s s' (Ok tt)) as (added & Hadded & ->).
  - vm_compute. reflexivity.
  - exact Hadded.
Defined.

Section FileRuns.
Import DirSize FileSamples DirSizeFacts.

Lemma get_dir_size_bounds_witness :
  0 <= get_dir_size (Some cache_tree) <= sum_sizes (file_sizes cache_tree).
Proof.
  apply (get_dir_size_bounds cache_tree).
  cbn. repeat constructor; lia.
Defined.

Lemma get_dir_size_readable_witness :
  get_dir_size (Some (Directory (Some readable_entries)))
  = sum_sizes (file_sizes (Directory (Some readable_entries))).
Proof. apply (get_dir_size_readable readable_entries). reflexivity. Defined.

End FileRuns.

Section FilterRuns.
Import FilterElements AdFilter FileSamples MoreFilterFacts.

Lemma filter_elements_null_elements_witness :
  filter_elements null_elements_heap 1 ["img"; "button"; "link"]
  = Raise (TypeError "object has no len()").
Proof.
  apply (filter_elements_null_elements null_elements_heap 1
           {[ "elements" := HNone ]} ["img"; "button"; "link"] HNone).
  - vm_compute. reflexivity.
  - vm_compute. reflexivity.
  - exact I.
Defined.

Lemma filter_elements_bad_element_witness :
  filter_elements loose_heap 1 ["img"; "button"; "link"] = Raise (no_attribute "get").
Proof.
  apply (filter_elements_bad_element loose_heap 1 loose_snapshot
           ["img"; "button"; "link"] [HStr "combobox"]).
  - vm_compute. reflexivity.
  - exists 2%positive. split; vm_compute; reflexivity.
  - constructor. exact I.
Defined.

Lemma filter_ads_null_text_witness :
  exists message,
    filter_ads ascii_lower textless_heap 1 = Raise (AttributeError message).
Proof.
  apply (filter_ads_null_text ascii_lower textless_heap 1 textless_snapshot [HRef 3]).
  - vm_compute. reflexivity.
  - exists 2%positive. split; vm_compute; reflexivity.
  - constructor.
    exists 3%positive, {[ "role" := HStr "link"; "text" := HNone ]}, HNone.
    repeat split; vm_compute; reflexivity.
Defined.

Lemma scene3_filters_compose_witness :
  exists h1 filtered_data h2 non_ad_elements,
    filter_elements results_heap 1 ["searchbox"; "button"; "img"]
    = Ok (h1, filtered_data) /\
    filter_ads ascii_lower h1 filtered_data = Ok h2 /\
    h2 !! filtered_data
    = Some (ODict (<["elements" := HRef non_ad_elements]> results_snapshot)) /\
    h2 !! non_ad_elements = Some (OList [HRef 3]) /\
    (forall a o, results_heap !! a = Some o -> h2 !! a = Some o).
Proof.
  apply (scene3_filters_compose ascii_lower results_heap 1 results_snapshot
           ["searchbox"; "button"; "img"] [HRef 3; HRef 4; HRef 5]).
  - vm_compute. reflexivity.
  - exists 2%positive. split; vm_compute; reflexivity.
  - repeat constructor.
    + exists 3%positive, {[ "role" := HStr "link"; "text" := HStr "Japan Travel Guide" ]}.
      split; [reflexivity|]. split; [vm_compute; reflexivity|].
      right. eexists. vm_compute. reflexivity.
    + exists 4%positive, {[ "role" := HStr "link"; "text" := HStr "Roads of Japan" ]}.
      split; [reflexivity|]. split; [vm_compute; reflexivity|].
      right. eexists. vm_compute. reflexivity.
    + exists 5%positive, {[ "role" := HStr "img" ]}.
      split; [reflexivity|]. split; [vm_compute; reflexivity|].
      left. vm_compute. reflexivity.
Defined.

End FilterRuns.

Section SizeRuns.
Import CacheSizes SizeArithmetic SizeArithmeticFacts.
Import DoubleArithmetic DoubleArithmeticFacts.

Lemma format_size_every_count_witness :
  format_size (PInt 1536000) = Ok (decimal_size (nearest_double 1536000)) /\
  decimal_size (nearest_double 1536000) = "1.5 MB".
Proof.
  split; [|vm_compute; reflexivity].
  apply (proj1 (format_size_every_count 1536000 ltac:(lia))).
  vm_compute. reflexivity.
Defined.

Lemma format_size_decimal_witness :
  format_size (PInt 1536) = Ok (decimal_size 1536) /\ decimal_size 1536 = "1.5 KB".
Proof.
  split; [|vm_compute; reflexivity].
  apply (format_size_decimal 1536). vm_compute. split; [discriminate|reflexivity].
Defined.

Lemma format_size_rounds_up_to_1024_witness :
  format_size (PInt 1048575) = Ok "1024.0 KB".
Proof.
  apply (format_size_rounds_up_to_1024 1048575 1).
  - lia.
  - vm_compute. discriminate.
  - reflexivity.
Defined.

End SizeRuns.

End MoreRuns.
